(** * The retrieval core of the study chatbot: EnhancedVectorDatabase

    A shallow embedding of the class [EnhancedVectorDatabase]
    ([enhancedVectorDB_simplified.js], the vector database [documentService]
    loads): the in-memory chunk store, the multi-signal similarity score,
    session scoped search with its text-search fallback, cross-document
    grouping, context assembly and the session statistics.  Source lines are
    the lines of that file.

    Conventions of the embedding.
    - JavaScript strings are [string]s of ASCII characters; [length] counts
      characters, and [\s], [\w] and [toLowerCase] are read on ASCII.
    - Counters such as [wordCounts] and the groups of [crossDocumentSearch]
      are plain objects used as maps: association lists in insertion order
      ([Obj]), with the key order of [Object.keys].  Every key is an own
      property: a word that names a property all objects inherit (such as
      [constructor]) is counted like any other word, which the source does
      not do; what is stated of a counter is stated of words that name no
      such property ([plainWords], [plainKeys], [plainText]).
    - The stores ([documents], [embeddings], [sessionDocuments]) are [Map]s:
      association lists in insertion order ([JsMap]).
    - Scores are real numbers ([R]): the arithmetic of the source is read
      exactly, without the rounding of IEEE doubles (the four weights add up
      to 1).  Counts, lengths and the quantities derived from them by the four
      operations are [nat], [Z] and [Q]; NaN, where the source can produce it,
      is [None].
    - The similarity engine is read a second time in the arithmetic of the
      source, binary64 with rounding to nearest ([Double]): the weights then
      add up to 0.9999999999999999.  What depends on rounding, or on the
      threshold the search tests, is stated there.  Counts and sizes are
      below 2^53 (a text has fewer characters), where they are doubles
      exactly.
    - [limit] and [maxTokens] are counts ([nat]); times are milliseconds
      ([Z]), and the clock ([Date.now()], [new Date()]) is an argument [now].
    - The npm packages ([natural], [stopword], [keyword-extractor],
      [string-similarity]) are an interface, [Packages]. *)

From Stdlib Require Import String Ascii List Bool Arith ZArith Lia.
From Stdlib Require Import QArith Qround Qreals Qminmax.
From Stdlib Require Import Reals Lra Psatz.
From Stdlib Require Import Permutation DecimalString.
From Stdlib Require Import Sorted DecimalNat.
From Stdlib Require Floats Uint63.
Import ListNotations.

Local Open Scope string_scope.
Local Open Scope nat_scope.

(** ** JavaScript built-ins used by the service *)

Module Js.

(** [\s] on ASCII text: tab, line feed, vertical tab, form feed, carriage
    return and space. *)
Definition isSpace (c : ascii) : bool :=
  let n := nat_of_ascii c in ((9 <=? n) && (n <=? 13)) || (n =? 32).

Definition isDigit (c : ascii) : bool :=
  let n := nat_of_ascii c in (48 <=? n) && (n <=? 57).

Definition isUpper (c : ascii) : bool :=
  let n := nat_of_ascii c in (65 <=? n) && (n <=? 90).

Definition isLower (c : ascii) : bool :=
  let n := nat_of_ascii c in (97 <=? n) && (n <=? 122).

(** [\w]: letters, digits and the underscore. *)
Definition isWordChar (c : ascii) : bool :=
  isDigit c || isUpper c || isLower c || (nat_of_ascii c =? 95).

Definition lowerChar (c : ascii) : ascii :=
  if isUpper c then ascii_of_nat (nat_of_ascii c + 32) else c.

Fixpoint mapChars (f : ascii -> ascii) (s : string) : string :=
  match s with
  | EmptyString => EmptyString
  | String c r => String (f c) (mapChars f r)
  end.

Fixpoint anyChar (p : ascii -> bool) (s : string) : bool :=
  match s with
  | EmptyString => false
  | String c r => p c || anyChar p r
  end.

(** [s.toLowerCase()] *)
Definition toLowerCase (s : string) : string := mapChars lowerChar s.

(** [s.replace(/\s+/g, ' ')]: every maximal run of white space becomes one
    space. *)
Fixpoint collapseRuns (inRun : bool) (s : string) : string :=
  match s with
  | EmptyString => EmptyString
  | String c r =>
      if isSpace c
      then if inRun then collapseRuns true r else String " " (collapseRuns true r)
      else String c (collapseRuns false r)
  end.

Fixpoint trimStart (s : string) : string :=
  match s with
  | EmptyString => EmptyString
  | String c r => if isSpace c then trimStart r else s
  end.

Fixpoint trimEnd (s : string) : string :=
  match s with
  | EmptyString => EmptyString
  | String c r =>
      match trimEnd r with
      | EmptyString => if isSpace c then EmptyString else String c EmptyString
      | r' => String c r'
      end
  end.

(** [s.trim()] *)
Definition trim (s : string) : string := trimEnd (trimStart s).

(** [s.split(/[sep]+/)]: the pieces between the maximal runs of separator
    characters.  A run at the start or at the end of [s] leaves an empty piece
    there, and the empty string splits into one empty piece. *)
Fixpoint splitRuns (sep : ascii -> bool) (inRun : bool) (s : string) : list string :=
  match s with
  | EmptyString => [EmptyString]
  | String c r =>
      if sep c
      then if inRun then splitRuns sep true r
           else EmptyString :: splitRuns sep true r
      else match splitRuns sep false r with
           | piece :: pieces => String c piece :: pieces
           | [] => [String c EmptyString]
           end
  end.

Definition split (sep : ascii -> bool) (s : string) : list string :=
  splitRuns sep false s.

(** [s.includes(sub)] *)
Fixpoint includes (s sub : string) : bool :=
  if String.prefix sub s then true
  else match s with
       | EmptyString => false
       | String _ r => includes r sub
       end.

(** [s.startsWith(p)] *)
Definition startsWith (s p : string) : bool := String.prefix p s.

(** [s.substring(0, n)] *)
Definition substring0 (n : nat) (s : string) : string := String.substring 0 n s.

(** [String(n)] for an array index [n], as a template literal prints it. *)
Definition ofNat (n : nat) : string := NilZero.string_of_uint (Nat.to_uint n).

(** [list.includes(x)] on strings. *)
Definition mem (x : string) (l : list string) : bool := existsb (String.eqb x) l.

(** [[...new Set(list)]]: the first occurrence of every element, in order. *)
Fixpoint dedupe (l : list string) : list string :=
  match l with
  | [] => []
  | x :: t => x :: filter (fun y => negb (String.eqb y x)) (dedupe t)
  end.

(** [list.slice(0, n)] for a count [n]. *)
Definition slice0 {A : Type} (n : nat) (l : list A) : list A := firstn n l.

(** [list.sort(cmp)], which is stable.  [precedes y x] says [cmp(x, y) > 0]:
    [y] has to come before [x] although [x] came first. *)
Fixpoint insertBy {A : Type} (precedes : A -> A -> bool) (x : A) (l : list A) : list A :=
  match l with
  | [] => [x]
  | y :: t => if precedes y x then y :: insertBy precedes x t else x :: l
  end.

Definition sortBy {A : Type} (precedes : A -> A -> bool) (l : list A) : list A :=
  fold_right (insertBy precedes) [] l.

(** A comparison of reals as a boolean, for [if (a > b)] and comparators. *)
Definition Rltb (a b : R) : bool := if Rlt_dec a b then true else false.

(** [Math.round(x)] on a rational. *)
Definition roundQ (x : Q) : Z := Qfloor (x + (1 # 2)).

(** [Math.round(x)] on a real. *)
Definition roundR (x : R) : Z := (up (x + / 2) - 1)%Z.

(** [Math.ceil(x)] on a rational. *)
Definition ceilQ (x : Q) : Z := Qceiling x.

End Js.

(** ** Plain objects used as maps

    An object is the list of its own properties in insertion order.
    [Object.keys] lists array-index keys first, in ascending numeric order,
    and then the other keys in insertion order. *)

Module Obj.

Definition t (V : Type) : Type := list (string * V).

Fixpoint get {V : Type} (o : t V) (k : string) : option V :=
  match o with
  | [] => None
  | (k', v) :: r => if String.eqb k' k then Some v else get r k
  end.

(** [o[k] = v] *)
Fixpoint set {V : Type} (o : t V) (k : string) (v : V) : t V :=
  match o with
  | [] => [(k, v)]
  | (k', v') :: r => if String.eqb k' k then (k', v) :: r else (k', v') :: set r k v
  end.

Fixpoint digits (s : string) (acc : N) : option N :=
  match s with
  | EmptyString => Some acc
  | String c r =>
      if Js.isDigit c
      then digits r (acc * 10 + N.of_nat (nat_of_ascii c - 48))%N
      else None
  end.

(** The array index a key denotes, if any: a canonical decimal numeral (no
    leading zero) of value at most 2^32 - 2. *)
Definition arrayIndex (k : string) : option N :=
  match k with
  | EmptyString => None
  | String c r =>
      if (Ascii.eqb c "0" && negb (String.eqb r EmptyString))%bool then None
      else match digits k 0%N with
           | Some n => if (n <=? 4294967294)%N then Some n else None
           | None => None
           end
  end.

Definition isIndex (k : string) : bool :=
  match arrayIndex k with Some _ => true | None => false end.

Definition indexOf (k : string) : N :=
  match arrayIndex k with Some n => n | None => 0%N end.

(** [Object.keys(o)] *)
Definition keys {V : Type} (o : t V) : list string :=
  let own := Js.dedupe (map fst o) in
  Js.sortBy (fun y x => (indexOf y <? indexOf x)%N) (filter isIndex own)
  ++ filter (fun k => negb (isIndex k)) own.

(** [Object.entries(o)] *)
Definition entries {V : Type} (o : t V) : list (string * V) :=
  flat_map (fun k => match get o k with Some v => [(k, v)] | None => [] end) (keys o).

(** [o[k] || 0] on a counter. *)
Definition count (o : t nat) (k : string) : nat :=
  match get o k with Some n => n | None => 0 end.

(** [o[k] = (o[k] || 0) + 1] *)
Definition bump (o : t nat) (k : string) : t nat := set o k (count o k + 1).

(** A counter filled by [words.forEach(w => o[w] = (o[w] || 0) + 1)]. *)
Definition tally (words : list string) : t nat := fold_left bump words [].

End Obj.

(** ** [Map] objects: entries in insertion order *)

Module JsMap.

Definition t (V : Type) : Type := list (string * V).

Definition get {V : Type} (m : t V) (k : string) : option V := Obj.get m k.

Definition has {V : Type} (m : t V) (k : string) : bool :=
  match get m k with Some _ => true | None => false end.

(** [m.set(k, v)]: an existing key keeps its place. *)
Definition set {V : Type} (m : t V) (k : string) (v : V) : t V := Obj.set m k v.

(** [m.delete(k)] *)
Definition delete {V : Type} (m : t V) (k : string) : t V :=
  filter (fun e => negb (String.eqb (fst e) k)) m.

(** [Array.from(m.keys())] *)
Definition keys {V : Type} (m : t V) : list string := map fst m.

(** [Array.from(m.values())] *)
Definition values {V : Type} (m : t V) : list V := map snd m.

End JsMap.

(** ** The npm packages the service calls

    [stem] is [natural.PorterStemmer.stem], [removeStopwords] is
    [removeStopwords(words, eng)] of [stopword], [keywordExtract] is
    [keyword.extract(text, options)] of [keyword-extractor], with [None] when
    the call throws, and [compareTwoStrings] is
    [stringSimilarity.compareTwoStrings]. *)

Class Packages : Type := {
  stem : string -> string;
  removeStopwords : list string -> list string;
  keywordExtract : string -> option (list string);
  compareTwoStrings : string -> string -> R
}.

(** ** Data model *)

(** The record [createSemanticVector] returns. *)
Record Semantic : Type := {
  hasQuestions : bool;
  hasNumbers : bool;
  hasDefinitions : bool;
  hasExamples : bool;
  hasComparisons : bool;
  hasProcess : bool;
  hasCausal : bool;
  sentiment : Z
}.

(** The feature record [createTextEmbedding] returns ([textLength] is its
    [length] field). *)
Record Embedding : Type := {
  tfidf : Obj.t nat;
  wordFreq : Obj.t nat;
  semantic : Semantic;
  keywords : list string;
  textLength : nat;
  wordCount : nat;
  avgWordLength : Q
}.

Record Metadata : Type := { filename : option string }.

(** An entry of the [embeddings] map.  A search result built by the fallback
    text search carries no [embedding], [keywords] or [vectors]; an entry
    read back by [loadIndex] carries whatever the file held. *)
Record Chunk : Type := {
  documentId : string;
  chunkIndex : nat;
  text : string;
  embedding : option Embedding;
  metadata : Metadata;
  chunkKeywords : option (list string);
  vectors : option (Obj.t nat)
}.

Record Complexity : Type := {
  roundedWordLength : Q;
  lexicalDiversity : Q;
  readabilityScore : Q
}.

(** [avgWordsPerChunk] and [avgSentencesPerChunk] are [None] when the
    quotient is not finite (a document with no chunk). *)
Record Statistics : Type := {
  totalChunks : nat;
  totalWords : nat;
  totalSentences : nat;
  avgWordsPerChunk : option Z;
  avgSentencesPerChunk : option Z;
  complexity : Complexity
}.

(** An entry of the [documents] map; [addedAt] in milliseconds. *)
Record DocData : Type := {
  id : string;
  chunks : list string;
  docMetadata : Metadata;
  docEmbeddings : list Embedding;
  addedAt : Z;
  sessionId : string;
  docKeywords : list string;
  statistics : Statistics
}.

Record Store : Type := {
  documents : JsMap.t DocData;
  embeddings : JsMap.t Chunk;
  sessionDocuments : JsMap.t (list string)
}.

(** [{...embedding, similarity, score}] *)
Record Result : Type := {
  chunk : Chunk;
  similarity : R;
  score : R
}.

Record DocumentGroup : Type := {
  groupDocumentId : string;
  groupChunks : list Result;
  avgSimilarity : R;
  maxSimilarity : R;
  chunkCount : nat;
  qualityBonus : Q;
  relevanceScore : R
}.

Record Source : Type := {
  sourceDocumentId : string;
  sourceFilename : string;
  sourceSimilarity : R;
  snippet : string;
  sourceKeywords : list string
}.

Record Context : Type := {
  context : string;
  sources : list Source;
  error : option string;
  totalResults : option nat;
  confidence : option R
}.

Record SessionStats : Type := {
  documentCount : nat;
  chunkCount' : nat;
  estimatedTokens : Z;
  uniqueKeywords : list string;
  lastUpdated : option Z;
  avgDocumentQuality : Q
}.

Definition emptyStore : Store :=
  {| documents := []; embeddings := []; sessionDocuments := [] |}.

(** ** Feature extraction *)

Section Features.

Context {P : Packages}.

(** [preprocessText], source lines 99-104. *)
Definition preprocessText (text : string) : string :=
  Js.trim
    (Js.collapseRuns false
       (Js.mapChars (fun c => if Js.isWordChar c || Js.isSpace c then c else " "%char)
          (Js.toLowerCase text))).

(** [createTfidfVector], source lines 106-117. *)
Definition createTfidfVector (text : string) : Obj.t nat :=
  let words := Js.split Js.isSpace (preprocessText text) in
  let stemmed := map stem words in
  let cleaned := removeStopwords stemmed in
  Obj.tally cleaned.

(** [createWordFrequencyVector], source lines 119-129. *)
Definition createWordFrequencyVector (words : list string) : Obj.t nat :=
  let cleaned := removeStopwords words in
  fold_left (fun freq word => Obj.bump freq (stem (Js.toLowerCase word))) cleaned [].

Definition positive : list string :=
  ["good"; "great"; "excellent"; "effective"; "successful"; "important"; "significant"].

Definition negative : list string :=
  ["bad"; "poor"; "failed"; "problem"; "issue"; "difficult"; "challenge"].

(** [calculateSimpleSentiment], source lines 147-160. *)
Definition calculateSimpleSentiment (text : string) : Z :=
  let words := Js.split Js.isSpace (Js.toLowerCase text) in
  fold_left
    (fun score word =>
       let score := if Js.mem word positive then (score + 1)%Z else score in
       if Js.mem word negative then (score - 1)%Z else score)
    words 0%Z.

(** [/a|b|c/.test(s)] for literal alternatives. *)
Definition testAny (alternatives : list string) (s : string) : bool :=
  existsb (Js.includes s) alternatives.

(** [createSemanticVector], source lines 131-145. *)
Definition createSemanticVector (text : string) : Semantic :=
  let lower := Js.toLowerCase text in
  {| hasQuestions := Js.includes text "?";
     hasNumbers := Js.anyChar Js.isDigit text;
     hasDefinitions := testAny ["is"; "are"; "means"; "refers to"; "defined as"] lower;
     hasExamples := testAny ["example"; "such as"; "for instance"; "including"] lower;
     hasComparisons := testAny ["compare"; "contrast"; "versus"; "different"; "similar"] lower;
     hasProcess := testAny ["step"; "process"; "method"; "procedure"; "algorithm"] lower;
     hasCausal := testAny ["because"; "since"; "due to"; "caused by"; "result"] lower;
     sentiment := calculateSimpleSentiment text |}.

(** [fallbackKeywordExtraction], source lines 180-196. *)
Definition fallbackKeywordExtraction (text : string) : list string :=
  let words := Js.split Js.isSpace (preprocessText text) in
  let cleaned := removeStopwords words in
  let stemmed := map stem cleaned in
  let wordFreq :=
    fold_left
      (fun freq word => if 3 <? String.length word then Obj.bump freq word else freq)
      stemmed [] in
  map fst
    (Js.slice0 10
       (Js.sortBy (fun b a => snd a <? snd b) (Obj.entries wordFreq))).

(** The [try] block is the call of the package; the [catch] block is the
    fallback.  Source lines 162-174. *)
Definition extractChunkKeywords (text : string) : list string :=
  match keywordExtract text with
  | Some extraction_result => Js.slice0 10 extraction_result
  | None => fallbackKeywordExtraction text
  end.

(** [extractDocumentKeywords], source lines 176-178. *)
Definition extractDocumentKeywords (text : string) : list string :=
  Js.slice0 20 (extractChunkKeywords text).

(** [createWordVectors], source lines 198-210. *)
Definition createWordVectors (text : string) : Obj.t nat :=
  let words := Js.split Js.isSpace (preprocessText text) in
  fold_left
    (fun vector word =>
       if 2 <? String.length word then Obj.bump vector (stem word) else vector)
    words [].

Definition sumLengths (words : list string) : nat :=
  fold_left (fun sum word => sum + String.length word) words 0.

Definition natQ (n : nat) : Q := inject_Z (Z.of_nat n).

(** [createTextEmbedding], source lines 83-97. *)
Definition createTextEmbedding (text : string) : Embedding :=
  let cleaned := preprocessText text in
  let words := filter (fun word => 2 <? String.length word) (Js.split Js.isSpace cleaned) in
  {| tfidf := createTfidfVector text;
     wordFreq := createWordFrequencyVector words;
     semantic := createSemanticVector text;
     keywords := extractChunkKeywords text;
     textLength := String.length text;
     wordCount := List.length words;
     (* 0 / 0 is NaN, and [NaN || 0] is 0 *)
     avgWordLength :=
       if List.length words =? 0 then 0%Q
       else (natQ (sumLengths words) / natQ (List.length words))%Q |}.

(** [createEnhancedEmbeddings], source lines 78-81. *)
Definition createEnhancedEmbeddings (texts : list string) : list Embedding :=
  map createTextEmbedding texts.

Definition Qltb (a b : Q) : bool := negb (Qle_bool b a).

(** [calculateComplexity], source lines 227-238. *)
Definition calculateComplexity (text : string) : Complexity :=
  let words := Js.split Js.isSpace text in
  let avgWordLength := (natQ (sumLengths words) / natQ (List.length words))%Q in
  let uniqueWords := List.length (Js.dedupe (map Js.toLowerCase words)) in
  let lexicalDiversity := (natQ uniqueWords / natQ (List.length words))%Q in
  {| roundedWordLength := (inject_Z (Js.roundQ (avgWordLength * 100)) / 100)%Q;
     lexicalDiversity := (inject_Z (Js.roundQ (lexicalDiversity * 100)) / 100)%Q;
     readabilityScore :=
       Qmax 0 (Qmin 100 ((100 - avgWordLength * 5) + lexicalDiversity * 30))%Q |}.

Definition isSentenceEnd (c : ascii) : bool :=
  Ascii.eqb c "." || Ascii.eqb c "!" || Ascii.eqb c "?".

(** [Math.round(n / d)], [None] when [d] is 0 and the quotient is not
    finite. *)
Definition roundedQuotient (n d : nat) : option Z :=
  if d =? 0 then None else Some (Js.roundQ (natQ n / natQ d)).

(** [calculateDocumentStatistics], source lines 212-225. *)
Definition calculateDocumentStatistics (chunks : list string) : Statistics :=
  let totalText := String.concat " " chunks in
  let words := Js.split Js.isSpace totalText in
  let sentences :=
    filter (fun s => negb (String.eqb (Js.trim s) EmptyString))
      (Js.split isSentenceEnd totalText) in
  {| totalChunks := List.length chunks;
     totalWords := List.length words;
     totalSentences := List.length sentences;
     avgWordsPerChunk := roundedQuotient (List.length words) (List.length chunks);
     avgSentencesPerChunk := roundedQuotient (List.length sentences) (List.length chunks);
     complexity := calculateComplexity totalText |}.

End Features.

(** ** Similarity engine *)

Section Similarity.

Local Open Scope R_scope.

(** [calculateTfidfSimilarity], source lines 311-336. *)
Definition calculateTfidfSimilarity (vec1 vec2 : Obj.t nat) : R :=
  let keys1 := Obj.keys vec1 in
  let keys2 := Obj.keys vec2 in
  let intersection := filter (fun key => Js.mem key keys2) keys1 in
  if (List.length intersection =? 0)%nat then 0
  else
    let allKeys := Js.dedupe (keys1 ++ keys2) in
    let '(dotProduct, norm1, norm2) :=
      fold_left
        (fun '(dotProduct, norm1, norm2) key =>
           let val1 := Obj.count vec1 key in
           let val2 := Obj.count vec2 key in
           (dotProduct + val1 * val2, norm1 + val1 * val1, norm2 + val2 * val2)%nat)
        allKeys (0, 0, 0)%nat in
    if ((norm1 =? 0) || (norm2 =? 0))%nat then 0
    else INR dotProduct / (sqrt (INR norm1) * sqrt (INR norm2)).

(** [calculateVectorSimilarity], source lines 338-340. *)
Definition calculateVectorSimilarity (vec1 vec2 : Obj.t nat) : R :=
  calculateTfidfSimilarity vec1 vec2.

(** [calculateKeywordSimilarity], source lines 342-352. *)
Definition calculateKeywordSimilarity (keywords1 keywords2 : list string) : R :=
  if ((List.length keywords1 =? 0) || (List.length keywords2 =? 0))%nat then 0
  else
    let set1 := Js.dedupe (map Js.toLowerCase keywords1) in
    let set2 := Js.dedupe (map Js.toLowerCase keywords2) in
    let intersection := filter (fun k => Js.mem k set2) set1 in
    let union := Js.dedupe (set1 ++ set2) in
    INR (List.length intersection) / INR (List.length union).

(** The keys of a semantic record whose values are booleans. *)
Definition booleanFeatures : list (Semantic -> bool) :=
  [hasQuestions; hasNumbers; hasDefinitions; hasExamples; hasComparisons;
   hasProcess; hasCausal].

(** Both sentiments are numbers in every semantic record, so the function
    returns from inside the sentiment test.  Source lines 354-372. *)
Definition calculateSemanticSimilarity (sem1 sem2 : Semantic) : R :=
  let '(matches, total) :=
    fold_left
      (fun '(matches, total) feature =>
         (if Bool.eqb (feature sem1) (feature sem2) then matches + 1 else matches,
          total + 1)%nat)
      booleanFeatures (0, 0)%nat in
  let sentimentSim := 1 - IZR (Z.abs (sentiment sem1 - sentiment sem2)) / 10 in
  if (0 <? total)%nat then ((INR matches / INR total) + sentimentSim) / 2
  else sentimentSim.

(** [calculateEnhancedSimilarity], source lines 284-309. *)
Definition calculateEnhancedSimilarity (queryEmb docEmb : Embedding) : R :=
  let totalSimilarity := 0 in
  let weights := 0 in
  let tfidfSim := calculateTfidfSimilarity (tfidf queryEmb) (tfidf docEmb) in
  let totalSimilarity := totalSimilarity + tfidfSim * 0.4 in
  let weights := weights + 0.4 in
  let wordFreqSim := calculateVectorSimilarity (wordFreq queryEmb) (wordFreq docEmb) in
  let totalSimilarity := totalSimilarity + wordFreqSim * 0.3 in
  let weights := weights + 0.3 in
  let keywordSim := calculateKeywordSimilarity (keywords queryEmb) (keywords docEmb) in
  let totalSimilarity := totalSimilarity + keywordSim * 0.2 in
  let weights := weights + 0.2 in
  let semanticSim := calculateSemanticSimilarity (semantic queryEmb) (semantic docEmb) in
  let totalSimilarity := totalSimilarity + semanticSim * 0.1 in
  let weights := weights + 0.1 in
  if Js.Rltb 0 weights then totalSimilarity / weights else 0.

End Similarity.

(** ** The similarity engine in double precision

    The same four sub-scores and their weighted sum with the numbers of the
    source: IEEE doubles ([PrimFloat]: binary64, rounding to nearest even).
    Counts and sizes are integers, doubles exactly as long as they stay
    below 2^53; they are kept in [nat] and enter the arithmetic through
    [ofNat].  The sums of their products are accumulated in doubles, as the
    source does.  The difference of two sentiment scores is an integer as
    well. *)

Module Double.

Import PrimFloat.

Local Open Scope float_scope.

(** A count as a double. *)
Definition ofNat (n : nat) : float := of_uint63 (Uint63.of_Z (Z.of_nat n)).

(** [calculateTfidfSimilarity], source lines 311-336. *)
Definition calculateTfidfSimilarity (vec1 vec2 : Obj.t nat) : float :=
  let keys1 := Obj.keys vec1 in
  let keys2 := Obj.keys vec2 in
  let intersection := filter (fun key => Js.mem key keys2) keys1 in
  if (List.length intersection =? 0)%nat then 0
  else
    let allKeys := Js.dedupe (keys1 ++ keys2) in
    let '(dotProduct, norm1, norm2) :=
      fold_left
        (fun '(dotProduct, norm1, norm2) key =>
           let val1 := ofNat (Obj.count vec1 key) in
           let val2 := ofNat (Obj.count vec2 key) in
           (dotProduct + val1 * val2, norm1 + val1 * val1, norm2 + val2 * val2))
        allKeys (0, 0, 0) in
    if (norm1 =? 0) || (norm2 =? 0) then 0
    else dotProduct / (sqrt norm1 * sqrt norm2).

(** [calculateVectorSimilarity], source lines 338-340. *)
Definition calculateVectorSimilarity (vec1 vec2 : Obj.t nat) : float :=
  calculateTfidfSimilarity vec1 vec2.

(** [calculateKeywordSimilarity], source lines 342-352. *)
Definition calculateKeywordSimilarity (keywords1 keywords2 : list string) : float :=
  if ((List.length keywords1 =? 0) || (List.length keywords2 =? 0))%nat then 0
  else
    let set1 := Js.dedupe (map Js.toLowerCase keywords1) in
    let set2 := Js.dedupe (map Js.toLowerCase keywords2) in
    let intersection := filter (fun k => Js.mem k set2) set1 in
    let union := Js.dedupe (set1 ++ set2) in
    ofNat (List.length intersection) / ofNat (List.length union).

(** [calculateSemanticSimilarity], source lines 354-372. *)
Definition calculateSemanticSimilarity (sem1 sem2 : Semantic) : float :=
  let '(matches, total) :=
    fold_left
      (fun '(matches, total) feature =>
         (if Bool.eqb (feature sem1) (feature sem2) then matches + 1 else matches,
          total + 1)%nat)
      booleanFeatures (0, 0)%nat in
  let sentimentSim :=
    1 - ofNat (Z.abs_nat (sentiment sem1 - sentiment sem2)) / 10 in
  if (0 <? total)%nat then ((ofNat matches / ofNat total) + sentimentSim) / 2
  else sentimentSim.

(** [calculateEnhancedSimilarity], source lines 284-309. *)
Definition calculateEnhancedSimilarity (queryEmb docEmb : Embedding) : float :=
  let totalSimilarity := 0 in
  let weights := 0 in
  let tfidfSim := calculateTfidfSimilarity (tfidf queryEmb) (tfidf docEmb) in
  let totalSimilarity := totalSimilarity + tfidfSim * 0.4 in
  let weights := weights + 0.4 in
  let wordFreqSim := calculateVectorSimilarity (wordFreq queryEmb) (wordFreq docEmb) in
  let totalSimilarity := totalSimilarity + wordFreqSim * 0.3 in
  let weights := weights + 0.3 in
  let keywordSim := calculateKeywordSimilarity (keywords queryEmb) (keywords docEmb) in
  let totalSimilarity := totalSimilarity + keywordSim * 0.2 in
  let weights := weights + 0.2 in
  let semanticSim := calculateSemanticSimilarity (semantic queryEmb) (semantic docEmb) in
  let totalSimilarity := totalSimilarity + semanticSim * 0.1 in
  let weights := weights + 0.1 in
  if 0 <? weights then totalSimilarity / weights else 0.

(** The sum of the four weights as the source adds them up. *)
Definition weights : float := 0 + 0.4 + 0.3 + 0.2 + 0.1.

End Double.

(** ** The store and the search coordinator *)

Section Database.

Context {P : Packages}.

Local Open Scope R_scope.

(** [`${documentId}_${index}`] *)
Definition chunkId (documentId : string) (index : nat) : string :=
  (documentId ++ "_" ++ Js.ofNat index)%string.

(** [chunkTexts.forEach((chunk, index) => this.embeddings.set(...))], source
    lines 55-68. *)
Fixpoint setChunks (documentId : string) (metadata : Metadata)
  (embs : list Embedding) (index : nat) (chunkTexts : list string)
  (m : JsMap.t Chunk) : JsMap.t Chunk :=
  match chunkTexts with
  | [] => m
  | chunk :: rest =>
      setChunks documentId metadata embs (S index) rest
        (JsMap.set m (chunkId documentId index)
           {| documentId := documentId;
              chunkIndex := index;
              text := chunk;
              embedding := nth_error embs index;
              metadata := metadata;
              chunkKeywords := Some (extractChunkKeywords chunk);
              vectors := Some (createWordVectors chunk) |})
  end.

(** [addDocument(documentId, chunks, metadata, sessionId)] at time [now];
    [chunks] are the chunk texts.  The [natural.TfIdf] index the source also
    feeds is never read, and is left out.  Source lines 26-76. *)
Definition addDocument (now : Z) (st : Store) (documentId : string)
  (chunkTexts : list string) (metadata : Metadata) (sessionId : string) : Store :=
  let embs := createEnhancedEmbeddings chunkTexts in
  let docData :=
    {| id := documentId;
       chunks := chunkTexts;
       docMetadata := metadata;
       docEmbeddings := embs;
       addedAt := now;
       sessionId := sessionId;
       docKeywords := extractDocumentKeywords (String.concat " " chunkTexts);
       statistics := calculateDocumentStatistics chunkTexts |} in
  let sessions :=
    if negb (JsMap.has (sessionDocuments st) sessionId)
    then JsMap.set (sessionDocuments st) sessionId []
    else sessionDocuments st in
  let registered :=
    match JsMap.get sessions sessionId with Some l => l | None => [] end in
  {| documents := JsMap.set (documents st) documentId docData;
     embeddings := setChunks documentId metadata embs 0 chunkTexts (embeddings st);
     sessionDocuments := JsMap.set sessions sessionId (registered ++ [documentId])%list |}.

(** The document list of the session filter: [Some sessionDocs] exactly when
    [sessionId && this.sessionDocuments.has(sessionId)] holds (a missing
    [sessionId] and the empty string are falsy).  Source lines 248 and
    382. *)
Definition sessionDocsFor (st : Store) (sessionId : option string) : option (list string) :=
  match sessionId with
  | Some s =>
      if negb (String.eqb s EmptyString) && JsMap.has (sessionDocuments st) s
      then JsMap.get (sessionDocuments st) s
      else None
  | None => None
  end.

(** The two filters of a search, over entries read by [key] (source lines
    248-259 and 382-393). *)
Definition selectFor {A : Type} (key : A -> string) (st : Store)
  (sessionId : option string) (documentIds : option (list string))
  (all : list A) : list A :=
  let toSearch :=
    match sessionDocsFor st sessionId with
    | Some sessionDocs => filter (fun e => Js.mem (key e) sessionDocs) all
    | None => all
    end in
  match documentIds with
  | Some ids => filter (fun e => Js.mem (key e) ids) toSearch
  | None => toSearch
  end.

Definition embeddingsToSearch (st : Store) (sessionId : option string)
  (documentIds : option (list string)) : list Chunk :=
  selectFor documentId st sessionId documentIds (JsMap.values (embeddings st)).

Definition documentsToSearch (st : Store) (sessionId : option string)
  (documentIds : option (list string)) : list DocData :=
  selectFor id st sessionId documentIds (JsMap.values (documents st)).

(** The scoring loop of [semanticSearch].  [None]: reading the features of an
    entry whose [embedding] is undefined throws, and the [catch] block takes
    over.  Source lines 262-272. *)
Fixpoint scoreEmbeddings (queryEmbedding : Embedding) (toSearch : list Chunk)
  (results : list Result) : option (list Result) :=
  match toSearch with
  | [] => Some results
  | emb :: rest =>
      match embedding emb with
      | None => None
      | Some docEmb =>
          let similarity := calculateEnhancedSimilarity queryEmbedding docEmb in
          scoreEmbeddings queryEmbedding rest
            (if Js.Rltb 0.1 similarity
             then (results ++ [{| chunk := emb; similarity := similarity; score := similarity |}])%list
             else results)
      end
  end.

(** The score the fallback gives one chunk; [None] is NaN, the quotient
    [0 / 0] of a query without a word longer than two characters.  Source
    lines 397-416. *)
Definition fallbackScore (queryLower : string) (queryWords : list string)
  (chunk : string) : option R :=
  let chunkLower := Js.toLowerCase chunk in
  let score := 0 in
  let score := if Js.includes chunkLower queryLower then score + 0.8 else score in
  let matchingWords := filter (fun word => Js.includes chunkLower word) queryWords in
  if (List.length queryWords =? 0)%nat then None
  else
    let score :=
      score + (INR (List.length matchingWords) / INR (List.length queryWords)) * 0.6 in
    let stringSim := compareTwoStrings queryLower chunkLower in
    let score := score + stringSim * 0.3 in
    let score := if (1 <? List.length matchingWords)%nat then score + 0.2 else score in
    Some score.

(** [doc.chunks.forEach((chunk, index) => ...)], source lines 396-428. *)
Fixpoint fallbackChunks (queryLower : string) (queryWords : list string)
  (doc : DocData) (index : nat) (chunkTexts : list string) (results : list Result)
  : list Result :=
  match chunkTexts with
  | [] => results
  | chunk :: rest =>
      fallbackChunks queryLower queryWords doc (S index) rest
        (match fallbackScore queryLower queryWords chunk with
         | Some score =>
             if Js.Rltb 0.1 score
             then (results ++
                  [{| chunk :=
                        {| documentId := id doc;
                           chunkIndex := index;
                           text := chunk;
                           embedding := None;
                           metadata := docMetadata doc;
                           chunkKeywords := None;
                           vectors := None |};
                      similarity := Rmin score 1;
                      score := Rmin score 1 |}])%list
             else results
         | None => results
         end)
  end.

(** [fallbackTextSearch], source lines 374-434. *)
Definition fallbackTextSearch (st : Store) (query : string)
  (sessionId : option string) (limit : nat) (documentIds : option (list string))
  : list Result :=
  let queryLower := Js.toLowerCase query in
  let queryWords :=
    filter (fun word => 2 <? String.length word)%nat (Js.split Js.isSpace queryLower) in
  let results :=
    fold_left
      (fun results doc => fallbackChunks queryLower queryWords doc 0 (chunks doc) results)
      (documentsToSearch st sessionId documentIds) [] in
  Js.slice0 limit (Js.sortBy (fun b a => Js.Rltb (score a) (score b)) results).

(** [semanticSearch(query, sessionId = null, limit = 10, documentIds = null)];
    [limit] is a result count.  Source lines 240-282. *)
Definition semanticSearch (st : Store) (query : string)
  (sessionId : option string) (limit : nat) (documentIds : option (list string))
  : list Result :=
  let queryEmbedding := createTextEmbedding query in
  match scoreEmbeddings queryEmbedding (embeddingsToSearch st sessionId documentIds) [] with
  | Some results =>
      Js.slice0 limit (Js.sortBy (fun b a => Js.Rltb (similarity a) (similarity b)) results)
  | None => fallbackTextSearch st query sessionId limit documentIds
  end.

(** [searchInDocuments], source lines 496-498. *)
Definition searchInDocuments (st : Store) (query : string)
  (documentIds : option (list string)) (sessionId : option string) (limit : nat)
  : list Result :=
  semanticSearch st query sessionId limit documentIds.

(** ** Cross-document search *)

(** [calculateDocumentQuality], source lines 473-494. *)
Definition calculateDocumentQuality (now : Z) (docData : DocData) : Q :=
  let stats := statistics docData in
  let quality := (1 # 2)%Q in
  let quality :=
    match avgWordsPerChunk stats with
    | Some words =>
        if ((50 <? words) && (words <? 200))%Z then (quality + (2 # 10))%Q else quality
    | None => quality
    end in
  let quality :=
    if Qltb 40 (readabilityScore (complexity stats))
    then (quality + (2 # 10))%Q else quality in
  let daysSinceAdded := (inject_Z (now - addedAt docData) / 86400000)%Q in
  let quality := if Qltb daysSinceAdded 7 then (quality + (1 # 10))%Q else quality in
  Qmin quality 1.

(** [documentGroups[id].push(result)], after the group is created when it is
    missing.  Source lines 441-446. *)
Definition groupPush (documentGroups : Obj.t (list Result)) (result : Result)
  : Obj.t (list Result) :=
  let key := documentId (chunk result) in
  let documentGroups :=
    match Obj.get documentGroups key with
    | Some _ => documentGroups
    | None => Obj.set documentGroups key []
    end in
  match Obj.get documentGroups key with
  | Some group => Obj.set documentGroups key (group ++ [result])%list
  | None => documentGroups
  end.

(** [list.reduce((sum, x) => sum + x, 0)] *)
Definition sumR (l : list R) : R := fold_left Rplus l 0.

(** [Math.max(...list)]; every list it is applied to has an element. *)
Definition maxR (l : list R) : R :=
  match l with
  | [] => 0
  | x :: t => fold_left Rmax t x
  end.

(** The callback that turns one entry of [documentGroups] into a group
    (source lines 449-468). *)
Definition documentGroup (now : Z) (st : Store) (entry : string * list Result)
  : DocumentGroup :=
  let '(docId, chunks) := entry in
  let avgSimilarity := sumR (map similarity chunks) / INR (List.length chunks) in
  let maxSimilarity := maxR (map similarity chunks) in
  let chunkCount := List.length chunks in
  let qualityBonus :=
    match JsMap.get (documents st) docId with
    | Some docData => calculateDocumentQuality now docData
    | None => 0%Q
    end in
  {| groupDocumentId := docId;
     groupChunks := Js.sortBy (fun b a => Js.Rltb (similarity a) (similarity b)) chunks;
     avgSimilarity := avgSimilarity;
     maxSimilarity := maxSimilarity;
     chunkCount := chunkCount;
     qualityBonus := qualityBonus;
     relevanceScore :=
       (avgSimilarity * 0.4) + (maxSimilarity * 0.4)
       + (ln (INR (chunkCount + 1)) * 0.1) + (Q2R qualityBonus * 0.1) |}.

(** [crossDocumentSearch(query, sessionId, limit = 20)] at time [now].
    Source lines 436-471. *)
Definition crossDocumentSearch (now : Z) (st : Store) (query : string)
  (sessionId : option string) (limit : nat) : list DocumentGroup :=
  let results := semanticSearch st query sessionId (limit * 2) None in
  let documentGroups := fold_left groupPush results [] in
  let crossDocResults := map (documentGroup now st) (Obj.entries documentGroups) in
  Js.slice0 limit
    (Js.sortBy (fun b a => Js.Rltb (relevanceScore a) (relevanceScore b)) crossDocResults).

End Database.

(** ** Context assembly, statistics and deletion *)

Section Assembly.

Context {P : Packages}.

Definition newline : string := String (ascii_of_nat 10) EmptyString.

Definition estimatedTokensPerChar : Q := (25 # 100)%Q.

(** [result.text.length * estimatedTokensPerChar] *)
Definition textTokens (result : Result) : Q :=
  (natQ (String.length (text (chunk result))) * estimatedTokensPerChar)%Q.

Definition sourceOf (result : Result) : Source :=
  {| sourceDocumentId := documentId (chunk result);
     sourceFilename :=
       match filename (metadata (chunk result)) with
       | Some name => if String.eqb name EmptyString then "Unknown" else name
       | None => "Unknown"
       end;
     sourceSimilarity := (IZR (Js.roundR (similarity result * 100)) / 100)%R;
     snippet := (Js.substring0 150 (text (chunk result)) ++ "...")%string;
     sourceKeywords :=
       match chunkKeywords (chunk result) with
       | Some ks => Js.slice0 5 ks
       | None => []
       end |}.

(** The [for] loop of [getRelevantContext] over the remaining results, from
    the values of [contextText], [tokenCount] and [sources] so far; the first
    result that does not fit ends the loop ([break]).  Source lines
    516-530. *)
Fixpoint packResults (maxTokens : nat) (results : list Result)
  (contextText : string) (tokenCount : Q) (sources : list Source)
  : string * Q * list Source :=
  match results with
  | [] => (contextText, tokenCount, sources)
  | result :: rest =>
      if Qltb (natQ maxTokens) (tokenCount + textTokens result)
      then (contextText, tokenCount, sources)
      else
        packResults maxTokens rest
          (contextText ++ text (chunk result) ++ newline ++ newline)%string
          (tokenCount + textTokens result)%Q
          (sources ++ [sourceOf result])%list
  end.

(** [calculateContextConfidence], source lines 540-548. *)
Definition calculateContextConfidence (results : list Result) : R :=
  match results with
  | [] => 0%R
  | top :: _ =>
      let avgSimilarity :=
        (sumR (map similarity results) / INR (List.length results))%R in
      let topSimilarity := similarity top in
      let resultsCount := Rmin (INR (List.length results) / 10) 1 in
      Rmin (avgSimilarity * 0.5 + topSimilarity * 0.3 + resultsCount * 0.2)%R 1
  end.

(** [getRelevantContext(query, sessionId, maxTokens = 4000)]; [maxTokens] is
    a token count.  Source lines 500-538. *)
Definition getRelevantContext (st : Store) (query : string)
  (sessionId : option string) (maxTokens : nat) : Context :=
  let results := semanticSearch st query sessionId 20 None in
  if (List.length results =? 0)%nat
  then {| context := EmptyString;
          sources := [];
          error := Some "No documents found for this session";
          totalResults := None;
          confidence := None |}
  else
    let '(contextText, _, sources) := packResults maxTokens results EmptyString 0%Q [] in
    {| context := Js.trim contextText;
       sources := Js.slice0 10 sources;
       error := None;
       totalResults := Some (List.length results);
       confidence := Some (calculateContextConfidence results) |}.

(** [sessionDocs.map(docId => this.documents.get(docId)).filter(Boolean)],
    source lines 586-587. *)
Definition documentsOf (st : Store) (sessionId : string) : list DocData :=
  let sessionDocs :=
    match JsMap.get (sessionDocuments st) sessionId with
    | Some l => l
    | None => []
    end in
  flat_map
    (fun docId =>
       match JsMap.get (documents st) docId with
       | Some doc => [doc]
       | None => []
       end)
    sessionDocs.

(** [Math.ceil(chunk.length * 0.25)], source line 592. *)
Definition chunkTokens (chunk : string) : Z :=
  Js.ceilQ (natQ (String.length chunk) * (25 # 100)).

(** [getSessionStats], source lines 585-609. *)
Definition getSessionStats (now : Z) (st : Store) (sessionId : string) : SessionStats :=
  let documents := documentsOf st sessionId in
  let totalChunks :=
    fold_left (fun sum doc => sum + List.length (chunks doc))%nat documents 0%nat in
  let totalTokens :=
    fold_left
      (fun sum doc =>
         (sum + fold_left (fun chunkSum chunk => chunkSum + chunkTokens chunk) (chunks doc) 0)%Z)
      documents 0%Z in
  let allKeywords := flat_map docKeywords documents in
  let uniqueKeywords := Js.dedupe allKeywords in
  {| documentCount := List.length documents;
     chunkCount' := totalChunks;
     estimatedTokens := totalTokens;
     uniqueKeywords := Js.slice0 20 uniqueKeywords;
     lastUpdated :=
       match map addedAt documents with
       | [] => None
       | t :: ts => Some (fold_left Z.max ts t)
       end;
     avgDocumentQuality :=
       if (List.length documents =? 0)%nat then 0%Q
       else (fold_left (fun sum doc => sum + calculateDocumentQuality now doc) documents 0
             / natQ (List.length documents))%Q |}.

(** The inner loop of [deleteSession]: the keys are a snapshot taken before
    it starts.  Source lines 619-623. *)
Definition deleteChunksOf (docId : string) (embs : JsMap.t Chunk) : JsMap.t Chunk :=
  fold_left
    (fun embs key =>
       if Js.startsWith key (docId ++ "_")%string then JsMap.delete embs key else embs)
    (JsMap.keys embs) embs.

(** [deleteSession], source lines 611-630. *)
Definition deleteSession (st : Store) (sessionId : string) : Store :=
  let sessionDocs :=
    match JsMap.get (sessionDocuments st) sessionId with
    | Some l => l
    | None => []
    end in
  let '(docs, embs) :=
    fold_left
      (fun '(docs, embs) docId => (JsMap.delete docs docId, deleteChunksOf docId embs))
      sessionDocs (documents st, embeddings st) in
  {| documents := docs;
     embeddings := embs;
     sessionDocuments := JsMap.delete (sessionDocuments st) sessionId |}.

(** [getAllDocuments], source lines 632-634. *)
Definition getAllDocuments (st : Store) : list DocData := JsMap.values (documents st).

End Assembly.

(** ** Similar documents and the documents of a session *)

(** The objects of [findSimilarDocuments]: [entry] as the [forEach] loop
    creates and fills it, [t] as the [map] callback leaves it, with the two
    averages overwritten and [relevanceScore] added. *)
Module Similar.

Record entry : Type := {
  entryDocumentId : string;
  entryMetadata : Metadata;
  entrySimilarities : list R;
  entryAvgSimilarity : R;
  entryTopSimilarity : R
}.

Record t : Type := {
  documentId : string;
  metadata : Metadata;
  similarities : list R;
  avgSimilarity : R;
  topSimilarity : R;
  relevanceScore : R
}.

End Similar.

(** The objects [getDocumentsBySession] returns, one for each chunk. *)
Module SessionChunk.

Record t : Type := {
  content : string;
  text : string;
  documentId : string;
  metadata : Metadata;
  sessionId : string
}.

End SessionChunk.

Section MoreQueries.

Context {P : Packages}.

Local Open Scope R_scope.




(** [getDocumentStructure(documentId)], source lines 581-583. *)
Definition getDocumentStructure (st : Store) (documentId : string) : option DocData :=
  JsMap.get (documents st) documentId.

(** [docData.sessionId] *)
Definition sessionOf (docData : DocData) : string := sessionId docData.

(** [getDocumentsBySession(sessionId)], source lines 636-657; [pushed] is the
    array [documents] of the source. *)
Definition getDocumentsBySession (st : Store) (sessionId : string)
  : list SessionChunk.t :=
  let sessionDocs :=
    match JsMap.get (sessionDocuments st) sessionId with
    | Some l => l
    | None => []
    end in
  fold_left
    (fun pushed docId =>
       match JsMap.get (documents st) docId with
       | Some docData =>
           fold_left
             (fun pushed chunkText =>
                (pushed ++
                 [{| SessionChunk.content := chunkText;
                     SessionChunk.text := chunkText;
                     SessionChunk.documentId := docId;
                     SessionChunk.metadata := docMetadata docData;
                     SessionChunk.sessionId := sessionOf docData |}])%list)
             (chunks docData) pushed
       | None => pushed
       end)
    sessionDocs [].

End MoreQueries.

(** ** The snippet of a search result ([documentService.js])

    [createSnippet(text, query, maxLength = 200)] of the service that wraps
    the vector database: a window of the text around the first match of the
    query, or of one of its words. *)

Module DocumentService.

(** [s.indexOf(sub)]; [None] is -1. *)
Fixpoint indexOf (s sub : string) : option nat :=
  if String.prefix sub s then Some 0
  else match s with
       | EmptyString => None
       | String _ r => option_map S (indexOf r sub)
       end.

(** The [for] loop over the words of the query: the position of the first
    word that occurs in the text. *)
Fixpoint firstWordMatch (textLower : string) (queryWords : list string) : option nat :=
  match queryWords with
  | [] => None
  | word :: rest =>
      match indexOf textLower word with
      | Some matchPos => Some matchPos
      | None => firstWordMatch textLower rest
      end
  end.

(** [s.substring(start, end)] for [start <= end]. *)
Definition substring (start finish : nat) (s : string) : string :=
  String.substring start (finish - start) s.

(** [createSnippet], source lines 275-300 of [documentService.js]. *)
Definition createSnippet (text query : string) (maxLength : nat) : string :=
  let queryLower := Js.toLowerCase query in
  let textLower := Js.toLowerCase text in
  let matchPos :=
    match indexOf textLower queryLower with
    | Some matchPos => Some matchPos
    | None => firstWordMatch textLower (Js.split Js.isSpace queryLower)
    end in
  match matchPos with
  | None =>
      (substring 0 maxLength text
       ++ (if (maxLength <? String.length text)%nat then "..." else EmptyString))%string
  | Some matchPos =>
      let start := Nat.max 0 (matchPos - 50) in
      let finish := Nat.min (String.length text) (start + maxLength) in
      let snippet := substring start finish text in
      ((if (0 <? start)%nat then "..." else EmptyString) ++ snippet
       ++ (if (finish <? String.length text)%nat then "..." else EmptyString))%string
  end.

End DocumentService.

(** ** Stand-ins for the packages

    Small executable versions of the four packages, used to run the service
    on concrete inputs: a stemmer that leaves words as they are, a stop word
    filter over a short list, a keyword extractor that keeps the distinct
    words that are not stop words, and the bigram overlap of
    [string-similarity]. *)

Module Sample.

Definition stopwords : list string :=
  ["a"; "an"; "and"; "are"; "as"; "in"; "is"; "of"; "such"; "the"; "to"; "what"].

Definition dropStopwords (words : list string) : list string :=
  filter (fun w => negb (Js.mem (Js.toLowerCase w) stopwords)) words.

Definition extract (text : string) : option (list string) :=
  Some
    (Js.dedupe
       (dropStopwords
          (filter (fun w => negb (String.eqb w EmptyString))
             (Js.split Js.isSpace (preprocessText text))))).

Fixpoint dropSpaces (s : string) : string :=
  match s with
  | EmptyString => EmptyString
  | String c r => if Js.isSpace c then dropSpaces r else String c (dropSpaces r)
  end.

Fixpoint bigrams (s : string) : list string :=
  match s with
  | String a r =>
      match r with
      | String b _ => String a (String b EmptyString) :: bigrams r
      | EmptyString => []
      end
  | EmptyString => []
  end.

Fixpoint takeOut (x : string) (l : list string) : option (list string) :=
  match l with
  | [] => None
  | y :: t =>
      if String.eqb x y then Some t
      else match takeOut x t with
           | Some t' => Some (y :: t')
           | None => None
           end
  end.

Fixpoint shared (first second : list string) : nat :=
  match second with
  | [] => 0
  | b :: rest =>
      match takeOut b first with
      | Some first' => S (shared first' rest)
      | None => shared first rest
      end
  end.

Definition bigramOverlap (first second : string) : R :=
  let first := dropSpaces first in
  let second := dropSpaces second in
  if String.eqb first second then 1%R
  else if (String.length first <? 2) || (String.length second <? 2) then 0%R
  else (INR (2 * shared (bigrams first) (bigrams second))
        / INR (String.length first + String.length second - 2))%R.

(** The packages, all working. *)
Definition packages : Packages :=
  {| stem := fun w => w;
     removeStopwords := dropStopwords;
     keywordExtract := extract;
     compareTwoStrings := bigramOverlap |}.


Definition meta : Metadata := {| filename := Some "notes.txt" |}.

End Sample.

(** ** A scenario: one document of two chunks under session [s1] *)

Module Scenario.

#[local] Existing Instance Sample.packages.

Definition devops : string := "DevOps combines development and operations.".

Definition tools : string := "Key tools such as Jenkins and Docker.".

(** [addDocument("d1", [devops, tools], meta, "s1")] on an empty store, at
    time 0. *)
Definition store : Store :=
  addDocument 0 emptyStore "d1" [devops; tools] Sample.meta "s1".

(** The two entries this leaves in [embeddings]. *)
Definition devopsChunk : Chunk :=
  {| documentId := "d1";
     chunkIndex := 0;
     text := devops;
     embedding := Some (createTextEmbedding devops);
     metadata := Sample.meta;
     chunkKeywords := Some (extractChunkKeywords devops);
     vectors := Some (createWordVectors devops) |}.

Definition toolsChunk : Chunk :=
  {| documentId := "d1";
     chunkIndex := 1;
     text := tools;
     embedding := Some (createTextEmbedding tools);
     metadata := Sample.meta;
     chunkKeywords := Some (extractChunkKeywords tools);
     vectors := Some (createWordVectors tools) |}.


(** The result of a search for [DevOps]: the first chunk, at one half. *)
Definition devopsResult : Result :=
  {| chunk := devopsChunk; similarity := 0.5%R; score := 0.5%R |}.

(** A second document under session [s2], and the store after
    [deleteSession("s2")]. *)
Definition twoSessions : Store :=
  addDocument 0 store "d2" ["Docker images are layered."] Sample.meta "s2".

Definition afterDelete : Store := deleteSession twoSessions "s2".

(** Two documents whose identifiers share a prefix, under two sessions. *)
Definition prefixed : Store :=
  addDocument 0 (addDocument 0 emptyStore "doc" ["alpha"] Sample.meta "s1")
    "doc_1" ["beta"] Sample.meta "s2".


End Scenario.

(** ** Vocabulary of the properties *)

(** A result that passed the relevance threshold of the scoring loops. *)
Definition aboveThreshold (r : Result) : Prop := (0.1 < similarity r)%R.

(** The flags on which two semantic records agree. *)
Definition agreeing (sem1 sem2 : Semantic) (features : list (Semantic -> bool))
  : list (Semantic -> bool) :=
  filter (fun feature => Bool.eqb (feature sem1) (feature sem2)) features.

(** The sentiment closeness term of the semantic similarity. *)
Definition sentimentSim (sem1 sem2 : Semantic) : R :=
  (1 - IZR (Z.abs (sentiment sem1 - sentiment sem2)) / 10)%R.

(** No element of [a] is an element of [b]. *)
Definition disjoint (a b : list string) : bool :=
  forallb (fun k => negb (Js.mem k b)) a.

(** What the scoring loop of [semanticSearch] pushes for one entry. *)
Definition scored (queryEmbedding : Embedding) (emb : Chunk) : list Result :=
  match embedding emb with
  | Some docEmb =>
      let similarity := calculateEnhancedSimilarity queryEmbedding docEmb in
      if Js.Rltb 0.1 similarity
      then [{| chunk := emb; similarity := similarity; score := similarity |}]
      else []
  | None => []
  end.

(** The words of a query the fallback looks for. *)
Definition queryWordsOf (query : string) : list string :=
  filter (fun word => 2 <? String.length word)
    (Js.split Js.isSpace (Js.toLowerCase query)).

(** The characters of the texts of a list of results. *)
Definition contextChars (l : list Result) : nat :=
  list_sum (map (fun r => String.length (text (chunk r))) l).

(** The texts of a list of results, each followed by two line feeds. *)
Definition contextBlock (l : list Result) : string :=
  String.concat EmptyString
    (map (fun r => (text (chunk r) ++ newline ++ newline)%string) l).

(** The token estimate of the specification for a text of [n] characters:
    [n / 4] rounded up. *)
Definition ceilQuarter (n : nat) : Z := ((Z.of_nat n + 3) / 4)%Z.

Definition sumZ (l : list Z) : Z := fold_right Z.add 0%Z l.

(** The chunks of every document registered under a session, a document as
    often as it is registered. *)
Definition sessionChunks (st : Store) (sessionId : string) : list string :=
  flat_map chunks (documentsOf st sessionId).

(** Where a result of the fallback comes from: a chunk whose score is a
    number above the threshold, reported capped at 1. *)
Definition fromFallback {P : Packages} (query : string) (r : Result) : Prop :=
  exists s,
    fallbackScore (Js.toLowerCase query) (queryWordsOf query) (text (chunk r)) = Some s
    /\ (0.1 < s)%R /\ similarity r = Rmin s 1.

(** A list in descending order of a real-valued key. *)
Definition descending {A : Type} (key : A -> R) (l : list A) : Prop :=
  StronglySorted (fun a b => (key b <= key a)%R) l.

(** A character [preprocessText] leaves in a text: a lower-case letter, a
    digit, an underscore or a space. *)
Definition plainChar (c : ascii) : bool :=
  Js.isLower c || Js.isDigit c || (nat_of_ascii c =? 95) || (nat_of_ascii c =? 32).

Fixpoint allChars (p : ascii -> bool) (s : string) : bool :=
  match s with
  | EmptyString => true
  | String c r => p c && allChars p r
  end.

(** No white space next to white space; [afterSpace] says that the
    character before the string is white space. *)
Fixpoint singleSpaced (afterSpace : bool) (s : string) : bool :=
  match s with
  | EmptyString => true
  | String c r =>
      if Js.isSpace c then negb afterSpace && singleSpaced true r
      else singleSpaced false r
  end.

(** The character [preprocessText] writes for a character of the text,
    before the runs of white space are collapsed. *)
Definition cleaned (c : ascii) : ascii :=
  (fun c => if Js.isWordChar c || Js.isSpace c then c else " "%char) (Js.lowerChar c).

(** The documents registered under a session, in the order of registration;
    none for a session that is not registered. *)
Definition registeredUnder (st : Store) (sessionId : string) : list string :=
  match JsMap.get (sessionDocuments st) sessionId with
  | Some l => l
  | None => []
  end.

(** The loop of [deleteSession] over the documents of the session. *)
Definition deleteLoop (ids : list string) (docs : JsMap.t DocData)
  (embs : JsMap.t Chunk) : JsMap.t DocData * JsMap.t Chunk :=
  fold_left
    (fun '(docs, embs) docId => (JsMap.delete docs docId, deleteChunksOf docId embs))
    ids (docs, embs).

(** The names of the properties that every object inherits from
    [Object.prototype]. *)
Definition inheritedProperties : list string :=
  ["constructor"; "hasOwnProperty"; "isPrototypeOf"; "propertyIsEnumerable";
   "toLocaleString"; "toString"; "valueOf"; "__defineGetter__"; "__defineSetter__";
   "__lookupGetter__"; "__lookupSetter__"; "__proto__"].

(** Words none of which names an inherited property: on such words a
    counter object behaves as a map, and [o[w] || 0] reads what was counted. *)
Definition plainWords (words : list string) : Prop :=
  Forall (fun w => Js.mem w inheritedProperties = false) words.





(** The words [fallbackKeywordExtraction] counts: the words of the
    preprocessed text that are not stop words, stemmed. *)
Definition fallbackWords {P : Packages} (text : string) : list string :=
  map stem (removeStopwords (Js.split Js.isSpace (preprocessText text))).

(** The words [createTfidfVector] counts: the stemmed words of the
    preprocessed text that are not stop words. *)
Definition termWords {P : Packages} (text : string) : list string :=
  removeStopwords (map stem (Js.split Js.isSpace (preprocessText text))).

(** The words [createWordFrequencyVector] counts for [createTextEmbedding]:
    the words of the preprocessed text longer than two characters that are not
    stop words, in lower case, stemmed. *)
Definition frequencyWords {P : Packages} (text : string) : list string :=
  map (fun word => stem (Js.toLowerCase word))
    (removeStopwords
       (filter (fun word => 2 <? String.length word)
          (Js.split Js.isSpace (preprocessText text)))).


(** A text none of whose counted words names an inherited property: the
    counters built from it then hold numbers, as the embedding has them. *)
Definition plainText {P : Packages} (text : string) : Prop :=
  plainWords (fallbackWords text)
  /\ plainWords (termWords text)
  /\ plainWords (frequencyWords text).


(** The chunks the store holds for a list of document identifiers: for each
    identifier, in order, the chunks of the document stored under it, and none
    when no document is stored under it. *)
Definition documentChunks (st : Store) (docIds : list string) : list string :=
  flat_map
    (fun docId =>
       match getDocumentStructure st docId with
       | Some docData => chunks docData
       | None => []
       end)
    docIds.


(** A store the service can build: the empty store of the constructor,
    changed by [addDocument] and [deleteSession]. *)
Inductive reachable {P : Packages} : Store -> Prop :=
| reachable_empty : reachable emptyStore
| reachable_add (now : Z) (st : Store) (docId : string) (chunkTexts : list string)
    (meta : Metadata) (session : string) :
    reachable st -> reachable (addDocument now st docId chunkTexts meta session)
| reachable_delete (st : Store) (session : string) :
    reachable st -> reachable (deleteSession st session).

(** An entry of [embeddings] as [addDocument] writes it: under the key of
    its document and index, with the features of its text. *)
Definition chunkEntry {P : Packages} (e : string * Chunk) : Prop :=
  fst e = chunkId (documentId (snd e)) (chunkIndex (snd e))
  /\ embedding (snd e) = Some (createTextEmbedding (text (snd e)))
  /\ chunkKeywords (snd e) = Some (extractChunkKeywords (text (snd e)))
  /\ vectors (snd e) = Some (createWordVectors (text (snd e))).

(** An entry of [documents] as [addDocument] writes it. *)
Definition documentEntry {P : Packages} (e : string * DocData) : Prop :=
  fst e = id (snd e)
  /\ docEmbeddings (snd e) = createEnhancedEmbeddings (chunks (snd e))
  /\ docKeywords (snd e) = extractDocumentKeywords (String.concat " " (chunks (snd e)))
  /\ statistics (snd e) = calculateDocumentStatistics (chunks (snd e)).

(** * Properties *)

(** Closed facts about the stand-ins and the scenario are settled by
    evaluation. *)
Ltac evaluate := vm_compute; reflexivity.

(** ** Lists: sorting, de-duplication, slicing *)

Section ListFacts.

Context {A : Type}.

Lemma insertBy_perm (precedes : A -> A -> bool) (x : A) (l : list A) :
  Permutation (Js.insertBy precedes x l) (x :: l).
Proof.
  induction l as [|y t IH]; simpl.
  - apply Permutation_refl.
  - destruct (precedes y x).
    + eapply perm_trans; [apply perm_skip, IH | apply perm_swap].
    + apply Permutation_refl.
Qed.

Lemma sortBy_perm (precedes : A -> A -> bool) (l : list A) :
  Permutation (Js.sortBy precedes l) l.
Proof.
  induction l as [|x t IH]; simpl.
  - apply perm_nil.
  - eapply perm_trans; [apply insertBy_perm | apply perm_skip, IH].
Qed.

Lemma sortBy_length (precedes : A -> A -> bool) (l : list A) :
  List.length (Js.sortBy precedes l) = List.length l.
Proof. apply Permutation_length, sortBy_perm. Qed.

Lemma sortBy_In (precedes : A -> A -> bool) (l : list A) (x : A) :
  In x (Js.sortBy precedes l) <-> In x l.
Proof.
  split; apply Permutation_in;
    [apply sortBy_perm | apply Permutation_sym, sortBy_perm].
Qed.

Lemma slice0_length (n : nat) (l : list A) : List.length (Js.slice0 n l) <= n.
Proof. unfold Js.slice0. rewrite length_firstn. lia. Qed.

Lemma slice0_In (n : nat) (l : list A) (x : A) : In x (Js.slice0 n l) -> In x l.
Proof.
  unfold Js.slice0. revert l.
  induction n as [|n IH]; intros [|y t]; simpl; try tauto.
  intros [H | H]; [left; exact H | right; apply IH, H].
Qed.

Lemma slice0_all (n : nat) (l : list A) : List.length l <= n -> Js.slice0 n l = l.
Proof. intros H. unfold Js.slice0. apply firstn_all2, H. Qed.

Lemma slice0_Forall (Q : A -> Prop) (n : nat) (l : list A) :
  Forall Q l -> Forall Q (Js.slice0 n l).
Proof.
  rewrite !Forall_forall. intros H x Hx. apply H, (slice0_In n), Hx.
Qed.

Lemma sortBy_Forall (Q : A -> Prop) (precedes : A -> A -> bool) (l : list A) :
  Forall Q l -> Forall Q (Js.sortBy precedes l).
Proof.
  rewrite !Forall_forall. intros H x Hx. apply H, (sortBy_In precedes), Hx.
Qed.

End ListFacts.

Lemma mem_In (x : string) (l : list string) : Js.mem x l = true <-> In x l.
Proof.
  unfold Js.mem. rewrite existsb_exists. split.
  - intros [y [Hy E]]. apply String.eqb_eq in E. subst. exact Hy.
  - intros H. exists x. split; [exact H | apply String.eqb_refl].
Qed.

Lemma dedupe_In (l : list string) (x : string) : In x (Js.dedupe l) <-> In x l.
Proof.
  induction l as [|y t IH]; simpl; [tauto|].
  rewrite filter_In, IH. split.
  - intros [H | [H _]]; [left | right]; assumption.
  - intros [H | H]; [left; exact H|].
    destruct (String.eqb x y) eqn:E.
    + left. apply String.eqb_eq in E. symmetry. exact E.
    + right. split; [exact H | reflexivity].
Qed.

Lemma dedupe_NoDup (l : list string) : NoDup (Js.dedupe l).
Proof.
  induction l as [|y t IH]; simpl; constructor.
  - rewrite filter_In. cbn beta. intros [_ H]. now rewrite String.eqb_refl in H.
  - apply NoDup_filter, IH.
Qed.

(** ** The stores *)

Lemma get_delete_same {V : Type} (m : JsMap.t V) (k : string) :
  JsMap.get (JsMap.delete m k) k = None.
Proof.
  unfold JsMap.get, JsMap.delete.
  induction m as [|[k' v] t IH]; simpl; [reflexivity|].
  destruct (String.eqb k' k) eqn:E; simpl; [exact IH|].
  now rewrite E.
Qed.

Lemma get_delete_other {V : Type} (m : JsMap.t V) (k k' : string) :
  k <> k' -> JsMap.get (JsMap.delete m k) k' = JsMap.get m k'.
Proof.
  intros Hne. unfold JsMap.get, JsMap.delete.
  induction m as [|[k0 v] t IH]; simpl; [reflexivity|].
  destruct (String.eqb k0 k) eqn:E; simpl.
  - apply String.eqb_eq in E. subst k0.
    destruct (String.eqb k k') eqn:E'; [apply String.eqb_eq in E'; contradiction | exact IH].
  - destruct (String.eqb k0 k'); [reflexivity | exact IH].
Qed.

Lemma has_delete_same {V : Type} (m : JsMap.t V) (k : string) :
  JsMap.has (JsMap.delete m k) k = false.
Proof. unfold JsMap.has. now rewrite get_delete_same. Qed.

(** ** Search: the limit, the threshold and the session filter *)

Section SearchFacts.

Context {P : Packages}.

Local Open Scope R_scope.

Lemma Rltb_true (a b : R) : Js.Rltb a b = true <-> a < b.
Proof. unfold Js.Rltb. destruct (Rlt_dec a b); split; auto; discriminate. Qed.

Lemma Rltb_false (a b : R) : Js.Rltb a b = false <-> b <= a.
Proof.
  unfold Js.Rltb. destruct (Rlt_dec a b); split; auto; try discriminate; lra.
Qed.

Lemma scoreEmbeddings_above (q : Embedding) (l : list Chunk) (acc res : list Result) :
  Forall aboveThreshold acc ->
  scoreEmbeddings q l acc = Some res ->
  Forall aboveThreshold res.
Proof.
  revert acc. induction l as [|e t IH]; simpl; intros acc Hacc Hres.
  - now inversion Hres; subst.
  - destruct (embedding e) as [d|]; [|discriminate].
    eapply IH; [|exact Hres].
    destruct (Js.Rltb 0.1 (calculateEnhancedSimilarity q d)) eqn:E; [|exact Hacc].
    apply Forall_app. split; [exact Hacc|].
    constructor; [|constructor]. apply Rltb_true in E. exact E.
Qed.

Lemma fallbackChunks_above (ql : string) (qw : list string) (doc : DocData)
  (texts : list string) (index : nat) (acc : list Result) :
  Forall aboveThreshold acc ->
  Forall aboveThreshold (fallbackChunks ql qw doc index texts acc).
Proof.
  revert index acc. induction texts as [|c t IH]; simpl; intros index acc Hacc.
  - exact Hacc.
  - apply IH. destruct (fallbackScore ql qw c) as [s|]; [|exact Hacc].
    destruct (Js.Rltb 0.1 s) eqn:E; [|exact Hacc].
    apply Forall_app. split; [exact Hacc|].
    constructor; [|constructor]. apply Rltb_true in E.
    unfold aboveThreshold. simpl. unfold Rmin. destruct (Rle_dec s 1); lra.
Qed.

Lemma fallbackDocuments_above (ql : string) (qw : list string)
  (docs : list DocData) (acc : list Result) :
  Forall aboveThreshold acc ->
  Forall aboveThreshold
    (fold_left (fun results doc => fallbackChunks ql qw doc 0 (chunks doc) results)
       docs acc).
Proof.
  revert acc. induction docs as [|d t IH]; simpl; intros acc Hacc.
  - exact Hacc.
  - apply IH, fallbackChunks_above, Hacc.
Qed.

Lemma fallbackTextSearch_above (st : Store) (query : string)
  (sessionId : option string) (limit : nat) (documentIds : option (list string)) :
  Forall aboveThreshold (fallbackTextSearch st query sessionId limit documentIds).
Proof.
  unfold fallbackTextSearch.
  apply slice0_Forall, sortBy_Forall, fallbackDocuments_above. constructor.
Qed.

Lemma semanticSearch_above (st : Store) (query : string)
  (sessionId : option string) (limit : nat) (documentIds : option (list string)) :
  Forall aboveThreshold (semanticSearch st query sessionId limit documentIds).
Proof.
  unfold semanticSearch.
  destruct (scoreEmbeddings _ _ _) as [res|] eqn:E.
  - apply slice0_Forall, sortBy_Forall.
    eapply scoreEmbeddings_above; [|exact E]. constructor.
  - apply fallbackTextSearch_above.
Qed.

Lemma semanticSearch_length (st : Store) (query : string)
  (sessionId : option string) (limit : nat) (documentIds : option (list string)) :
  (List.length (semanticSearch st query sessionId limit documentIds) <= limit)%nat.
Proof.
  unfold semanticSearch, fallbackTextSearch.
  destruct (scoreEmbeddings _ _ _); apply slice0_length.
Qed.

(** C7. A search returns at most [limit] results and every result it returns
    has a similarity of at least 0.1, whether the results come from the
    scoring loop of [semanticSearch] or from [fallbackTextSearch]. *)
Theorem search_limit_and_threshold (st : Store) (query : string)
  (sessionId : option string) (limit : nat) (documentIds : option (list string)) :
  ((List.length (semanticSearch st query sessionId limit documentIds) <= limit)%nat
   /\ Forall (fun r => 0.1 <= similarity r)
        (semanticSearch st query sessionId limit documentIds))
  /\ ((List.length (fallbackTextSearch st query sessionId limit documentIds) <= limit)%nat
      /\ Forall (fun r => 0.1 <= similarity r)
           (fallbackTextSearch st query sessionId limit documentIds)).
Proof.
  repeat split.
  - apply semanticSearch_length.
  - eapply Forall_impl; [|apply semanticSearch_above].
    intros r Hr. unfold aboveThreshold in Hr. lra.
  - unfold fallbackTextSearch. apply slice0_length.
  - eapply Forall_impl; [|apply fallbackTextSearch_above].
    intros r Hr. unfold aboveThreshold in Hr. lra.
Qed.

(** *** An unregistered session *)

Lemma sessionDocsFor_unregistered (st : Store) (s : string) :
  JsMap.has (sessionDocuments st) s = false ->
  sessionDocsFor st (Some s) = None.
Proof.
  intros H. unfold sessionDocsFor. rewrite H.
  now rewrite andb_false_r.
Qed.

Lemma selectFor_unregistered {A : Type} (key : A -> string) (st : Store)
  (s : string) (documentIds : option (list string)) (all : list A) :
  JsMap.has (sessionDocuments st) s = false ->
  selectFor key st (Some s) documentIds all = selectFor key st None documentIds all.
Proof.
  intros H. unfold selectFor. now rewrite (sessionDocsFor_unregistered st s H).
Qed.

Lemma deleteSession_unregisters (st : Store) (s : string) :
  JsMap.has (sessionDocuments (deleteSession st s)) s = false.
Proof.
  unfold deleteSession.
  destruct (fold_left _ _ _) as [docs embs]. simpl. apply has_delete_same.
Qed.

(** C2, as the code has it. For a session that is not registered, the
    session filter is skipped: the search returns what the same search without
    a session returns, over the chunks of every session. *)
Theorem search_unregistered_session (st : Store) (query : string) (s : string)
  (limit : nat) (documentIds : option (list string)) :
  JsMap.has (sessionDocuments st) s = false ->
  semanticSearch st query (Some s) limit documentIds
  = semanticSearch st query None limit documentIds.
Proof.
  intros H. unfold semanticSearch, fallbackTextSearch, embeddingsToSearch, documentsToSearch.
  now rewrite !(selectFor_unregistered _ st s documentIds _ H).
Qed.

(** In particular right after [deleteSession(s)]. *)
Lemma search_after_deleteSession (st : Store) (query : string) (s : string)
  (limit : nat) (documentIds : option (list string)) :
  semanticSearch (deleteSession st s) query (Some s) limit documentIds
  = semanticSearch (deleteSession st s) query None limit documentIds.
Proof.
  unfold semanticSearch, fallbackTextSearch, embeddingsToSearch, documentsToSearch.
  now rewrite !(selectFor_unregistered _ _ s documentIds _
                  (deleteSession_unregisters st s)).
Qed.

End SearchFacts.

(** ** The similarity engine: bounds of the sub-scores *)

Section SimilarityBounds.

Local Open Scope R_scope.

(** One step of the Cauchy-Schwarz inequality on counts. *)
Lemma dot_step (d n1 n2 a b : nat) :
  (d * d <= n1 * n2)%nat ->
  ((d + a * b) * (d + a * b) <= (n1 + a * a) * (n2 + b * b))%nat.
Proof.
  intros H.
  assert (K : (2 * (a * b * d) <= n1 * (b * b) + n2 * (a * a))%nat).
  { destruct (le_lt_dec (2 * (a * b * d)) (n1 * (b * b) + n2 * (a * a))) as [L|L];
      [exact L|].
    exfalso.
    set (x := (2 * (a * b * d))%nat) in *.
    set (y := (n1 * (b * b) + n2 * (a * a))%nat) in *.
    assert (S1 : (y * y < x * x)%nat) by nia.
    assert (S2 : (x * x = 4 * (a * a) * (b * b) * (d * d))%nat) by (unfold x; ring).
    assert (S3 : (4 * (a * a) * (b * b) * (d * d)
                  <= 4 * (a * a) * (b * b) * (n1 * n2))%nat)
      by (apply Nat.mul_le_mono_l, H).
    assert (S4 : (4 * (a * a) * (b * b) * (n1 * n2) <= y * y)%nat).
    { assert (T : forall u v : nat, (4 * (u * v) <= (u + v) * (u + v))%nat).
      { intros u v.
        pose proof (Z.square_nonneg (Z.of_nat u - Z.of_nat v)). nia. }
      specialize (T (n1 * (b * b))%nat (n2 * (a * a))%nat).
      replace (4 * (a * a) * (b * b) * (n1 * n2))%nat
        with (4 * (n1 * (b * b) * (n2 * (a * a))))%nat by ring.
      exact T. }
    lia. }
  replace ((d + a * b) * (d + a * b))%nat
    with (d * d + 2 * (a * b * d) + (a * a) * (b * b))%nat by ring.
  replace ((n1 + a * a) * (n2 + b * b))%nat
    with (n1 * n2 + (n1 * (b * b) + n2 * (a * a)) + (a * a) * (b * b))%nat by ring.
  lia.
Qed.

Lemma dot_fold (vec1 vec2 : Obj.t nat) (allKeys : list string) (d n1 n2 : nat) :
  (d * d <= n1 * n2)%nat ->
  match
    fold_left
      (fun '(dotProduct, norm1, norm2) key =>
         let val1 := Obj.count vec1 key in
         let val2 := Obj.count vec2 key in
         (dotProduct + val1 * val2, norm1 + val1 * val1, norm2 + val2 * val2)%nat)
      allKeys (d, n1, n2)
  with
  | (d', n1', n2') => (d' * d' <= n1' * n2')%nat
  end.
Proof.
  revert d n1 n2. induction allKeys as [|k t IH]; intros d n1 n2 H; simpl.
  - exact H.
  - apply IH, dot_step, H.
Qed.

Lemma cosine_bounds (d n1 n2 : nat) :
  (d * d <= n1 * n2)%nat -> (0 < n1)%nat -> (0 < n2)%nat ->
  0 <= INR d / (sqrt (INR n1) * sqrt (INR n2)) <= 1.
Proof.
  intros H H1 H2.
  assert (P1 : 0 < sqrt (INR n1)) by (apply sqrt_lt_R0, lt_0_INR, H1).
  assert (P2 : 0 < sqrt (INR n2)) by (apply sqrt_lt_R0, lt_0_INR, H2).
  assert (Ps : 0 < sqrt (INR n1) * sqrt (INR n2)) by (apply Rmult_lt_0_compat; assumption).
  assert (Pd : 0 <= INR d) by apply pos_INR.
  assert (Hd : INR d <= sqrt (INR n1) * sqrt (INR n2)).
  { rewrite <- sqrt_mult by apply pos_INR.
    rewrite <- (sqrt_square (INR d)) at 1 by exact Pd.
    apply sqrt_le_1.
    - apply Rmult_le_pos; exact Pd.
    - apply Rmult_le_pos; apply pos_INR.
    - rewrite <- !mult_INR. apply le_INR, H. }
  split.
  - apply Rmult_le_pos; [exact Pd | left; apply Rinv_0_lt_compat, Ps].
  - apply (Rmult_le_reg_r (sqrt (INR n1) * sqrt (INR n2))); [exact Ps|].
    unfold Rdiv. rewrite Rmult_assoc, Rinv_l by lra. lra.
Qed.

Lemma calculateTfidfSimilarity_bounds (vec1 vec2 : Obj.t nat) :
  0 <= calculateTfidfSimilarity vec1 vec2 <= 1.
Proof.
  unfold calculateTfidfSimilarity.
  destruct (List.length _ =? 0)%nat; [lra|].
  pose proof (dot_fold vec1 vec2
                (Js.dedupe (Obj.keys vec1 ++ Obj.keys vec2)) 0 0 0 (Nat.le_refl _)) as H.
  destruct (fold_left _ _ _) as [[d n1] n2].
  destruct ((n1 =? 0) || (n2 =? 0))%nat eqn:E; [lra|].
  apply orb_false_iff in E. destruct E as [E1 E2].
  apply Nat.eqb_neq in E1, E2.
  apply cosine_bounds; [exact H | lia | lia].
Qed.

Lemma calculateKeywordSimilarity_bounds (keywords1 keywords2 : list string) :
  0 <= calculateKeywordSimilarity keywords1 keywords2 <= 1.
Proof.
  unfold calculateKeywordSimilarity.
  destruct ((List.length keywords1 =? 0) || (List.length keywords2 =? 0))%nat eqn:E;
    [lra|].
  apply orb_false_iff in E. destruct E as [E1 _]. apply Nat.eqb_neq in E1.
  set (set1 := Js.dedupe (map Js.toLowerCase keywords1)).
  set (set2 := Js.dedupe (map Js.toLowerCase keywords2)).
  assert (L1 : (List.length (filter (fun k => Js.mem k set2) set1)
                <= List.length set1)%nat) by apply filter_length_le.
  assert (L2 : (List.length set1 <= List.length (Js.dedupe (set1 ++ set2)))%nat).
  { apply NoDup_incl_length; [apply dedupe_NoDup|].
    intros x Hx. apply dedupe_In, in_or_app. left. exact Hx. }
  assert (L3 : (0 < List.length set1)%nat).
  { destruct keywords1 as [|k t]; [simpl in E1; lia|].
    unfold set1. simpl. lia. }
  assert (U : 0 < INR (List.length (Js.dedupe (set1 ++ set2))))
    by (apply lt_0_INR; lia).
  split.
  - apply Rmult_le_pos; [apply pos_INR | left; apply Rinv_0_lt_compat, U].
  - apply (Rmult_le_reg_r (INR (List.length (Js.dedupe (set1 ++ set2))))); [exact U|].
    unfold Rdiv. rewrite Rmult_assoc, Rinv_l by lra.
    rewrite Rmult_1_r, Rmult_1_l. apply le_INR. lia.
Qed.

Lemma matches_fold (sem1 sem2 : Semantic) (features : list (Semantic -> bool))
  (m t : nat) :
  fold_left
    (fun '(matches, total) feature =>
       (if Bool.eqb (feature sem1) (feature sem2) then matches + 1 else matches,
        total + 1)%nat)
    features (m, t)
  = ((m + List.length (agreeing sem1 sem2 features))%nat,
     (t + List.length features)%nat).
Proof.
  revert m t. induction features as [|f fs IH]; intros m t; simpl.
  - f_equal; lia.
  - rewrite IH. destruct (Bool.eqb (f sem1) (f sem2)); simpl; f_equal; lia.
Qed.

Lemma sentimentSim_le_1 (sem1 sem2 : Semantic) : sentimentSim sem1 sem2 <= 1.
Proof.
  unfold sentimentSim.
  assert (0 <= IZR (Z.abs (sentiment sem1 - sentiment sem2)))
    by (apply IZR_le, Z.abs_nonneg).
  lra.
Qed.

(** The semantic similarity is the mean of the fraction of the seven flags
    that agree and the sentiment closeness. *)
Lemma calculateSemanticSimilarity_mean (sem1 sem2 : Semantic) :
  calculateSemanticSimilarity sem1 sem2
  = (INR (List.length (agreeing sem1 sem2 booleanFeatures)) / 7
     + sentimentSim sem1 sem2) / 2.
Proof.
  unfold calculateSemanticSimilarity. rewrite matches_fold.
  change (0 + List.length booleanFeatures)%nat with 7%nat.
  change (0 <? 7)%nat with true. cbv iota.
  change (0 + List.length (agreeing sem1 sem2 booleanFeatures))%nat
    with (List.length (agreeing sem1 sem2 booleanFeatures)).
  replace (INR 7) with 7 by (simpl; lra).
  reflexivity.
Qed.

Lemma calculateSemanticSimilarity_bounds (sem1 sem2 : Semantic) :
  sentimentSim sem1 sem2 / 2 <= calculateSemanticSimilarity sem1 sem2 <= 1.
Proof.
  rewrite calculateSemanticSimilarity_mean.
  pose proof (sentimentSim_le_1 sem1 sem2) as S.
  assert (L : (List.length (agreeing sem1 sem2 booleanFeatures) <= 7)%nat)
    by (unfold agreeing; apply (filter_length_le _ booleanFeatures)).
  assert (0 <= INR (List.length (agreeing sem1 sem2 booleanFeatures)))
    by apply pos_INR.
  assert (INR (List.length (agreeing sem1 sem2 booleanFeatures)) <= 7).
  { apply le_INR in L. replace (INR 7) with 7 in L by (simpl; lra). exact L. }
  lra.
Qed.

Lemma weights_total (t w k s : R) :
  (if Js.Rltb 0 (0 + 0.4 + 0.3 + 0.2 + 0.1)
   then (0 + t * 0.4 + w * 0.3 + k * 0.2 + s * 0.1) / (0 + 0.4 + 0.3 + 0.2 + 0.1)
   else 0)
  = 0.4 * t + 0.3 * w + 0.2 * k + 0.1 * s.
Proof.
  assert (W : 0 + 0.4 + 0.3 + 0.2 + 0.1 = 1) by lra.
  rewrite W.
  destruct (Js.Rltb 0 1) eqn:E.
  - unfold Rdiv. rewrite Rinv_1. lra.
  - apply Rltb_false in E. lra.
Qed.

(** The composite score is the weighted sum of the four sub-scores: the
    weights add up to 1. *)
Lemma calculateEnhancedSimilarity_sum (queryEmb docEmb : Embedding) :
  calculateEnhancedSimilarity queryEmb docEmb
  = 0.4 * calculateTfidfSimilarity (tfidf queryEmb) (tfidf docEmb)
    + 0.3 * calculateVectorSimilarity (wordFreq queryEmb) (wordFreq docEmb)
    + 0.2 * calculateKeywordSimilarity (keywords queryEmb) (keywords docEmb)
    + 0.1 * calculateSemanticSimilarity (semantic queryEmb) (semantic docEmb).
Proof. unfold calculateEnhancedSimilarity. apply weights_total. Qed.

End SimilarityBounds.

(** ** The composite score *)

Section CompositeScore.

Local Open Scope R_scope.

Lemma disjoint_spec (a b : list string) :
  disjoint a b = true <-> (forall k, In k a -> ~ In k b).
Proof.
  unfold disjoint. rewrite forallb_forall. split; intros H k Hk.
  - intros Hb. apply mem_In in Hb. specialize (H k Hk). now rewrite Hb in H.
  - destruct (Js.mem k b) eqn:E; [|reflexivity].
    apply mem_In in E. destruct (H k Hk E).
Qed.

Lemma disjoint_filter (a b : list string) :
  disjoint a b = true -> filter (fun k => Js.mem k b) a = [].
Proof.
  intros H. induction a as [|x t IH]; simpl in *; [reflexivity|].
  apply andb_true_iff in H. destruct H as [Hx Ht].
  destruct (Js.mem x b); [discriminate | apply IH, Ht].
Qed.

Lemma calculateTfidfSimilarity_disjoint (vec1 vec2 : Obj.t nat) :
  disjoint (Obj.keys vec1) (Obj.keys vec2) = true ->
  calculateTfidfSimilarity vec1 vec2 = 0.
Proof.
  intros H. unfold calculateTfidfSimilarity.
  now rewrite (disjoint_filter _ _ H).
Qed.

Lemma calculateKeywordSimilarity_disjoint (keywords1 keywords2 : list string) :
  disjoint (map Js.toLowerCase keywords1) (map Js.toLowerCase keywords2) = true ->
  calculateKeywordSimilarity keywords1 keywords2 = 0.
Proof.
  intros H. unfold calculateKeywordSimilarity.
  destruct ((List.length keywords1 =? 0) || (List.length keywords2 =? 0))%nat;
    [reflexivity|].
  assert (D : disjoint (Js.dedupe (map Js.toLowerCase keywords1))
                (Js.dedupe (map Js.toLowerCase keywords2)) = true).
  { apply disjoint_spec. intros k H1 H2.
    apply (proj1 (dedupe_In _ _)) in H1. apply (proj1 (dedupe_In _ _)) in H2.
    exact (proj1 (disjoint_spec _ _) H k H1 H2). }
  rewrite (disjoint_filter _ _ D). simpl. unfold Rdiv. apply Rmult_0_l.
Qed.


(** Without a clamp the score can only be bounded from below by the
    sentiment closeness, which is negative beyond a difference of 10. *)
Lemma calculateEnhancedSimilarity_lower (queryEmb docEmb : Embedding) :
  0.05 * sentimentSim (semantic queryEmb) (semantic docEmb)
  <= calculateEnhancedSimilarity queryEmb docEmb.
Proof.
  rewrite calculateEnhancedSimilarity_sum. unfold calculateVectorSimilarity.
  pose proof (calculateTfidfSimilarity_bounds (tfidf queryEmb) (tfidf docEmb)).
  pose proof (calculateTfidfSimilarity_bounds (wordFreq queryEmb) (wordFreq docEmb)).
  pose proof (calculateKeywordSimilarity_bounds (keywords queryEmb) (keywords docEmb)).
  pose proof (calculateSemanticSimilarity_bounds (semantic queryEmb) (semantic docEmb)).
  lra.
Qed.

(** Without a shared term or keyword only the semantic term is left. *)
Lemma similarity_disjoint (queryEmb docEmb : Embedding) :
  disjoint (Obj.keys (tfidf queryEmb)) (Obj.keys (tfidf docEmb)) = true ->
  disjoint (Obj.keys (wordFreq queryEmb)) (Obj.keys (wordFreq docEmb)) = true ->
  disjoint (map Js.toLowerCase (keywords queryEmb))
    (map Js.toLowerCase (keywords docEmb)) = true ->
  calculateEnhancedSimilarity queryEmb docEmb
  = 0.1 * calculateSemanticSimilarity (semantic queryEmb) (semantic docEmb).
Proof.
  intros H1 H2 H3.
  rewrite calculateEnhancedSimilarity_sum. unfold calculateVectorSimilarity.
  rewrite (calculateTfidfSimilarity_disjoint _ _ H1),
    (calculateTfidfSimilarity_disjoint _ _ H2),
    (calculateKeywordSimilarity_disjoint _ _ H3).
  lra.
Qed.

End CompositeScore.

(** ** Running the scoring loop *)

Section ScoringLoop.

Context {P : Packages}.

Local Open Scope R_scope.

Lemma scoreEmbeddings_scored (q : Embedding) (l : list Chunk) (acc : list Result) :
  Forall (fun e => embedding e <> None) l ->
  scoreEmbeddings q l acc = Some (acc ++ flat_map (scored q) l)%list.
Proof.
  revert acc. induction l as [|e t IH]; intros acc H; simpl.
  - now rewrite app_nil_r.
  - inversion H as [|? ? He Ht]; subst.
    unfold scored at 1.
    destruct (embedding e) as [d|]; [|congruence].
    rewrite (IH _ Ht). cbv zeta.
    destruct (Js.Rltb 0.1 (calculateEnhancedSimilarity q d)).
    + now rewrite <- app_assoc.
    + reflexivity.
Qed.

Lemma scored_length (q : Embedding) (l : list Chunk) :
  (List.length (flat_map (scored q) l) <= List.length l)%nat.
Proof.
  induction l as [|e t IH]; simpl; [lia|].
  rewrite length_app.
  assert ((List.length (scored q e) <= 1)%nat).
  { unfold scored. destruct (embedding e); [|simpl; lia].
    cbv zeta. destruct (Js.Rltb _ _); simpl; lia. }
  lia.
Qed.

(** Every entry that has its features, scores above the threshold and is
    within the limit is among the results. *)
Lemma semanticSearch_complete (st : Store) (query : string)
  (sessionId : option string) (limit : nat) (documentIds : option (list string))
  (emb : Chunk) (docEmb : Embedding) :
  Forall (fun e => embedding e <> None) (embeddingsToSearch st sessionId documentIds) ->
  (List.length (embeddingsToSearch st sessionId documentIds) <= limit)%nat ->
  In emb (embeddingsToSearch st sessionId documentIds) ->
  embedding emb = Some docEmb ->
  0.1 < calculateEnhancedSimilarity (createTextEmbedding query) docEmb ->
  In {| chunk := emb;
        similarity := calculateEnhancedSimilarity (createTextEmbedding query) docEmb;
        score := calculateEnhancedSimilarity (createTextEmbedding query) docEmb |}
     (semanticSearch st query sessionId limit documentIds).
Proof.
  intros Hall Hlen Hin Hemb Hsim. unfold semanticSearch.
  rewrite (scoreEmbeddings_scored _ _ _ Hall). simpl.
  assert (L : (List.length
                 (flat_map (scored (createTextEmbedding query))
                    (embeddingsToSearch st sessionId documentIds)) <= limit)%nat).
  { eapply Nat.le_trans; [apply scored_length | exact Hlen]. }
  rewrite slice0_all by (rewrite sortBy_length; exact L).
  apply sortBy_In, in_flat_map. exists emb. split; [exact Hin|].
  unfold scored. rewrite Hemb. cbv zeta.
  apply Rltb_true in Hsim. rewrite Hsim. left. reflexivity.
Qed.

End ScoringLoop.

(** ** Evaluating the sub-scores *)

Section Evaluation.

Local Open Scope R_scope.

Lemma calculateTfidfSimilarity_value (vec1 vec2 : Obj.t nat) (d n1 n2 : nat) :
  disjoint (Obj.keys vec1) (Obj.keys vec2) = false ->
  fold_left
    (fun '(dotProduct, norm1, norm2) key =>
       let val1 := Obj.count vec1 key in
       let val2 := Obj.count vec2 key in
       (dotProduct + val1 * val2, norm1 + val1 * val1, norm2 + val2 * val2)%nat)
    (Js.dedupe (Obj.keys vec1 ++ Obj.keys vec2)) (0, 0, 0)%nat
  = (d, S n1, S n2) ->
  calculateTfidfSimilarity vec1 vec2 = INR d / (sqrt (INR (S n1)) * sqrt (INR (S n2))).
Proof.
  intros H F. unfold calculateTfidfSimilarity. cbv zeta in F |- *. rewrite F.
  destruct (filter _ _) as [|k t] eqn:E.
  - exfalso. assert (D : disjoint (Obj.keys vec1) (Obj.keys vec2) = true).
    { apply disjoint_spec. intros k Hk Hk'.
      assert (Hf : In k (filter (fun key => Js.mem key (Obj.keys vec2)) (Obj.keys vec1))).
      { apply filter_In. split; [exact Hk | apply mem_In, Hk']. }
      rewrite E in Hf. exact Hf. }
    congruence.
  - reflexivity.
Qed.

Lemma calculateKeywordSimilarity_value (keywords1 keywords2 : list string) (i u : nat) :
  ((List.length keywords1 =? 0) || (List.length keywords2 =? 0))%nat = false ->
  List.length
    (filter (fun k => Js.mem k (Js.dedupe (map Js.toLowerCase keywords2)))
       (Js.dedupe (map Js.toLowerCase keywords1))) = i ->
  List.length
    (Js.dedupe (Js.dedupe (map Js.toLowerCase keywords1)
                ++ Js.dedupe (map Js.toLowerCase keywords2))) = u ->
  calculateKeywordSimilarity keywords1 keywords2 = INR i / INR u.
Proof.
  intros H Hi Hu. unfold calculateKeywordSimilarity. cbv zeta. now rewrite H, Hi, Hu.
Qed.

Lemma calculateSemanticSimilarity_value (sem1 sem2 : Semantic) (m : nat) (delta : Z) :
  List.length (agreeing sem1 sem2 booleanFeatures) = m ->
  Z.abs (sentiment sem1 - sentiment sem2) = delta ->
  calculateSemanticSimilarity sem1 sem2 = (INR m / 7 + (1 - IZR delta / 10)) / 2.
Proof.
  intros Hm Hd. rewrite calculateSemanticSimilarity_mean.
  unfold sentimentSim. now rewrite Hm, Hd.
Qed.

Lemma sqrt_INR_1 : sqrt (INR 1) = 1.
Proof. simpl. apply sqrt_1. Qed.

Lemma sqrt_INR_4 : sqrt (INR 4) = 2.
Proof.
  replace (INR 4) with (2 * 2) by (simpl; lra).
  apply sqrt_square. lra.
Qed.

End Evaluation.

(** ** The scenario, evaluated *)

Section ScenarioFacts.

#[local] Existing Instance Sample.packages.

Local Open Scope R_scope.

Import Scenario.

Lemma scored_hit (q : Embedding) (emb : Chunk) (docEmb : Embedding) (s : R) :
  embedding emb = Some docEmb ->
  calculateEnhancedSimilarity q docEmb = s ->
  0.1 < s ->
  scored q emb = [{| chunk := emb; similarity := s; score := s |}].
Proof.
  intros He Hs Hlt. unfold scored. rewrite He. cbv zeta. rewrite Hs.
  apply Rltb_true in Hlt. now rewrite Hlt.
Qed.

Lemma scored_miss (q : Embedding) (emb : Chunk) (docEmb : Embedding) :
  embedding emb = Some docEmb ->
  calculateEnhancedSimilarity q docEmb <= 0.1 ->
  scored q emb = [].
Proof.
  intros He Hle. unfold scored. rewrite He. cbv zeta.
  apply Rltb_false in Hle. now rewrite Hle.
Qed.

(** [DevOps] against the chunk that contains it: cosine one half on both
    count vectors, one keyword in four, equal semantic features. *)
Lemma score_devops :
  calculateEnhancedSimilarity (createTextEmbedding "DevOps") (createTextEmbedding devops)
  = 0.5.
Proof.
  rewrite calculateEnhancedSimilarity_sum. unfold calculateVectorSimilarity.
  rewrite (calculateTfidfSimilarity_value _ _ 1 0 3) by evaluate.
  rewrite (calculateTfidfSimilarity_value _ _ 1 0 3) by evaluate.
  rewrite (calculateKeywordSimilarity_value _ _ 1 4) by evaluate.
  rewrite (calculateSemanticSimilarity_value _ _ 7 0) by evaluate.
  rewrite sqrt_INR_1, sqrt_INR_4. simpl. lra.
Qed.

(** [DevOps] against the other chunk: nothing in common, and six of the
    seven semantic flags agree. *)
Lemma score_tools :
  calculateEnhancedSimilarity (createTextEmbedding "DevOps") (createTextEmbedding tools)
  = 13 / 140.
Proof.
  rewrite (similarity_disjoint
             (createTextEmbedding "DevOps") (createTextEmbedding tools))
    by evaluate.
  rewrite (calculateSemanticSimilarity_value _ _ 6 0) by evaluate.
  simpl. lra.
Qed.

Lemma candidates_store :
  embeddingsToSearch store (Some "s1") None = [devopsChunk; toolsChunk].
Proof. evaluate. Qed.

Lemma candidates_afterDelete :
  embeddingsToSearch afterDelete (Some "s2") None = [devopsChunk; toolsChunk].
Proof. evaluate. Qed.

Lemma search_from (st : Store) (sessionId : option string) (limit : nat) :
  embeddingsToSearch st sessionId None = [devopsChunk; toolsChunk] ->
  semanticSearch st "DevOps" sessionId (S limit) None = [devopsResult].
Proof.
  intros E. unfold semanticSearch. rewrite E.
  rewrite scoreEmbeddings_scored by (repeat constructor; discriminate).
  change (flat_map (scored (createTextEmbedding "DevOps")) [devopsChunk; toolsChunk])
    with (scored (createTextEmbedding "DevOps") devopsChunk
          ++ scored (createTextEmbedding "DevOps") toolsChunk ++ [])%list.
  rewrite (scored_hit _ devopsChunk _ 0.5 eq_refl score_devops) by lra.
  rewrite (scored_miss _ toolsChunk _ eq_refl) by (rewrite score_tools; lra).
  cbn [app Js.sortBy fold_right Js.insertBy Js.slice0 firstn].
  rewrite firstn_nil. reflexivity.
Qed.

Lemma search_store : semanticSearch store "DevOps" (Some "s1") 10 None = [devopsResult].
Proof. apply search_from, candidates_store. Qed.

Lemma search_afterDelete :
  semanticSearch afterDelete "DevOps" (Some "s2") 10 None = [devopsResult].
Proof. apply search_from, candidates_afterDelete. Qed.

(** C1, counterexample. The chunk contains the query [DevOps] verbatim, and
    the search ranks it with a similarity of one half: the scoring loop of
    [semanticSearch] has no phrase bonus. *)
Lemma phrase_match_scores_one_half :
  Js.includes (Js.toLowerCase devops) (Js.toLowerCase "DevOps") = true
  /\ semanticSearch store "DevOps" (Some "s1") 10 None
     = [{| chunk := devopsChunk; similarity := 0.5; score := 0.5 |}]
  /\ text devopsChunk = devops
  /\ 0.5 < 0.8.
Proof.
  split; [reflexivity|]. split; [apply search_store|]. split; [reflexivity | lra].
Qed.

(** C2, counterexample. After [deleteSession("s2")] a search with session
    [s2] returns a chunk of the document of session [s1]. *)
Lemma deleted_session_search_finds_other_session :
  JsMap.has (sessionDocuments afterDelete) "s2" = false
  /\ JsMap.get (sessionDocuments afterDelete) "s1" = Some ["d1"]
  /\ semanticSearch afterDelete "DevOps" (Some "s2") 10 None = [devopsResult]
  /\ documentId (chunk devopsResult) = "d1".
Proof.
  split; [reflexivity|]. split; [reflexivity|].
  split; [apply search_afterDelete | reflexivity].
Qed.

(** The theorem of C2 at the store of the scenario after
    [deleteSession("s2")]. *)
Lemma search_unregistered_session_witness :
  JsMap.has (sessionDocuments afterDelete) "s2" = false
  /\ semanticSearch afterDelete "DevOps" (Some "s2") 10 None
     = semanticSearch afterDelete "DevOps" None 10 None.
Proof.
  split; [reflexivity|].
  apply (search_unregistered_session afterDelete "DevOps" "s2" 10 None).
  reflexivity.
Defined.

End ScenarioFacts.

(** ** The fallback text search *)

Section FallbackFacts.

Context {P : Packages}.

Local Open Scope R_scope.

(** The package returns a similarity that is not negative. *)
Hypothesis compareTwoStrings_nonneg : forall a b : string, 0 <= compareTwoStrings a b.

Lemma fallbackScore_phrase (query chunkText : string) :
  (0 < List.length (queryWordsOf query))%nat ->
  Js.includes (Js.toLowerCase chunkText) (Js.toLowerCase query) = true ->
  exists s,
    fallbackScore (Js.toLowerCase query) (queryWordsOf query) chunkText = Some s
    /\ 0.8 <= s.
Proof.
  intros Hw Hin. unfold fallbackScore. cbv zeta. rewrite Hin.
  destruct (List.length (queryWordsOf query) =? 0)%nat eqn:E;
    [apply Nat.eqb_eq in E; lia|].
  eexists. split; [reflexivity|].
  set (matching := filter _ (queryWordsOf query)).
  assert (R : 0 <= INR (List.length matching) / INR (List.length (queryWordsOf query))).
  { apply Rmult_le_pos; [apply pos_INR|].
    left. apply Rinv_0_lt_compat, lt_0_INR, Hw. }
  pose proof (compareTwoStrings_nonneg (Js.toLowerCase query) (Js.toLowerCase chunkText)).
  destruct (1 <? List.length matching)%nat; nra.
Qed.

Lemma fallbackChunks_from (query : string) (doc : DocData) (texts : list string)
  (index : nat) (acc : list Result) :
  Forall (fromFallback query) acc ->
  Forall (fromFallback query)
    (fallbackChunks (Js.toLowerCase query) (queryWordsOf query) doc index texts acc).
Proof.
  revert index acc. induction texts as [|c t IH]; simpl; intros index acc Hacc.
  - exact Hacc.
  - apply IH.
    destruct (fallbackScore (Js.toLowerCase query) (queryWordsOf query) c) as [s|] eqn:Es;
      [|exact Hacc].
    destruct (Js.Rltb 0.1 s) eqn:E; [|exact Hacc].
    apply Forall_app. split; [exact Hacc|].
    constructor; [|constructor].
    exists s. simpl. apply Rltb_true in E. auto.
Qed.

Lemma fallbackTextSearch_from (st : Store) (query : string)
  (sessionId : option string) (limit : nat) (documentIds : option (list string)) :
  Forall (fromFallback query) (fallbackTextSearch st query sessionId limit documentIds).
Proof.
  unfold fallbackTextSearch. apply slice0_Forall, sortBy_Forall.
  change (filter (fun word => (2 <? String.length word)%nat)
            (Js.split Js.isSpace (Js.toLowerCase query)))
    with (queryWordsOf query).
  generalize (@nil Result) (Forall_nil (fromFallback query)).
  induction (documentsToSearch st sessionId documentIds) as [|d t IH];
    simpl; intros acc Hacc.
  - exact Hacc.
  - apply IH, fallbackChunks_from, Hacc.
Qed.

(** C1, as the code has it. On the fallback text search, for a query with at
    least one word longer than two characters and a chunk whose text contains
    the query (both in lower case), the score of the chunk is at least 0.8,
    and so is the similarity reported with it, which is the score capped
    at 1. *)
Theorem fallback_phrase_match (query chunkText : string) :
  (0 < List.length (queryWordsOf query))%nat ->
  Js.includes (Js.toLowerCase chunkText) (Js.toLowerCase query) = true ->
  (exists s,
      fallbackScore (Js.toLowerCase query) (queryWordsOf query) chunkText = Some s
      /\ 0.8 <= s /\ 0.8 <= Rmin s 1)
  /\ (forall st sessionId limit documentIds r,
         In r (fallbackTextSearch st query sessionId limit documentIds) ->
         text (chunk r) = chunkText ->
         0.8 <= similarity r).
Proof.
  intros Hw Hin.
  destruct (fallbackScore_phrase query chunkText Hw Hin) as [s [Hs Hge]].
  assert (Hmin : 0.8 <= Rmin s 1) by (unfold Rmin; destruct (Rle_dec s 1); lra).
  split.
  - exists s. auto.
  - intros st sessionId limit documentIds r Hr Ht.
    pose proof (fallbackTextSearch_from st query sessionId limit documentIds) as F.
    rewrite Forall_forall in F. destruct (F r Hr) as [s' [Hs' [_ Hsim]]].
    rewrite Ht, Hs in Hs'. inversion Hs'; subst s'. now rewrite Hsim.
Qed.

End FallbackFacts.

Lemma bigramOverlap_nonneg (a b : string) : (0 <= Sample.bigramOverlap a b)%R.
Proof.
  unfold Sample.bigramOverlap. cbv zeta.
  destruct (String.eqb _ _); [lra|].
  destruct ((String.length (Sample.dropSpaces a) <? 2)
            || (String.length (Sample.dropSpaces b) <? 2))%nat eqn:E; [lra|].
  apply orb_false_iff in E. destruct E as [E1 E2].
  apply Nat.ltb_ge in E1, E2.
  apply Rmult_le_pos; [apply pos_INR|].
  left. apply Rinv_0_lt_compat, lt_0_INR. lia.
Qed.

(** The theorem of C1 with the stand-in packages, at the query [DevOps] and
    the chunk that contains it. *)
Lemma fallback_phrase_match_witness :
  (forall a b : string, (0 <= @compareTwoStrings Sample.packages a b)%R)
  /\ (0 < List.length (queryWordsOf "DevOps"))%nat
  /\ Js.includes (Js.toLowerCase Scenario.devops) (Js.toLowerCase "DevOps") = true
  /\ ((exists s,
          @fallbackScore Sample.packages (Js.toLowerCase "DevOps")
            (queryWordsOf "DevOps") Scenario.devops = Some s
          /\ (0.8 <= s)%R /\ (0.8 <= Rmin s 1)%R)
      /\ (forall st sessionId limit documentIds r,
             In r (@fallbackTextSearch Sample.packages st "DevOps" sessionId limit
                     documentIds) ->
             text (chunk r) = Scenario.devops ->
             (0.8 <= similarity r)%R)).
Proof.
  split; [exact bigramOverlap_nonneg|].
  split; [vm_compute; lia|].
  split; [reflexivity|].
  apply (@fallback_phrase_match Sample.packages bigramOverlap_nonneg
           "DevOps" Scenario.devops).
  - vm_compute. lia.
  - reflexivity.
Defined.

(** ** Context assembly *)

Section ContextFacts.

Lemma append_assoc (a b c : string) : ((a ++ b) ++ c = a ++ (b ++ c))%string.
Proof. induction a as [|x a IH]; simpl; [reflexivity | now rewrite IH]. Qed.

Lemma append_empty_r (a : string) : (a ++ EmptyString)%string = a.
Proof. induction a as [|x a IH]; simpl; [reflexivity | now rewrite IH]. Qed.

Lemma contextBlock_cons (r : Result) (l : list Result) :
  contextBlock (r :: l)
  = ((text (chunk r) ++ newline ++ newline) ++ contextBlock l)%string.
Proof.
  unfold contextBlock. simpl. destruct (map _ l) as [|x xs] eqn:E.
  - simpl. now rewrite append_empty_r.
  - reflexivity.
Qed.

Lemma natQ_plus (a b : nat) : (natQ (a + b) == natQ a + natQ b)%Q.
Proof. unfold natQ. rewrite Nat2Z.inj_add, inject_Z_plus. reflexivity. Qed.

Lemma natQ_le (a b : nat) : (natQ a <= natQ b)%Q <-> (a <= b)%nat.
Proof. unfold natQ. rewrite <- Zle_Qle. lia. Qed.

Lemma natQ_lt (a b : nat) : (natQ a < natQ b)%Q <-> (a < b)%nat.
Proof. unfold natQ. rewrite <- Zlt_Qlt. lia. Qed.

Lemma Qltb_true (a b : Q) : Qltb a b = true <-> (a < b)%Q.
Proof.
  unfold Qltb. rewrite negb_true_iff. split; intros H.
  - apply Qnot_le_lt. intros L. apply Qle_bool_iff in L. congruence.
  - destruct (Qle_bool b a) eqn:E; [|reflexivity].
    apply Qle_bool_iff in E. apply Qlt_not_le in H. contradiction.
Qed.

Lemma Qltb_false (a b : Q) : Qltb a b = false <-> (b <= a)%Q.
Proof.
  unfold Qltb. rewrite negb_false_iff. apply Qle_bool_iff.
Qed.

(** The overflow test of the loop, on character counts. *)
Lemma overflow_chars (maxTokens c : nat) (tokenCount : Q) (r : Result) :
  (tokenCount == natQ c * estimatedTokensPerChar)%Q ->
  Qltb (natQ maxTokens) (tokenCount + textTokens r) = true
  <-> (4 * maxTokens < c + String.length (text (chunk r)))%nat.
Proof.
  intros H. rewrite Qltb_true. unfold textTokens. rewrite H.
  rewrite <- natQ_lt, natQ_plus.
  assert (E : (natQ (4 * maxTokens) == 4 * natQ maxTokens)%Q).
  { unfold natQ. rewrite Nat2Z.inj_mul, inject_Z_mult. reflexivity. }
  rewrite E. unfold estimatedTokensPerChar.
  split; intros L; lra.
Qed.

Lemma packResults_included (maxTokens : nat) (results : list Result)
  (contextText : string) (tokenCount : Q) (sources : list Source) (c : nat) :
  (tokenCount == natQ c * estimatedTokensPerChar)%Q ->
  (c <= 4 * maxTokens)%nat ->
  exists included rest tokens,
    results = (included ++ rest)%list
    /\ packResults maxTokens results contextText tokenCount sources
       = ((contextText ++ contextBlock included)%string, tokens,
          (sources ++ map sourceOf included)%list)
    /\ (tokens == natQ (c + contextChars included) * estimatedTokensPerChar)%Q
    /\ (c + contextChars included <= 4 * maxTokens)%nat
    /\ match rest with
       | [] => True
       | r :: _ =>
           (4 * maxTokens < c + contextChars included + String.length (text (chunk r)))%nat
       end.
Proof.
  revert contextText tokenCount sources c.
  induction results as [|r t IH]; intros contextText tokenCount sources c Htok Hc.
  - exists [], [], tokenCount. simpl.
    rewrite append_empty_r, app_nil_r, Nat.add_0_r. auto.
  - cbn [packResults]. destruct (Qltb (natQ maxTokens) (tokenCount + textTokens r)) eqn:E.
    + exists [], (r :: t), tokenCount. simpl.
      rewrite append_empty_r, app_nil_r, Nat.add_0_r.
      apply (overflow_chars maxTokens c tokenCount r Htok) in E. auto.
    + assert (Hfit : (c + String.length (text (chunk r)) <= 4 * maxTokens)%nat).
      { destruct (le_lt_dec (c + String.length (text (chunk r))) (4 * maxTokens))
          as [L|L]; [exact L|].
        apply (overflow_chars maxTokens c tokenCount r Htok) in L. congruence. }
      assert (Htok' : (tokenCount + textTokens r
                       == natQ (c + String.length (text (chunk r)))
                          * estimatedTokensPerChar)%Q).
      { unfold textTokens. rewrite Htok, natQ_plus. ring. }
      destruct (IH (contextText ++ text (chunk r) ++ newline ++ newline)%string
                  (tokenCount + textTokens r)%Q
                  (sources ++ [sourceOf r])%list
                  (c + String.length (text (chunk r)))%nat Htok' Hfit)
        as [inc [rest [tokens [Hres [Hpack [Htokens [Hle Hrest]]]]]]].
      exists (r :: inc), rest, tokens.
      assert (Hc' : (c + contextChars (r :: inc)
                     = c + String.length (text (chunk r)) + contextChars inc)%nat).
      { unfold contextChars. simpl. lia. }
      rewrite Hc'. split; [simpl; now rewrite Hres|].
      split.
      { rewrite Hpack, contextBlock_cons. simpl.
        rewrite <- app_assoc, !append_assoc. reflexivity. }
      auto.
Qed.

(** C5, as the code has it. The loop of [getRelevantContext] takes a prefix
    of the ranked results, each with its whole text, and stops at the first
    result that does not fit (the results after it are left out as well).  The
    cost of a result is a quarter of its length, not rounded: the characters
    of the included texts are at most four times [maxTokens]. *)
Theorem context_within_budget (maxTokens : nat) (results : list Result) :
  exists included rest tokens,
    results = (included ++ rest)%list
    /\ packResults maxTokens results EmptyString 0%Q []
       = (contextBlock included, tokens, map sourceOf included)
    /\ (tokens == natQ (contextChars included) * (1 # 4))%Q
    /\ (contextChars included <= 4 * maxTokens)%nat
    /\ match rest with
       | [] => True
       | r :: _ =>
           (4 * maxTokens < contextChars included + String.length (text (chunk r)))%nat
       end.
Proof.
  destruct (packResults_included maxTokens results EmptyString 0%Q [] 0)
    as [inc [rest [tokens [Hres [Hpack [Htokens [Hle Hrest]]]]]]].
  - reflexivity.
  - lia.
  - exists inc, rest, tokens.
    rewrite Nat.add_0_l in Htokens, Hle.
    split; [exact Hres|]. split; [exact Hpack|].
    split; [|split; [exact Hle | exact Hrest]].
    rewrite Htokens. apply Qmult_comp; reflexivity.
Qed.

(** The same for the record [getRelevantContext] returns: its [context] is
    the block of the included texts, trimmed, and its [sources] are the first
    ten of the included results. *)
Lemma getRelevantContext_included {P : Packages} (st : Store) (query : string)
  (sessionId : option string) (maxTokens : nat) :
  exists included rest,
    semanticSearch st query sessionId 20 None = (included ++ rest)%list
    /\ context (getRelevantContext st query sessionId maxTokens)
       = Js.trim (contextBlock included)
    /\ sources (getRelevantContext st query sessionId maxTokens)
       = Js.slice0 10 (map sourceOf included)
    /\ (contextChars included <= 4 * maxTokens)%nat.
Proof.
  unfold getRelevantContext.
  destruct (packResults_included maxTokens (semanticSearch st query sessionId 20 None)
              EmptyString 0%Q [] 0)
    as [inc [rest [tokens [H1 [H2 [_ [H4 _]]]]]]]; [reflexivity | lia |].
  destruct (List.length (semanticSearch st query sessionId 20 None) =? 0)%nat eqn:E.
  - exists [], (semanticSearch st query sessionId 20 None).
    split; [reflexivity|]. split; [reflexivity|]. split; [reflexivity|].
    unfold contextChars. simpl. lia.
  - rewrite H2. exists inc, rest. cbn [context sources].
    rewrite Nat.add_0_l in H4. auto.
Qed.

(** C5, counterexample. With a budget of three tokens, two results of six
    characters each are both included: their cost without rounding is one and
    a half each, while the estimator that rounds up counts two tokens each,
    four in all. *)
Lemma rounded_estimate_exceeds_budget :
  let result (t : string) : Result :=
    {| chunk := {| documentId := "d1"; chunkIndex := 0; text := t;
                   embedding := None; metadata := Sample.meta;
                   chunkKeywords := None; vectors := None |};
       similarity := 0.5%R; score := 0.5%R |} in
  snd (packResults 3 [result "DevOps"; result "Docker"] EmptyString 0%Q [])
  = [sourceOf (result "DevOps"); sourceOf (result "Docker")]
  /\ fst (fst (packResults 3 [result "DevOps"; result "Docker"] EmptyString 0%Q []))
     = contextBlock [result "DevOps"; result "Docker"]
  /\ (3 < chunkTokens "DevOps" + chunkTokens "Docker")%Z.
Proof.
  cbv zeta. split; [reflexivity|]. split; [reflexivity|].
  vm_compute. reflexivity.
Qed.

End ContextFacts.

(** ** Session statistics *)

Section StatsFacts.

Context {P : Packages}.

(** [n / 4] rounded up is the least number of quarters that cover [n]. *)
Lemma ceilQuarter_least (n : nat) :
  (4 * (ceilQuarter n - 1) < Z.of_nat n <= 4 * ceilQuarter n)%Z.
Proof.
  unfold ceilQuarter.
  pose proof (Z.div_mod (Z.of_nat n + 3) 4).
  pose proof (Z.mod_pos_bound (Z.of_nat n + 3) 4).
  lia.
Qed.

Lemma chunkTokens_ceilQuarter (chunk : string) :
  chunkTokens chunk = ceilQuarter (String.length chunk).
Proof.
  unfold chunkTokens, ceilQuarter, Js.ceilQ, Qceiling, Qfloor, natQ.
  cbn [Qopp Qmult inject_Z Qnum Qden].
  change (Z.pos (1 * 100)) with 100%Z.
  set (n := Z.of_nat (String.length chunk)).
  assert (Hn : (0 <= n)%Z) by (unfold n; lia).
  pose proof (Z.div_mod (- (n * 25)) 100).
  pose proof (Z.mod_pos_bound (- (n * 25)) 100).
  pose proof (Z.div_mod (n + 3) 4).
  pose proof (Z.mod_pos_bound (n + 3) 4).
  lia.
Qed.

Lemma fold_chunkTokens (l : list string) (a : Z) :
  fold_left (fun chunkSum chunk => (chunkSum + chunkTokens chunk)%Z) l a
  = (a + sumZ (map (fun chunk => ceilQuarter (String.length chunk)) l))%Z.
Proof.
  revert a. induction l as [|c t IH]; intros a; simpl.
  - lia.
  - rewrite IH, chunkTokens_ceilQuarter. lia.
Qed.

Lemma sumZ_app (a b : list Z) : sumZ (a ++ b) = (sumZ a + sumZ b)%Z.
Proof. induction a as [|x a IH]; simpl; [reflexivity | rewrite IH; lia]. Qed.

Lemma fold_documentTokens (docs : list DocData) (a : Z) :
  fold_left
    (fun sum doc =>
       (sum + fold_left (fun chunkSum chunk => chunkSum + chunkTokens chunk)
                (chunks doc) 0)%Z)
    docs a
  = (a + sumZ (map (fun chunk => ceilQuarter (String.length chunk))
                 (flat_map chunks docs)))%Z.
Proof.
  revert a. induction docs as [|d t IH]; intros a; simpl.
  - lia.
  - rewrite IH, fold_chunkTokens, map_app, sumZ_app. lia.
Qed.

End StatsFacts.

(** ** Feature extraction when the keyword package fails *)

Section ExtractionFacts.

Context {P : Packages}.

Lemma set_keys {V : Type} (o : Obj.t V) (k : string) (v : V) (x : string) :
  In x (map fst (Obj.set o k v)) -> x = k \/ In x (map fst o).
Proof.
  induction o as [|[k' v'] r IH]; simpl.
  - intros [H | []]. left. now symmetry.
  - destruct (String.eqb k' k); simpl.
    + intros [H | H]; right; [left | right]; assumption.
    + intros [H | H]; [right; left; exact H|].
      destruct (IH H) as [E | E]; [left | right; right]; assumption.
Qed.

Lemma keys_own {V : Type} (o : Obj.t V) (x : string) :
  In x (Obj.keys o) -> In x (map fst o).
Proof.
  unfold Obj.keys. intros H. apply in_app_or in H.
  destruct H as [H | H].
  - apply sortBy_In, filter_In in H. apply dedupe_In, H.
  - apply filter_In in H. apply dedupe_In, H.
Qed.

Lemma entries_own {V : Type} (o : Obj.t V) (x : string) :
  In x (map fst (Obj.entries o)) -> In x (map fst o).
Proof.
  unfold Obj.entries. intros H. apply in_map_iff in H.
  destruct H as [[k v] [E H]]. simpl in E. subst k.
  apply in_flat_map in H. destruct H as [k [Hk H]].
  destruct (Obj.get o k); simpl in H; [|contradiction].
  destruct H as [H | []]. inversion H; subst. apply keys_own, Hk.
Qed.

Lemma long_words_fold (words : list string) (freq : Obj.t nat) (x : string) :
  In x (map fst
          (fold_left
             (fun freq word => if 3 <? String.length word then Obj.bump freq word else freq)
             words freq)) ->
  In x (map fst freq) \/ 3 < String.length x.
Proof.
  revert freq. induction words as [|w t IH]; intros freq H; simpl in H.
  - left. exact H.
  - destruct (IH _ H) as [H' | H']; [|right; exact H'].
    destruct (3 <? String.length w) eqn:E; [|left; exact H'].
    unfold Obj.bump in H'. destruct (set_keys _ _ _ _ H') as [E' | E'].
    + right. subst x. apply Nat.ltb_lt, E.
    + left. exact E'.
Qed.

Lemma fallbackKeywordExtraction_long (text : string) :
  Forall (fun k => 3 < String.length k) (fallbackKeywordExtraction text).
Proof.
  unfold fallbackKeywordExtraction. cbv zeta.
  apply Forall_forall. intros k Hk.
  apply in_map_iff in Hk. destruct Hk as [[k' n] [E Hk]]. simpl in E. subst k'.
  apply slice0_In, sortBy_In in Hk.
  assert (H : In k (map fst (Obj.entries
                (fold_left
                   (fun freq word =>
                      if 3 <? String.length word then Obj.bump freq word else freq)
                   (map stem
                      (removeStopwords (Js.split Js.isSpace (preprocessText text))))
                   [])))).
  { apply in_map_iff. exists (k, n). split; [reflexivity | exact Hk]. }
  apply entries_own, long_words_fold in H. destruct H as [[] | H]. exact H.
Qed.

Lemma fallbackKeywordExtraction_length (text : string) :
  List.length (fallbackKeywordExtraction text) <= 10.
Proof.
  unfold fallbackKeywordExtraction. cbv zeta.
  rewrite length_map. apply slice0_length.
Qed.

End ExtractionFacts.


(** ** Deleting a session *)

Section DeleteFacts.

Lemma deleteChunksOf_frame (docId key : string) (embs : JsMap.t Chunk) :
  Js.startsWith key (docId ++ "_")%string = false ->
  JsMap.get (deleteChunksOf docId embs) key = JsMap.get embs key.
Proof.
  intros H. unfold deleteChunksOf.
  generalize (JsMap.keys embs) as ks. intros ks. revert embs.
  induction ks as [|k t IH]; intros embs; simpl; [reflexivity|].
  rewrite IH. destruct (Js.startsWith k (docId ++ "_")%string) eqn:E; [|reflexivity].
  apply get_delete_other. intros ->. congruence.
Qed.

(** What [deleteSession] does leave alone: an entry whose key starts with
    none of the prefixes [docId + '_'] of the documents of the session. *)
Lemma deleteSession_frame (st : Store) (sessionId key : string) :
  (forall docId,
      In docId (match JsMap.get (sessionDocuments st) sessionId with
                | Some l => l
                | None => []
                end) ->
      Js.startsWith key (docId ++ "_")%string = false) ->
  JsMap.get (embeddings (deleteSession st sessionId)) key
  = JsMap.get (embeddings st) key.
Proof.
  unfold deleteSession.
  generalize (match JsMap.get (sessionDocuments st) sessionId with
              | Some l => l
              | None => []
              end) as ids.
  generalize (documents st) as docs. generalize (embeddings st) as embs.
  intros embs docs ids. revert embs docs.
  induction ids as [|d t IH]; intros embs docs H; simpl; [reflexivity|].
  specialize (IH (deleteChunksOf d embs) (JsMap.delete docs d)
                (fun x Hx => H x (or_intror Hx))).
  destruct (fold_left _ t _) as [docs' embs'] eqn:F. simpl in *.
  rewrite IH. apply deleteChunksOf_frame, H. now left.
Qed.

(** C10, at the failing input. Document [doc] is registered under [s1] and
    document [doc_1] under [s2]; [deleteSession("s1")] removes the chunk
    [doc_1_0] of the document of [s2], whose key starts with [doc_]. *)
Theorem deleteSession_removes_prefixed_document :
  JsMap.get (sessionDocuments Scenario.prefixed) "s1" = Some ["doc"]
  /\ JsMap.get (sessionDocuments Scenario.prefixed) "s2" = Some ["doc_1"]
  /\ option_map documentId (JsMap.get (embeddings Scenario.prefixed) "doc_1_0")
     = Some "doc_1"
  /\ JsMap.get (embeddings (deleteSession Scenario.prefixed "s1")) "doc_1_0" = None
  /\ JsMap.has (documents (deleteSession Scenario.prefixed "s1")) "doc_1" = true.
Proof. repeat split; evaluate. Qed.

End DeleteFacts.

(** ** Cross-document search *)

Section CrossDocumentFacts.

Context {P : Packages}.

Local Open Scope R_scope.

Lemma fold_Rplus (l : list R) (a : R) :
  fold_left Rplus l a = a + fold_right Rplus 0 l.
Proof.
  revert a. induction l as [|x t IH]; intros a; simpl; [lra|].
  rewrite IH. lra.
Qed.

Lemma sumR_perm (l l' : list R) : Permutation l l' -> sumR l = sumR l'.
Proof.
  intros H. unfold sumR. rewrite !fold_Rplus. f_equal.
  induction H; simpl; lra.
Qed.

Lemma fold_Rmax_bound (l : list R) (a : R) :
  a <= fold_left Rmax l a /\ Forall (fun y => y <= fold_left Rmax l a) l.
Proof.
  revert a. induction l as [|x t IH]; intros a; simpl.
  - split; [lra | constructor].
  - destruct (IH (Rmax a x)) as [H1 H2].
    pose proof (Rmax_l a x). pose proof (Rmax_r a x).
    split; [lra|]. constructor; [lra | exact H2].
Qed.

Lemma fold_Rmax_In (l : list R) (a : R) :
  fold_left Rmax l a = a \/ In (fold_left Rmax l a) l.
Proof.
  revert a. induction l as [|x t IH]; intros a; simpl; [now left|].
  destruct (IH (Rmax a x)) as [H | H]; [|right; right; exact H].
  rewrite H. unfold Rmax. destruct (Rle_dec a x); [right; left | left]; reflexivity.
Qed.

(** [maxR] of a list with an element is its greatest element. *)
Lemma maxR_greatest (l : list R) :
  l <> [] -> In (maxR l) l /\ Forall (fun y => y <= maxR l) l.
Proof.
  destruct l as [|x t]; [congruence|]. intros _. simpl.
  destruct (fold_Rmax_bound t x) as [H1 H2].
  split.
  - destruct (fold_Rmax_In t x) as [H | H]; [left; now symmetry | right; exact H].
  - constructor; assumption.
Qed.

Lemma maxR_perm (l l' : list R) : Permutation l l' -> maxR l = maxR l'.
Proof.
  intros H. destruct l as [|x t].
  - apply Permutation_nil in H. now subst.
  - assert (N : x :: t <> []) by congruence.
    assert (N' : l' <> []).
    { intros ->. apply Permutation_sym, Permutation_nil in H. congruence. }
    destruct (maxR_greatest _ N) as [I B]. destruct (maxR_greatest _ N') as [I' B'].
    rewrite Forall_forall in B, B'.
    apply Rle_antisym.
    + apply B'. eapply Permutation_in; [exact H | exact I].
    + apply B. eapply Permutation_in; [apply Permutation_sym, H | exact I'].
Qed.

Lemma get_set {V : Type} (o : Obj.t V) (k k' : string) (v : V) :
  Obj.get (Obj.set o k v) k' = if String.eqb k k' then Some v else Obj.get o k'.
Proof.
  induction o as [|[k0 v0] r IH]; simpl.
  - reflexivity.
  - destruct (String.eqb k0 k) eqn:E; simpl.
    + apply String.eqb_eq in E. subst k0. now destruct (String.eqb k k').
    + destruct (String.eqb k0 k') eqn:E'; [|exact IH].
      apply String.eqb_eq in E'. subst k0.
      rewrite String.eqb_sym in E. now rewrite E.
Qed.

Lemma entries_get {V : Type} (o : Obj.t V) (k : string) (v : V) :
  In (k, v) (Obj.entries o) -> Obj.get o k = Some v.
Proof.
  unfold Obj.entries. intros H. apply in_flat_map in H.
  destruct H as [k' [_ H]]. destruct (Obj.get o k') as [v'|] eqn:E; simpl in H.
  - destruct H as [H | []]. now inversion H; subst.
  - contradiction.
Qed.

(** Every group of [documentGroups] has an element: a key is created when
    its first result is pushed. *)
Lemma groupPush_nonempty (results : list Result) (groups : Obj.t (list Result)) :
  (forall k v, Obj.get groups k = Some v -> v <> []) ->
  forall k v, Obj.get (fold_left groupPush results groups) k = Some v -> v <> [].
Proof.
  revert groups. induction results as [|r t IH]; intros groups H; simpl; [exact H|].
  apply IH. intros k v. unfold groupPush.
  destruct (Obj.get groups (documentId (chunk r))) as [g|] eqn:E.
  - rewrite E, get_set. destruct (String.eqb _ k).
    + intros [= <-]. destruct g; discriminate.
    + apply H.
  - rewrite get_set, String.eqb_refl, !get_set.
    destruct (String.eqb (documentId (chunk r)) k).
    + intros [= <-]. discriminate.
    + apply H.
Qed.

Lemma crossDocumentSearch_groups_nonempty (now : Z) (st : Store) (query : string)
  (sessionId : option string) (limit : nat) :
  Forall (fun g => (1 <= chunkCount g)%nat)
    (crossDocumentSearch now st query sessionId limit).
Proof.
  unfold crossDocumentSearch. cbv zeta.
  apply slice0_Forall, sortBy_Forall, Forall_forall.
  intros g Hg. apply in_map_iff in Hg. destruct Hg as [[k v] [<- Hin]].
  apply entries_get in Hin.
  assert (N : v <> []).
  { eapply groupPush_nonempty; [|exact Hin]. intros k' v' H'. discriminate. }
  cbn [documentGroup chunkCount]. destruct v; [congruence | simpl; lia].
Qed.

(** The fields of the group built for one entry of [documentGroups]. *)
Lemma documentGroup_fields (now : Z) (st : Store) (entry : string * list Result) :
  let g := documentGroup now st entry in
  relevanceScore g
  = 0.4 * avgSimilarity g + 0.4 * maxSimilarity g
    + 0.1 * ln (INR (chunkCount g + 1)) + 0.1 * Q2R (qualityBonus g)
  /\ avgSimilarity g
     = sumR (map similarity (groupChunks g)) / INR (List.length (groupChunks g))
  /\ maxSimilarity g = maxR (map similarity (groupChunks g))
  /\ chunkCount g = List.length (groupChunks g)
  /\ qualityBonus g
     = match JsMap.get (documents st) (groupDocumentId g) with
       | Some docData => calculateDocumentQuality now docData
       | None => 0%Q
       end.
Proof.
  destruct entry as [docId results]. unfold documentGroup.
  cbn [relevanceScore avgSimilarity maxSimilarity chunkCount qualityBonus
       groupChunks groupDocumentId].
  set (sorted := Js.sortBy _ results).
  assert (Hp : Permutation (map similarity sorted) (map similarity results))
    by (apply Permutation_map, sortBy_perm).
  rewrite (sumR_perm _ _ Hp), (maxR_perm _ _ Hp).
  unfold sorted. rewrite sortBy_length.
  split; [lra|]. repeat split.
Qed.

(** C4, as the code has it. The relevance of every document group is 0.4
    times the average similarity of its chunks, plus 0.4 times their greatest
    similarity, plus 0.1 times the natural logarithm of the chunk count plus
    one, plus 0.1 times the quality bonus of the document (0 when the store
    has no such document). *)
Theorem group_relevance (now : Z) (st : Store) (query : string)
  (sessionId : option string) (limit : nat) :
  Forall
    (fun g =>
       relevanceScore g
       = 0.4 * avgSimilarity g + 0.4 * maxSimilarity g
         + 0.1 * ln (INR (chunkCount g + 1)) + 0.1 * Q2R (qualityBonus g)
       /\ avgSimilarity g
          = sumR (map similarity (groupChunks g)) / INR (List.length (groupChunks g))
       /\ maxSimilarity g = maxR (map similarity (groupChunks g))
       /\ chunkCount g = List.length (groupChunks g)
       /\ qualityBonus g
          = match JsMap.get (documents st) (groupDocumentId g) with
            | Some docData => calculateDocumentQuality now docData
            | None => 0%Q
            end)
    (crossDocumentSearch now st query sessionId limit).
Proof.
  unfold crossDocumentSearch. cbv zeta.
  apply slice0_Forall, sortBy_Forall, Forall_forall.
  intros g Hg. apply in_map_iff in Hg. destruct Hg as [entry [<- _]].
  apply documentGroup_fields.
Qed.

End CrossDocumentFacts.

(** C4, counterexample. A cross-document search for [DevOps] in the scenario
    gives one group, of one chunk with similarity one half and a quality bonus
    of 0.8: its relevance is 0.48 plus a tenth of the logarithm of 2, and the
    sum with weight 0.6 on the maximum and no quality term is 0.5 plus a tenth
    of the logarithm of 2. *)
Lemma relevance_is_not_the_three_term_sum :
  exists g,
    @crossDocumentSearch Sample.packages 0 Scenario.store "DevOps" (Some "s1") 5 = [g]
    /\ (relevanceScore g = 0.48 + 0.1 * ln 2)%R
    /\ (0.4 * avgSimilarity g + 0.6 * maxSimilarity g
        + 0.1 * ln (INR (chunkCount g + 1)) = 0.5 + 0.1 * ln 2)%R
    /\ (0.48 + 0.1 * ln 2 < 0.5 + 0.1 * ln 2)%R.
Proof.
  exists (documentGroup 0 Scenario.store ("d1", [Scenario.devopsResult])).
  split.
  { unfold crossDocumentSearch. change (5 * 2)%nat with 10%nat.
    rewrite search_store. reflexivity. }
  unfold documentGroup.
  cbn [relevanceScore avgSimilarity maxSimilarity chunkCount map List.length
       Scenario.devopsResult similarity].
  assert (Hq : match JsMap.get (documents Scenario.store) "d1" with
               | Some docData => calculateDocumentQuality 0 docData
               | None => 0%Q
               end = (160 # 200)%Q) by evaluate.
  rewrite Hq.
  assert (E1 : (sumR [0.5] / INR 1 = 0.5)%R) by (unfold sumR; simpl; lra).
  assert (E2 : maxR [0.5%R] = 0.5%R) by reflexivity.
  assert (E3 : INR (1 + 1) = 2%R) by (simpl; lra).
  assert (E4 : Q2R (160 # 200) = 0.8%R) by (unfold Q2R; simpl; lra).
  rewrite E1, E2, E3, E4.
  repeat split; lra.
Qed.


(** * Further properties of the service *)

(** ** Ranking *)

Section Ranking.

Context {A : Type} (key : A -> R).

Local Open Scope R_scope.

Lemma insertBy_descending (x : A) (l : list A) :
  descending key l ->
  descending key (Js.insertBy (fun b a => Js.Rltb (key a) (key b)) x l).
Proof.
  unfold descending. induction l as [|y t IH]; intros H; simpl.
  - constructor; constructor.
  - inversion H as [|? ? Ht Hy]; subst.
    destruct (Js.Rltb (key x) (key y)) eqn:E.
    + apply Rltb_true in E. constructor; [apply IH, Ht|].
      eapply Permutation_Forall; [apply Permutation_sym, insertBy_perm|].
      constructor; [lra | exact Hy].
    + apply Rltb_false in E. constructor; [exact H|].
      constructor; [exact E|].
      eapply Forall_impl; [|exact Hy]. intros b Hb. cbv beta in Hb. lra.
Qed.

Lemma sortBy_descending (l : list A) :
  descending key (Js.sortBy (fun b a => Js.Rltb (key a) (key b)) l).
Proof.
  induction l as [|x t IH]; simpl.
  - constructor.
  - apply insertBy_descending, IH.
Qed.

Lemma slice0_descending (n : nat) (l : list A) :
  descending key l -> descending key (Js.slice0 n l).
Proof.
  unfold descending, Js.slice0. revert l.
  induction n as [|n IH]; intros l H; [constructor|].
  destruct l as [|x t]; [constructor|]. simpl.
  inversion H as [|? ? Ht Hx]; subst.
  constructor; [apply IH, Ht|].
  rewrite Forall_forall in *. intros b Hb. apply Hx, (slice0_In n), Hb.
Qed.

Lemma descending_ext (key' : A -> R) (l : list A) :
  Forall (fun a => key a = key' a) l -> descending key l -> descending key' l.
Proof.
  unfold descending. induction l as [|x t IH]; intros He H; [constructor|].
  inversion He as [|? ? Ex Et]; subst. inversion H as [|? ? Ht Hx]; subst.
  constructor; [apply IH; assumption|].
  rewrite Forall_forall in *. intros b Hb.
  rewrite <- Ex, <- (Et b Hb). apply Hx, Hb.
Qed.

End Ranking.

(** ** What a search returns *)

Section SearchResults.

Context {P : Packages}.

Local Open Scope R_scope.

(** The scoring loop pushes nothing but scored entries of the list it is
    given. *)
Lemma scoreEmbeddings_results (Q : Result -> Prop) (q : Embedding)
  (l : list Chunk) (acc res : list Result) :
  (forall emb docEmb,
      In emb l -> embedding emb = Some docEmb ->
      Q {| chunk := emb;
           similarity := calculateEnhancedSimilarity q docEmb;
           score := calculateEnhancedSimilarity q docEmb |}) ->
  Forall Q acc ->
  scoreEmbeddings q l acc = Some res ->
  Forall Q res.
Proof.
  revert acc. induction l as [|e t IH]; simpl; intros acc HQ Hacc Hres.
  - now inversion Hres; subst.
  - destruct (embedding e) as [d|] eqn:E; [|discriminate].
    eapply IH; [| |exact Hres].
    + intros emb docEmb Hin. apply HQ. now right.
    + destruct (Js.Rltb 0.1 (calculateEnhancedSimilarity q d)); [|exact Hacc].
      apply Forall_app. split; [exact Hacc|].
      constructor; [|constructor]. apply HQ; [now left | exact E].
Qed.

(** The fallback pushes nothing but chunks of the documents it is given,
    each under its index, with equal [score] and [similarity]. *)
Lemma fallbackChunks_results (Q : Result -> Prop) (ql : string) (qw : list string)
  (doc : DocData) (texts : list string) (index : nat) (acc : list Result) :
  (forall i chunkText s,
      nth_error texts i = Some chunkText ->
      Q {| chunk :=
             {| documentId := id doc;
                chunkIndex := index + i;
                text := chunkText;
                embedding := None;
                metadata := docMetadata doc;
                chunkKeywords := None;
                vectors := None |};
           similarity := Rmin s 1;
           score := Rmin s 1 |}) ->
  Forall Q acc ->
  Forall Q (fallbackChunks ql qw doc index texts acc).
Proof.
  revert index acc. induction texts as [|c t IH]; simpl; intros index acc HQ Hacc.
  - exact Hacc.
  - apply IH.
    + intros i chunkText s Hi.
      replace (S index + i)%nat with (index + S i)%nat by lia.
      apply HQ. exact Hi.
    + destruct (fallbackScore ql qw c) as [s|]; [|exact Hacc].
      destruct (Js.Rltb 0.1 s); [|exact Hacc].
      apply Forall_app. split; [exact Hacc|].
      constructor; [|constructor].
      specialize (HQ 0%nat c s eq_refl).
      now rewrite Nat.add_0_r in HQ.
Qed.

Lemma fallbackTextSearch_results (Q : Result -> Prop) (st : Store) (query : string)
  (sessionId : option string) (limit : nat) (documentIds : option (list string)) :
  (forall doc i chunkText s,
      In doc (documentsToSearch st sessionId documentIds) ->
      nth_error (chunks doc) i = Some chunkText ->
      Q {| chunk :=
             {| documentId := id doc;
                chunkIndex := i;
                text := chunkText;
                embedding := None;
                metadata := docMetadata doc;
                chunkKeywords := None;
                vectors := None |};
           similarity := Rmin s 1;
           score := Rmin s 1 |}) ->
  Forall Q (fallbackTextSearch st query sessionId limit documentIds).
Proof.
  intros HQ. unfold fallbackTextSearch. cbv zeta.
  apply slice0_Forall, sortBy_Forall.
  generalize (@nil Result) (@Forall_nil Result Q).
  revert HQ.
  induction (documentsToSearch st sessionId documentIds) as [|d t IH];
    simpl; intros HQ acc Hacc.
  - exact Hacc.
  - apply IH.
    + intros doc i chunkText s Hin. apply HQ. now right.
    + apply fallbackChunks_results; [|exact Hacc].
      intros i chunkText s Hi. apply (HQ d i chunkText s); [now left | exact Hi].
Qed.

(** Both paths: a property of the scored entries of the primary path and of
    the chunk records of the fallback holds of every result. *)
Lemma semanticSearch_results (Q : Result -> Prop) (st : Store) (query : string)
  (sessionId : option string) (limit : nat) (documentIds : option (list string)) :
  (forall emb docEmb,
      In emb (embeddingsToSearch st sessionId documentIds) ->
      embedding emb = Some docEmb ->
      Q {| chunk := emb;
           similarity := calculateEnhancedSimilarity (createTextEmbedding query) docEmb;
           score := calculateEnhancedSimilarity (createTextEmbedding query) docEmb |}) ->
  (forall doc i chunkText s,
      In doc (documentsToSearch st sessionId documentIds) ->
      nth_error (chunks doc) i = Some chunkText ->
      Q {| chunk :=
             {| documentId := id doc;
                chunkIndex := i;
                text := chunkText;
                embedding := None;
                metadata := docMetadata doc;
                chunkKeywords := None;
                vectors := None |};
           similarity := Rmin s 1;
           score := Rmin s 1 |}) ->
  Forall Q (semanticSearch st query sessionId limit documentIds).
Proof.
  intros H1 H2. unfold semanticSearch.
  destruct (scoreEmbeddings _ _ _) as [res|] eqn:E.
  - apply slice0_Forall, sortBy_Forall.
    eapply scoreEmbeddings_results; [exact H1 | constructor | exact E].
  - apply fallbackTextSearch_results, H2.
Qed.

Lemma selectFor_In {A : Type} (key : A -> string) (st : Store)
  (sessionId : option string) (documentIds : option (list string))
  (all : list A) (e : A) :
  In e (selectFor key st sessionId documentIds all) ->
  In e all
  /\ (forall sessionDocs,
         sessionDocsFor st sessionId = Some sessionDocs -> In (key e) sessionDocs)
  /\ (forall ids, documentIds = Some ids -> In (key e) ids).
Proof.
  unfold selectFor. intros H.
  assert (H' : In e (match sessionDocsFor st sessionId with
                     | Some sessionDocs =>
                         filter (fun e => Js.mem (key e) sessionDocs) all
                     | None => all
                     end)
               /\ (forall ids, documentIds = Some ids -> In (key e) ids)).
  { destruct documentIds as [ids|].
    - apply filter_In in H. destruct H as [H Hm]. split; [exact H|].
      intros ids' [= <-]. apply mem_In, Hm.
    - split; [exact H | discriminate]. }
  destruct H' as [H' Hids].
  destruct (sessionDocsFor st sessionId) as [docs|].
  - apply filter_In in H'. destruct H' as [Hall Hm].
    repeat split; [exact Hall | | exact Hids].
    intros docs' [= <-]. apply mem_In, Hm.
  - repeat split; [exact H' | discriminate | exact Hids].
Qed.

(** X1. A search with a list of document identifiers returns chunks of these
    documents only. *)
Theorem search_within_documentIds (st : Store) (query : string)
  (sessionId : option string) (limit : nat) (ids : list string) :
  Forall (fun r => In (documentId (chunk r)) ids)
    (semanticSearch st query sessionId limit (Some ids)).
Proof.
  apply semanticSearch_results.
  - intros emb docEmb Hin _. cbn [chunk].
    unfold embeddingsToSearch in Hin. apply selectFor_In in Hin. destruct Hin as [_ [_ H]].
    now apply H.
  - intros doc i chunkText s Hin _. cbn [chunk documentId].
    unfold documentsToSearch in Hin. apply selectFor_In in Hin. destruct Hin as [_ [_ H]].
    now apply H.
Qed.

(** X2. A search with the identifier of a registered session returns chunks of
    the documents registered under it only. *)
Theorem search_within_session (st : Store) (query : string) (s : string)
  (limit : nat) (documentIds : option (list string)) (sessionDocs : list string) :
  s <> EmptyString ->
  JsMap.get (sessionDocuments st) s = Some sessionDocs ->
  Forall (fun r => In (documentId (chunk r)) sessionDocs)
    (semanticSearch st query (Some s) limit documentIds).
Proof.
  intros Hs Hget.
  assert (F : sessionDocsFor st (Some s) = Some sessionDocs).
  { unfold sessionDocsFor, JsMap.has. rewrite Hget.
    apply String.eqb_neq in Hs. now rewrite Hs. }
  apply semanticSearch_results.
  - intros emb docEmb Hin _. cbn [chunk].
    unfold embeddingsToSearch in Hin. apply selectFor_In in Hin. destruct Hin as [_ [H _]].
    now apply H.
  - intros doc i chunkText t Hin _. cbn [chunk documentId].
    unfold documentsToSearch in Hin. apply selectFor_In in Hin. destruct Hin as [_ [H _]].
    now apply H.
Qed.

(** X3. Where the results come from: on the primary path every result is an
    entry of the [embeddings] map with its features, scored against the query;
    on the fallback every result names a document of the store and the text
    that document has at the index of the result. *)
Theorem search_results_are_stored (st : Store) (query : string)
  (sessionId : option string) (limit : nat) (documentIds : option (list string)) :
  Forall
    (fun r =>
       (In (chunk r) (JsMap.values (embeddings st))
        /\ exists docEmb,
             embedding (chunk r) = Some docEmb
             /\ similarity r
                = calculateEnhancedSimilarity (createTextEmbedding query) docEmb)
       \/ (exists doc,
             In doc (JsMap.values (documents st))
             /\ id doc = documentId (chunk r)
             /\ nth_error (chunks doc) (chunkIndex (chunk r)) = Some (text (chunk r))))
    (semanticSearch st query sessionId limit documentIds).
Proof.
  apply semanticSearch_results.
  - intros emb docEmb Hin He. left. cbn [chunk similarity].
    unfold embeddingsToSearch in Hin. apply selectFor_In in Hin. destruct Hin as [Hin _].
    split; [exact Hin|]. exists docEmb. auto.
  - intros doc i chunkText s Hin Hi. right. cbn [chunk documentId chunkIndex text].
    unfold documentsToSearch in Hin. apply selectFor_In in Hin. destruct Hin as [Hin _].
    exists doc. auto.
Qed.

(** X4. The results are ranked: their similarities are in descending order. *)
Theorem search_results_descending (st : Store) (query : string)
  (sessionId : option string) (limit : nat) (documentIds : option (list string)) :
  descending similarity (semanticSearch st query sessionId limit documentIds).
Proof.
  unfold semanticSearch.
  destruct (scoreEmbeddings _ _ _) as [res|].
  - apply slice0_descending, sortBy_descending.
  - apply (descending_ext score).
    + eapply Forall_impl; [|apply fallbackTextSearch_results with
          (Q := fun r => score r = similarity r)].
      * intros r Hr. exact Hr.
      * intros. reflexivity.
    + unfold fallbackTextSearch. apply slice0_descending, sortBy_descending.
Qed.

End SearchResults.

(** [search_within_session] in the scenario: session [s1] holds [d1]. *)
Lemma search_within_session_witness :
  "s1" <> EmptyString
  /\ JsMap.get (sessionDocuments Scenario.store) "s1" = Some ["d1"]
  /\ Forall (fun r => In (documentId (chunk r)) ["d1"])
       (@semanticSearch Sample.packages Scenario.store "DevOps" (Some "s1") 10 None).
Proof.
  split; [discriminate|]. split; [reflexivity|].
  apply (@search_within_session Sample.packages Scenario.store "DevOps" "s1" 10 None ["d1"]).
  - discriminate.
  - reflexivity.
Defined.

(** ** The store under [addDocument] and [deleteSession] *)

Section MapFacts.

Context {V : Type}.

Lemma set_Forall (Q : string * V -> Prop) (m : Obj.t V) (k : string) (v : V) :
  Forall Q m -> Q (k, v) -> Forall Q (Obj.set m k v).
Proof.
  intros Hm Hv. induction m as [|[k' v'] r IH]; simpl.
  - constructor; [exact Hv | constructor].
  - inversion Hm as [|? ? H1 H2]; subst.
    destruct (String.eqb k' k) eqn:E.
    + apply String.eqb_eq in E. subst k'. constructor; assumption.
    + constructor; [exact H1 | apply IH, H2].
Qed.

Lemma delete_Forall (Q : string * V -> Prop) (m : JsMap.t V) (k : string) :
  Forall Q m -> Forall Q (JsMap.delete m k).
Proof.
  intros H. unfold JsMap.delete. apply Forall_forall. intros e He.
  apply filter_In in He. rewrite Forall_forall in H. apply H, He.
Qed.

Lemma get_In (m : Obj.t V) (k : string) (v : V) :
  Obj.get m k = Some v -> In (k, v) m.
Proof.
  induction m as [|[k' v'] r IH]; simpl; [discriminate|].
  destruct (String.eqb k' k) eqn:E.
  - apply String.eqb_eq in E. subst k'. intros [= ->]. now left.
  - intros H. right. apply IH, H.
Qed.

Lemma values_In (m : JsMap.t V) (v : V) :
  In v (JsMap.values m) -> exists k, In (k, v) m.
Proof.
  unfold JsMap.values. intros H. apply in_map_iff in H.
  destruct H as [[k v'] [E H]]. simpl in E. subst v'. now exists k.
Qed.

Lemma get_keys (m : Obj.t V) (k : string) :
  Obj.get m k = None \/ In k (map fst m).
Proof.
  induction m as [|[k' v'] r IH]; simpl; [now left|].
  destruct (String.eqb k' k) eqn:E.
  - apply String.eqb_eq in E. right. now left.
  - destruct IH as [IH | IH]; [now left | right; now right].
Qed.

Lemma get_delete_none (m : JsMap.t V) (k k' : string) :
  JsMap.get m k' = None -> JsMap.get (JsMap.delete m k) k' = None.
Proof.
  intros H. destruct (string_dec k k') as [-> | N].
  - apply get_delete_same.
  - now rewrite get_delete_other.
Qed.

End MapFacts.

Section KeyFacts.

Lemma to_uint_nonnil (n : nat) : Nat.to_uint n <> Decimal.Nil.
Proof.
  rewrite <- (Unsigned.of_to n), Unsigned.to_of. apply DecimalFacts.unorm_nonnil.
Qed.

(** [String(index)] tells the indices apart. *)
Lemma ofNat_inj (i j : nat) : Js.ofNat i = Js.ofNat j -> i = j.
Proof.
  unfold Js.ofNat. intros H.
  apply Unsigned.to_uint_inj.
  pose proof (NilZero.usu _ (to_uint_nonnil i)) as Hi.
  pose proof (NilZero.usu _ (to_uint_nonnil j)) as Hj.
  rewrite H in Hi. congruence.
Qed.

Lemma append_inj_l (p a b : string) : (p ++ a)%string = (p ++ b)%string -> a = b.
Proof.
  induction p as [|c p IH]; simpl; intros H; [exact H|].
  apply IH. now inversion H.
Qed.

(** The keys of the chunks of one document are pairwise different. *)
Lemma chunkId_inj (d : string) (i j : nat) : chunkId d i = chunkId d j -> i = j.
Proof.
  unfold chunkId. intros H.
  apply append_inj_l, append_inj_l in H. apply ofNat_inj, H.
Qed.

Lemma prefix_append (p s : string) : String.prefix p (p ++ s) = true.
Proof.
  induction p as [|c p IH]; simpl.
  - now destruct s.
  - destruct (ascii_dec c c) as [_ | N]; [exact IH | congruence].
Qed.

Lemma chunkId_startsWith (d : string) (i : nat) :
  Js.startsWith (chunkId d i) (d ++ "_")%string = true.
Proof.
  unfold Js.startsWith, chunkId.
  replace (d ++ "_" ++ Js.ofNat i)%string with ((d ++ "_") ++ Js.ofNat i)%string.
  - apply prefix_append.
  - now rewrite append_assoc.
Qed.

End KeyFacts.

Section StoreFacts.

Context {P : Packages}.

(** What [setChunks] writes, for a property of entries. *)
Lemma setChunks_Forall (Q : string * Chunk -> Prop) (d : string) (meta : Metadata)
  (embs : list Embedding) (texts : list string) (index : nat) (m : JsMap.t Chunk) :
  Forall Q m ->
  (forall i chunkText,
      nth_error texts i = Some chunkText ->
      Q (chunkId d (index + i),
         {| documentId := d;
            chunkIndex := index + i;
            text := chunkText;
            embedding := nth_error embs (index + i);
            metadata := meta;
            chunkKeywords := Some (extractChunkKeywords chunkText);
            vectors := Some (createWordVectors chunkText) |})) ->
  Forall Q (setChunks d meta embs index texts m).
Proof.
  revert index m. induction texts as [|c t IH]; intros index m Hm HQ; simpl.
  - exact Hm.
  - apply IH.
    + apply set_Forall; [exact Hm|].
      specialize (HQ 0 c eq_refl). now rewrite Nat.add_0_r in HQ.
    + intros i chunkText Hi.
      replace (S index + i) with (index + S i) by lia. apply HQ, Hi.
Qed.

(** A key [setChunks] does not write keeps its entry. *)
Lemma setChunks_frame (d : string) (meta : Metadata) (embs : list Embedding)
  (texts : list string) (index : nat) (m : JsMap.t Chunk) (key : string) :
  (forall i, i < List.length texts -> key <> chunkId d (index + i)) ->
  JsMap.get (setChunks d meta embs index texts m) key = JsMap.get m key.
Proof.
  revert index m. induction texts as [|c t IH]; intros index m H; simpl.
  - reflexivity.
  - rewrite IH.
    + unfold JsMap.get, JsMap.set. rewrite get_set.
      destruct (String.eqb (chunkId d index) key) eqn:E; [|reflexivity].
      apply String.eqb_eq in E. exfalso. apply (H 0); [simpl; lia|].
      now rewrite Nat.add_0_r.
    + intros i Hi. replace (S index + i) with (index + S i) by lia.
      apply H. simpl. lia.
Qed.

(** The entry [setChunks] writes for the chunk at one index. *)
Lemma setChunks_get (d : string) (meta : Metadata) (embs : list Embedding)
  (texts : list string) (index : nat) (m : JsMap.t Chunk) (i : nat) (chunkText : string) :
  nth_error texts i = Some chunkText ->
  JsMap.get (setChunks d meta embs index texts m) (chunkId d (index + i))
  = Some {| documentId := d;
            chunkIndex := index + i;
            text := chunkText;
            embedding := nth_error embs (index + i);
            metadata := meta;
            chunkKeywords := Some (extractChunkKeywords chunkText);
            vectors := Some (createWordVectors chunkText) |}.
Proof.
  revert index m i. induction texts as [|c t IH]; intros index m i Hi.
  - destruct i; discriminate.
  - destruct i as [|i]; simpl in Hi |- *.
    + injection Hi as ->. rewrite Nat.add_0_r.
      rewrite setChunks_frame.
      * unfold JsMap.get, JsMap.set. now rewrite get_set, String.eqb_refl.
      * intros j _ E. apply chunkId_inj in E. lia.
    + replace (index + S i) with (S index + i) by lia. apply IH, Hi.
Qed.

Lemma deleteChunksOf_Forall (Q : string * Chunk -> Prop) (d : string)
  (embs : JsMap.t Chunk) :
  Forall Q embs -> Forall Q (deleteChunksOf d embs).
Proof.
  unfold deleteChunksOf. generalize (JsMap.keys embs) as ks. intros ks. revert embs.
  induction ks as [|k t IH]; intros embs H; simpl; [exact H|].
  apply IH. destruct (Js.startsWith k (d ++ "_")%string); [|exact H].
  apply delete_Forall, H.
Qed.

Lemma deleteChunksOf_none (d key : string) (embs : JsMap.t Chunk) :
  JsMap.get embs key = None -> JsMap.get (deleteChunksOf d embs) key = None.
Proof.
  unfold deleteChunksOf. generalize (JsMap.keys embs) as ks. intros ks. revert embs.
  induction ks as [|k t IH]; intros embs H; simpl; [exact H|].
  apply IH. destruct (Js.startsWith k (d ++ "_")%string); [|exact H].
  apply get_delete_none, H.
Qed.

(** The inner loop of [deleteSession] removes every key that starts with
    the identifier and an underscore. *)
Lemma deleteChunksOf_removes (d key : string) (embs : JsMap.t Chunk) :
  Js.startsWith key (d ++ "_")%string = true ->
  JsMap.get (deleteChunksOf d embs) key = None.
Proof.
  intros Hp. unfold deleteChunksOf.
  assert (H : JsMap.get embs key = None \/ In key (JsMap.keys embs))
    by apply get_keys.
  revert H. generalize (JsMap.keys embs) as ks. intros ks. revert embs.
  induction ks as [|k t IH]; intros embs H; simpl.
  - destruct H as [H | []]. exact H.
  - apply IH. destruct H as [H | [H | H]].
    + left. destruct (Js.startsWith k (d ++ "_")%string); [|exact H].
      apply get_delete_none, H.
    + subst k. rewrite Hp. left. apply get_delete_same.
    + now right.
Qed.

Lemma deleteSession_loop (st : Store) (s : string) :
  documents (deleteSession st s)
  = fst (deleteLoop (registeredUnder st s) (documents st) (embeddings st))
  /\ embeddings (deleteSession st s)
     = snd (deleteLoop (registeredUnder st s) (documents st) (embeddings st))
  /\ sessionDocuments (deleteSession st s) = JsMap.delete (sessionDocuments st) s.
Proof.
  unfold deleteSession, deleteLoop, registeredUnder.
  destruct (fold_left _ _ _) as [docs embs]. simpl. auto.
Qed.

Lemma deleteLoop_Forall (Qd : string * DocData -> Prop) (Qc : string * Chunk -> Prop)
  (ids : list string) (docs : JsMap.t DocData) (embs : JsMap.t Chunk) :
  Forall Qd docs -> Forall Qc embs ->
  Forall Qd (fst (deleteLoop ids docs embs)) /\ Forall Qc (snd (deleteLoop ids docs embs)).
Proof.
  unfold deleteLoop. revert docs embs.
  induction ids as [|d t IH]; intros docs embs Hd Hc; simpl; [auto|].
  apply IH; [apply delete_Forall, Hd | apply deleteChunksOf_Forall, Hc].
Qed.

Lemma deleteLoop_none (ids : list string) (docs : JsMap.t DocData)
  (embs : JsMap.t Chunk) :
  (forall d, JsMap.get docs d = None ->
             JsMap.get (fst (deleteLoop ids docs embs)) d = None)
  /\ (forall key, JsMap.get embs key = None ->
                  JsMap.get (snd (deleteLoop ids docs embs)) key = None).
Proof.
  unfold deleteLoop. revert docs embs.
  induction ids as [|d t IH]; intros docs embs; simpl; [auto|].
  destruct (IH (JsMap.delete docs d) (deleteChunksOf d embs)) as [H1 H2].
  split.
  - intros d' H. apply H1, get_delete_none, H.
  - intros key H. apply H2, deleteChunksOf_none, H.
Qed.

Lemma deleteLoop_removes (ids : list string) (docs : JsMap.t DocData)
  (embs : JsMap.t Chunk) (d : string) :
  In d ids ->
  JsMap.get (fst (deleteLoop ids docs embs)) d = None
  /\ (forall key, Js.startsWith key (d ++ "_")%string = true ->
                  JsMap.get (snd (deleteLoop ids docs embs)) key = None).
Proof.
  revert docs embs. induction ids as [|d0 t IH]; intros docs embs Hin; [contradiction|].
  destruct Hin as [-> | Hin].
  - change (deleteLoop (d :: t) docs embs)
      with (deleteLoop t (JsMap.delete docs d) (deleteChunksOf d embs)).
    destruct (deleteLoop_none t (JsMap.delete docs d) (deleteChunksOf d embs)) as [H1 H2].
    split.
    + apply H1, get_delete_same.
    + intros key Hk. apply H2, deleteChunksOf_removes, Hk.
  - apply (IH (JsMap.delete docs d0) (deleteChunksOf d0 embs) Hin).
Qed.

Lemma deleteLoop_documents_frame (ids : list string) (docs : JsMap.t DocData)
  (embs : JsMap.t Chunk) (d : string) :
  ~ In d ids ->
  JsMap.get (fst (deleteLoop ids docs embs)) d = JsMap.get docs d.
Proof.
  revert docs embs. induction ids as [|d0 t IH]; intros docs embs Hin; [reflexivity|].
  change (deleteLoop (d0 :: t) docs embs)
    with (deleteLoop t (JsMap.delete docs d0) (deleteChunksOf d0 embs)).
  rewrite IH by (intros H; apply Hin; now right).
  apply get_delete_other. intros ->. apply Hin. now left.
Qed.

(** The entries of a store the service has built. *)
Lemma reachable_entries (st : Store) :
  reachable st ->
  Forall chunkEntry (embeddings st) /\ Forall documentEntry (documents st).
Proof.
  induction 1 as [| now st d texts meta s _ [IHc IHd] | st s _ [IHc IHd]].
  - split; constructor.
  - split; cbn [addDocument embeddings documents].
    + apply setChunks_Forall; [exact IHc|].
      intros i chunkText Hi. unfold chunkEntry. cbn [fst snd documentId chunkIndex
        text embedding chunkKeywords vectors].
      repeat split. unfold createEnhancedEmbeddings.
      now rewrite (map_nth_error _ _ _ Hi).
    + apply set_Forall; [exact IHd|]. unfold documentEntry. cbn. auto.
  - destruct (deleteSession_loop st s) as [E1 [E2 _]]. rewrite E1, E2.
    rewrite and_comm. now apply deleteLoop_Forall.
Qed.

End StoreFacts.

Section StoreProperties.

Context {P : Packages}.

(** X5. In a store the service has built, every entry of [embeddings] read under
    a key is the chunk that key names and carries the features of its own
    text, and every entry of [documents] read under an identifier is the
    document of that identifier with one feature record for each chunk. *)
Theorem reachable_store_entries (st : Store) :
  reachable st ->
  (forall key c,
      JsMap.get (embeddings st) key = Some c ->
      key = chunkId (documentId c) (chunkIndex c)
      /\ embedding c = Some (createTextEmbedding (text c))
      /\ chunkKeywords c = Some (extractChunkKeywords (text c))
      /\ vectors c = Some (createWordVectors (text c)))
  /\ (forall d doc,
         getDocumentStructure st d = Some doc ->
         id doc = d
         /\ docEmbeddings doc = map createTextEmbedding (chunks doc)
         /\ totalChunks (statistics doc) = List.length (chunks doc)).
Proof.
  intros H. destruct (reachable_entries st H) as [Hc Hd].
  rewrite Forall_forall in Hc, Hd. split.
  - intros key c Hget. apply get_In in Hget. exact (Hc _ Hget).
  - intros d doc Hget. apply get_In in Hget.
    destruct (Hd _ Hget) as [E1 [E2 [_ E4]]]. cbn [fst snd] in *.
    repeat split; [now symmetry | exact E2 | now rewrite E4].
Qed.

(** X6. In a store the service has built the search never takes the fallback:
    every result is an entry of [embeddings] with its features, and its
    similarity is the enhanced similarity of the features of the query and of
    the text of the chunk. *)
Theorem reachable_search_scores_features (st : Store) (query : string)
  (sessionId : option string) (limit : nat) (documentIds : option (list string)) :
  reachable st ->
  Forall
    (fun r =>
       In (chunk r) (JsMap.values (embeddings st))
       /\ embedding (chunk r) = Some (createTextEmbedding (text (chunk r)))
       /\ similarity r
          = calculateEnhancedSimilarity (createTextEmbedding query)
              (createTextEmbedding (text (chunk r))))
    (semanticSearch st query sessionId limit documentIds).
Proof.
  intros H. destruct (reachable_entries st H) as [Hc _].
  rewrite Forall_forall in Hc.
  assert (Hall : forall c, In c (embeddingsToSearch st sessionId documentIds) ->
                   In c (JsMap.values (embeddings st))
                   /\ embedding c = Some (createTextEmbedding (text c))).
  { intros c Hin. unfold embeddingsToSearch in Hin. apply selectFor_In in Hin.
    destruct Hin as [Hin _]. split; [exact Hin|].
    apply values_In in Hin. destruct Hin as [k Hin]. exact (proj1 (proj2 (Hc _ Hin))). }
  unfold semanticSearch.
  rewrite scoreEmbeddings_scored.
  - apply slice0_Forall, sortBy_Forall, Forall_forall.
    intros r Hr. simpl in Hr. apply in_flat_map in Hr. destruct Hr as [c [Hin Hr]].
    destruct (Hall c Hin) as [Hv He]. unfold scored in Hr. rewrite He in Hr.
    cbv zeta in Hr. destruct (Js.Rltb _ _); [|contradiction].
    destruct Hr as [<- | []]. cbn [chunk similarity]. auto.
  - apply Forall_forall. intros c Hin. destruct (Hall c Hin) as [_ He]. congruence.
Qed.

(** X7. After [addDocument] the chunk at each index is stored under the key of
    the document and that index, with the features of its text. *)
Theorem addDocument_chunk_lookup (now : Z) (st : Store) (d : string)
  (texts : list string) (meta : Metadata) (s : string) (i : nat) (chunkText : string) :
  nth_error texts i = Some chunkText ->
  JsMap.get (embeddings (addDocument now st d texts meta s)) (chunkId d i)
  = Some {| documentId := d;
            chunkIndex := i;
            text := chunkText;
            embedding := Some (createTextEmbedding chunkText);
            metadata := meta;
            chunkKeywords := Some (extractChunkKeywords chunkText);
            vectors := Some (createWordVectors chunkText) |}.
Proof.
  intros Hi. cbn [addDocument embeddings].
  rewrite (setChunks_get d meta _ texts 0 (embeddings st) i chunkText Hi).
  unfold createEnhancedEmbeddings. cbn [Nat.add].
  now rewrite (map_nth_error _ _ _ Hi).
Qed.

(** X8. After [addDocument] the document is stored under its identifier with
    its chunks, its session and the time of the call, and its identifier is
    the last one registered under the session, after those registered
    before. *)
Theorem addDocument_registers (now : Z) (st : Store) (d : string)
  (texts : list string) (meta : Metadata) (s : string) :
  let st' := addDocument now st d texts meta s in
  (exists doc,
      getDocumentStructure st' d = Some doc
      /\ id doc = d /\ chunks doc = texts /\ docMetadata doc = meta
      /\ sessionId doc = s /\ addedAt doc = now
      /\ List.length (docEmbeddings doc) = List.length texts)
  /\ registeredUnder st' s = (registeredUnder st s ++ [d])%list.
Proof.
  cbv zeta. split.
  - unfold getDocumentStructure. cbn [addDocument documents].
    unfold JsMap.get, JsMap.set. rewrite get_set, String.eqb_refl.
    eexists. split; [reflexivity|]. cbn.
    repeat split. unfold createEnhancedEmbeddings. apply length_map.
  - unfold registeredUnder. cbn [addDocument sessionDocuments].
    unfold JsMap.get, JsMap.set, JsMap.has, JsMap.get.
    rewrite get_set, String.eqb_refl.
    destruct (Obj.get (sessionDocuments st) s) as [l|] eqn:E; cbn [negb].
    + now rewrite E.
    + now rewrite get_set, String.eqb_refl.
Qed.

(** X9. [addDocument] leaves the rest of the store as it is: the documents of
    other identifiers, the registrations of other sessions, and the entries of
    [embeddings] under keys that are not keys of the new chunks. *)
Theorem addDocument_keeps_others (now : Z) (st : Store) (d : string)
  (texts : list string) (meta : Metadata) (s : string) (d' s' key : string) :
  d' <> d ->
  s' <> s ->
  (forall i, i < List.length texts -> key <> chunkId d i) ->
  let st' := addDocument now st d texts meta s in
  getDocumentStructure st' d' = getDocumentStructure st d'
  /\ JsMap.get (sessionDocuments st') s' = JsMap.get (sessionDocuments st) s'
  /\ JsMap.get (embeddings st') key = JsMap.get (embeddings st) key.
Proof.
  intros Hd Hs Hk. cbv zeta.
  assert (Ed : String.eqb d d' = false) by (apply String.eqb_neq; congruence).
  assert (Es : String.eqb s s' = false) by (apply String.eqb_neq; congruence).
  split; [|split].
  - unfold getDocumentStructure. cbn [addDocument documents].
    unfold JsMap.get, JsMap.set. now rewrite get_set, Ed.
  - cbn [addDocument sessionDocuments].
    unfold JsMap.get, JsMap.set. rewrite get_set, Es.
    destruct (negb (JsMap.has (sessionDocuments st) s)); [|reflexivity].
    now rewrite get_set, Es.
  - cbn [addDocument embeddings]. apply setChunks_frame. exact Hk.
Qed.

(** X10. [deleteSession] removes every document registered under the session and
    every chunk of such a document: nothing is left under the identifier of
    the document or under the key of one of its chunks. *)
Theorem deleteSession_removes_documents (st : Store) (s d : string) :
  In d (registeredUnder st s) ->
  getDocumentStructure (deleteSession st s) d = None
  /\ forall i, JsMap.get (embeddings (deleteSession st s)) (chunkId d i) = None.
Proof.
  intros Hin. destruct (deleteSession_loop st s) as [E1 [E2 _]].
  unfold getDocumentStructure. rewrite E1, E2.
  destruct (deleteLoop_removes _ (documents st) (embeddings st) d Hin) as [H1 H2].
  split; [exact H1|]. intros i. apply H2, chunkId_startsWith.
Qed.

(** X11. [deleteSession] leaves alone the registrations of the other sessions,
    the documents that are not registered under the session, and the entries
    of [embeddings] whose key starts with no [docId + '_'] of a document of
    the session. *)
Theorem deleteSession_keeps_others (st : Store) (s s' d key : string) :
  s' <> s ->
  ~ In d (registeredUnder st s) ->
  (forall docId, In docId (registeredUnder st s) ->
                 Js.startsWith key (docId ++ "_")%string = false) ->
  JsMap.get (sessionDocuments (deleteSession st s)) s' = JsMap.get (sessionDocuments st) s'
  /\ getDocumentStructure (deleteSession st s) d = getDocumentStructure st d
  /\ JsMap.get (embeddings (deleteSession st s)) key = JsMap.get (embeddings st) key.
Proof.
  intros Hs Hd Hk. destruct (deleteSession_loop st s) as [E1 [_ E3]].
  split; [|split].
  - rewrite E3. apply get_delete_other. congruence.
  - unfold getDocumentStructure. rewrite E1. apply deleteLoop_documents_frame, Hd.
  - apply deleteSession_frame. exact Hk.
Qed.

End StoreProperties.

(** ** Session statistics and the documents of a session *)

Lemma slice0_NoDup {A : Type} (n : nat) (l : list A) :
  NoDup l -> NoDup (Js.slice0 n l).
Proof.
  unfold Js.slice0. revert n. induction l as [|x t IH]; intros n H.
  - rewrite firstn_nil. constructor.
  - destruct n as [|n]; simpl; [constructor|].
    inversion H as [|? ? Hx Ht]; subst. constructor; [|apply IH, Ht].
    intros Hin. apply Hx. eapply (slice0_In n). exact Hin.
Qed.

Section SessionProperties.

Context {P : Packages}.

Lemma fold_chunkCount (docs : list DocData) (a : nat) :
  fold_left (fun sum doc => sum + List.length (chunks doc)) docs a
  = a + List.length (flat_map chunks docs).
Proof.
  revert a. induction docs as [|d t IH]; intros a; simpl; [lia|].
  rewrite IH, length_app. lia.
Qed.

Lemma documentsOf_length (st : Store) (s : string) :
  List.length (documentsOf st s) <= List.length (registeredUnder st s).
Proof.
  unfold documentsOf. fold (registeredUnder st s).
  induction (registeredUnder st s) as [|d t IH]; simpl; [lia|].
  rewrite length_app. destruct (JsMap.get (documents st) d); simpl; lia.
Qed.

Lemma ceilQuarter_sum (l : list string) :
  (Z.of_nat (list_sum (map String.length l))
   <= 4 * sumZ (map (fun chunk => ceilQuarter (String.length chunk)) l)
   <= Z.of_nat (list_sum (map String.length l)) + 3 * Z.of_nat (List.length l))%Z.
Proof.
  unfold list_sum.
  induction l as [|c t IH]; cbn [map sumZ fold_right List.length].
  - lia.
  - fold (sumZ (map (fun chunk => ceilQuarter (String.length chunk)) t)).
    pose proof (ceilQuarter_least (String.length c)). lia.
Qed.

Lemma sessionChunks_registered (st : Store) (s : string) :
  sessionChunks st s = documentChunks st (registeredUnder st s).
Proof.
  unfold sessionChunks, documentsOf, documentChunks, getDocumentStructure.
  fold (registeredUnder st s).
  induction (registeredUnder st s) as [|d t IH]; simpl; [reflexivity|].
  rewrite flat_map_app, IH. f_equal.
  destruct (JsMap.get (documents st) d); simpl; [apply app_nil_r | reflexivity].
Qed.

Lemma documentsOf_stored (st : Store) (s : string) :
  List.length (documentsOf st s)
  = List.length (filter (JsMap.has (documents st)) (registeredUnder st s)).
Proof.
  unfold documentsOf. fold (registeredUnder st s).
  induction (registeredUnder st s) as [|d t IH]; simpl; [reflexivity|].
  rewrite length_app, IH. unfold JsMap.has.
  destruct (JsMap.get (documents st) d); reflexivity.
Qed.

Lemma documentsOf_In (st : Store) (s : string) (doc : DocData) :
  In doc (documentsOf st s) ->
  exists d, In d (registeredUnder st s) /\ getDocumentStructure st d = Some doc.
Proof.
  unfold documentsOf, getDocumentStructure. fold (registeredUnder st s).
  intros H. apply in_flat_map in H. destruct H as [d [Hd H]].
  exists d. split; [exact Hd|].
  destruct (JsMap.get (documents st) d) as [doc'|]; [|contradiction].
  destruct H as [-> | []]. reflexivity.
Qed.

(** X12. The figures of [getSessionStats] against the two maps of the store.
    [documentCount] is the number of registrations of the session under
    which a document is stored; [chunkCount] is the number of chunks stored
    for these registrations, a document as often as it is registered; four
    times [estimatedTokens] lies between the characters of these chunks and
    that number plus three for each chunk; [uniqueKeywords] holds at most
    twenty keywords, none twice, each a keyword of a stored document that is
    registered under the session. *)
Theorem session_stats_counts (now : Z) (st : Store) (s : string) :
  let stats := getSessionStats now st s in
  let stored := documentChunks st (registeredUnder st s) in
  let chars := list_sum (map String.length stored) in
  documentCount stats
  = List.length (filter (JsMap.has (documents st)) (registeredUnder st s))
  /\ chunkCount' stats = List.length stored
  /\ (Z.of_nat chars <= 4 * estimatedTokens stats)%Z
  /\ (4 * estimatedTokens stats <= Z.of_nat chars + 3 * Z.of_nat (List.length stored))%Z
  /\ NoDup (uniqueKeywords stats)
  /\ List.length (uniqueKeywords stats) <= 20
  /\ Forall
       (fun k =>
          exists d docData,
            In d (registeredUnder st s)
            /\ getDocumentStructure st d = Some docData
            /\ In k (docKeywords docData))
       (uniqueKeywords stats).
Proof.
  cbv zeta. rewrite <- sessionChunks_registered. unfold getSessionStats.
  cbn [documentCount chunkCount' estimatedTokens uniqueKeywords].
  rewrite fold_chunkCount, fold_documentTokens. fold (sessionChunks st s).
  split; [apply documentsOf_stored|]. split; [reflexivity|].
  pose proof (ceilQuarter_sum (sessionChunks st s)) as H.
  split; [lia|]. split; [lia|].
  split; [apply slice0_NoDup, dedupe_NoDup|].
  split; [apply slice0_length|].
  apply slice0_Forall, Forall_forall. intros k Hk.
  apply dedupe_In, in_flat_map in Hk. destruct Hk as [doc [Hdoc Hk]].
  destruct (documentsOf_In st s doc Hdoc) as [d [Hd Hget]].
  exists d, doc. auto.
Qed.






(** [getDocumentsBySession] as one list: the chunks of each registered
    document that is in the store, in order. *)
Lemma getDocumentsBySession_flat (st : Store) (s : string) :
  getDocumentsBySession st s
  = flat_map
      (fun docId =>
         match JsMap.get (documents st) docId with
         | Some docData =>
             map (fun chunkText =>
                    {| SessionChunk.content := chunkText;
                       SessionChunk.text := chunkText;
                       SessionChunk.documentId := docId;
                       SessionChunk.metadata := docMetadata docData;
                       SessionChunk.sessionId := sessionOf docData |})
               (chunks docData)
         | None => []
         end)
      (registeredUnder st s).
Proof.
  unfold getDocumentsBySession. fold (registeredUnder st s).
  set (G := fun docId : string => match JsMap.get (documents st) docId with
                                  | Some docData => _
                                  | None => []
                                  end).
  enough (H : forall acc : list SessionChunk.t,
             fold_left
               (fun pushed docId =>
                  match JsMap.get (documents st) docId with
                  | Some docData =>
                      fold_left
                        (fun pushed chunkText =>
                           (pushed ++
                            [{| SessionChunk.content := chunkText;
                                SessionChunk.text := chunkText;
                                SessionChunk.documentId := docId;
                                SessionChunk.metadata := docMetadata docData;
                                SessionChunk.sessionId := sessionOf docData |}])%list)
                        (chunks docData) pushed
                  | None => pushed
                  end)
               (registeredUnder st s) acc
             = (acc ++ flat_map G (registeredUnder st s))%list)
    by apply (H []).
  induction (registeredUnder st s) as [|d t IH]; intros acc; simpl.
  - now rewrite app_nil_r.
  - rewrite IH. unfold G at 2. destruct (JsMap.get (documents st) d) as [doc|].
    + rewrite app_assoc. f_equal.
      generalize acc. induction (chunks doc) as [|c cs IHc]; intros acc'; simpl.
      * now rewrite app_nil_r.
      * rewrite IHc, <- app_assoc. reflexivity.
    + reflexivity.
Qed.

(** X13. [getDocumentsBySession] lists the chunks that [getSessionStats] counts:
    one object for each chunk of each registered document, in the order of
    registration, with the text of the chunk in both [content] and [text] and
    the identifier under which the document is registered. *)
Theorem getDocumentsBySession_chunks (now : Z) (st : Store) (s : string) :
  map SessionChunk.text (getDocumentsBySession st s) = sessionChunks st s
  /\ List.length (getDocumentsBySession st s) = chunkCount' (getSessionStats now st s)
  /\ Forall
       (fun c =>
          SessionChunk.content c = SessionChunk.text c
          /\ In (SessionChunk.documentId c) (registeredUnder st s)
          /\ exists docData,
               getDocumentStructure st (SessionChunk.documentId c) = Some docData
               /\ In (SessionChunk.text c) (chunks docData)
               /\ SessionChunk.sessionId c = sessionId docData)
       (getDocumentsBySession st s).
Proof.
  assert (E : map SessionChunk.text (getDocumentsBySession st s) = sessionChunks st s).
  { rewrite getDocumentsBySession_flat. unfold sessionChunks, documentsOf.
    fold (registeredUnder st s).
    induction (registeredUnder st s) as [|d t IH]; simpl; [reflexivity|].
    rewrite map_app, flat_map_app, IH. f_equal.
    destruct (JsMap.get (documents st) d) as [doc|]; simpl.
    - rewrite app_nil_r, map_map. simpl. apply map_id.
    - reflexivity. }
  split; [exact E|]. split.
  - rewrite <- (length_map SessionChunk.text), E.
    unfold getSessionStats. cbn [chunkCount']. now rewrite fold_chunkCount.
  - rewrite getDocumentsBySession_flat. apply Forall_forall. intros c Hc.
    apply in_flat_map in Hc. destruct Hc as [d [Hd Hc]].
    destruct (JsMap.get (documents st) d) as [doc|] eqn:G; [|contradiction].
    apply in_map_iff in Hc. destruct Hc as [chunkText [<- Hin]].
    cbn [SessionChunk.content SessionChunk.text SessionChunk.documentId
         SessionChunk.sessionId].
    split; [reflexivity|]. split; [exact Hd|].
    exists doc. unfold getDocumentStructure. auto.
Qed.

(** X14. After [deleteSession] the session has nothing left: its statistics are
    all zero and it lists no chunk. *)
Theorem deleteSession_then_stats (now : Z) (st : Store) (s : string) :
  getSessionStats now (deleteSession st s) s
  = {| documentCount := 0;
       chunkCount' := 0;
       estimatedTokens := 0;
       uniqueKeywords := [];
       lastUpdated := None;
       avgDocumentQuality := 0 |}
  /\ getDocumentsBySession (deleteSession st s) s = [].
Proof.
  destruct (deleteSession_loop st s) as [_ [_ E]].
  assert (R : JsMap.get (sessionDocuments (deleteSession st s)) s = None)
    by (rewrite E; apply get_delete_same).
  split.
  - unfold getSessionStats, documentsOf. now rewrite R.
  - unfold getDocumentsBySession. now rewrite R.
Qed.

Lemma lookups_set {V : Type} (m : JsMap.t V) (k : string) (v : V) (ids : list string) :
  ~ In k ids ->
  flat_map (fun x => match JsMap.get (JsMap.set m k v) x with
                     | Some e => [e]
                     | None => []
                     end) ids
  = flat_map (fun x => match JsMap.get m x with
                       | Some e => [e]
                       | None => []
                       end) ids.
Proof.
  intros Hk. induction ids as [|x t IH]; simpl; [reflexivity|].
  rewrite IH by (intros H; apply Hk; now right). f_equal.
  unfold JsMap.get, JsMap.set. rewrite get_set.
  destruct (String.eqb k x) eqn:E; [|reflexivity].
  apply String.eqb_eq in E. exfalso. apply Hk. now left.
Qed.

Lemma documentsOf_addDocument (now : Z) (st : Store) (d : string)
  (texts : list string) (meta : Metadata) (s : string) :
  ~ In d (registeredUnder st s) ->
  exists doc,
    documentsOf (addDocument now st d texts meta s) s = (documentsOf st s ++ [doc])%list
    /\ chunks doc = texts /\ addedAt doc = now.
Proof.
  intros Hd. eexists. split; [|split].
  - unfold documentsOf at 1.
    change (match JsMap.get (sessionDocuments (addDocument now st d texts meta s)) s with
            | Some l => l
            | None => []
            end) with (registeredUnder (addDocument now st d texts meta s) s).
    assert (E : registeredUnder (addDocument now st d texts meta s) s
                = (registeredUnder st s ++ [d])%list).
    { unfold registeredUnder. cbn [addDocument sessionDocuments].
      unfold JsMap.get, JsMap.set, JsMap.has, JsMap.get.
      rewrite get_set, String.eqb_refl.
      destruct (Obj.get (sessionDocuments st) s) as [l|] eqn:E; cbn [negb].
      - now rewrite E.
      - now rewrite get_set, String.eqb_refl. }
    rewrite E, flat_map_app. f_equal.
    + unfold documentsOf. fold (registeredUnder st s).
      cbn [addDocument documents]. apply lookups_set, Hd.
    + cbn [flat_map addDocument documents]. unfold JsMap.get, JsMap.set.
      rewrite get_set, String.eqb_refl. reflexivity.
  - reflexivity.
  - reflexivity.
Qed.

(** X15. Adding a document whose identifier is not yet registered under the
    session adds one document, its chunks and their token estimates to the
    statistics of the session, and makes the time of the call the last
    update when it is the latest. *)
Theorem addDocument_then_stats (now now' : Z) (st : Store) (d : string)
  (texts : list string) (meta : Metadata) (s : string) :
  ~ In d (registeredUnder st s) ->
  let before := getSessionStats now' st s in
  let after := getSessionStats now' (addDocument now st d texts meta s) s in
  documentCount after = documentCount before + 1
  /\ chunkCount' after = chunkCount' before + List.length texts
  /\ estimatedTokens after
     = (estimatedTokens before
        + sumZ (map (fun chunk => ceilQuarter (String.length chunk)) texts))%Z
  /\ lastUpdated after
     = Some (match lastUpdated before with
             | Some t => Z.max t now
             | None => now
             end).
Proof.
  intros Hd. cbv zeta.
  destruct (documentsOf_addDocument now st d texts meta s Hd) as [doc [E [Ec Ea]]].
  unfold getSessionStats.
  cbn [documentCount chunkCount' estimatedTokens lastUpdated].
  rewrite E, !fold_chunkCount, !fold_documentTokens, length_app.
  rewrite !flat_map_app, !length_app, !map_app, !sumZ_app. cbn [flat_map List.length].
  rewrite app_nil_r, Ec. cbn [map]. rewrite Ea.
  split; [reflexivity|]. split; [lia|]. split; [lia|].
  destruct (map addedAt (documentsOf st s)) as [|t ts]; simpl; [reflexivity|].
  now rewrite fold_left_app.
Qed.

End SessionProperties.

(** ** Grouping the results by document *)

Section ObjectFacts.

Context {V : Type}.

Lemma keys_NoDup (o : Obj.t V) : NoDup (Obj.keys o).
Proof.
  unfold Obj.keys. apply NoDup_app.
  - eapply Permutation_NoDup; [apply Permutation_sym, sortBy_perm|].
    apply NoDup_filter, dedupe_NoDup.
  - apply NoDup_filter, dedupe_NoDup.
  - intros k H1 H2. apply sortBy_In, filter_In in H1. apply filter_In in H2.
    destruct H1 as [_ H1]. destruct H2 as [_ H2]. rewrite H1 in H2. discriminate.
Qed.

(** [Object.entries] lists no key twice. *)
Lemma entries_NoDup (o : Obj.t V) : NoDup (map fst (Obj.entries o)).
Proof.
  unfold Obj.entries. pose proof (keys_NoDup o) as H.
  induction (Obj.keys o) as [|k t IH]; simpl; [constructor|].
  inversion H as [|? ? Hk Ht]; subst.
  destruct (Obj.get o k) as [v|]; simpl; [|apply IH, Ht].
  constructor; [|apply IH, Ht].
  intros Hin. apply Hk. apply in_map_iff in Hin.
  destruct Hin as [[k' v'] [E Hin]]. simpl in E. subst k'.
  apply in_flat_map in Hin. destruct Hin as [k' [Hk' Hin]].
  destruct (Obj.get o k'); simpl in Hin; [|contradiction].
  destruct Hin as [Hin | []]. now inversion Hin; subst.
Qed.

End ObjectFacts.

Section Means.

Local Open Scope R_scope.






End Means.

Section GroupFacts.

Context {P : Packages}.

Local Open Scope R_scope.





(** X16. The list [crossDocumentSearch] returns: at most [limit] groups, no
    document twice, in descending order of relevance. *)
Theorem crossDocumentSearch_ranking (now : Z) (st : Store) (query : string)
  (sessionId : option string) (limit : nat) :
  let groups := crossDocumentSearch now st query sessionId limit in
  (List.length groups <= limit)%nat
  /\ NoDup (map groupDocumentId groups)
  /\ descending relevanceScore groups.
Proof.
  cbv zeta. unfold crossDocumentSearch. cbv zeta.
  split; [apply slice0_length|]. split.
  - unfold Js.slice0. rewrite <- firstn_map. apply (slice0_NoDup limit).
    eapply Permutation_NoDup;
      [apply Permutation_map, Permutation_sym, sortBy_perm|].
    rewrite map_map.
    erewrite map_ext; [apply entries_NoDup|].
    intros [k v]. reflexivity.
  - apply slice0_descending, sortBy_descending.
Qed.



End GroupFacts.

(** ** The context handed to the chat model *)

Section StringFacts.

Lemma length_append (a b : string) :
  String.length (a ++ b) = String.length a + String.length b.
Proof. induction a as [|c a IH]; simpl; [reflexivity | now rewrite IH]. Qed.

Lemma length_substring (n m : nat) (s : string) :
  String.length (String.substring n m s) <= m.
Proof.
  revert n m. induction s as [|c s IH]; intros n m.
  - destruct n, m; simpl; lia.
  - destruct n as [|n].
    + destruct m as [|m]; simpl; [lia|]. specialize (IH 0 m). lia.
    + simpl. apply IH.
Qed.

Lemma substring_all (m : nat) (s : string) :
  String.length s <= m -> String.substring 0 m s = s.
Proof.
  revert m. induction s as [|c s IH]; intros m H.
  - now destruct m.
  - destruct m as [|m]; simpl in *; [lia|]. rewrite IH by lia. reflexivity.
Qed.

End StringFacts.

Section Rounding.

Local Open Scope R_scope.


End Rounding.

Section ContextProperties.

Context {P : Packages}.

Local Open Scope R_scope.




(** X20. The loop of [getRelevantContext] stops at the first result that does not
    fit.  When the text of the best result alone has more than four times
    [maxTokens] characters, the context is empty and there is no source,
    whatever the other results are, and no error is reported. *)
Theorem context_empty_when_best_result_too_long (st : Store) (query : string)
  (sessionId : option string) (maxTokens : nat) (best : Result) (others : list Result) :
  semanticSearch st query sessionId 20 None = best :: others ->
  (4 * maxTokens < String.length (text (chunk best)))%nat ->
  let ctx := getRelevantContext st query sessionId maxTokens in
  context ctx = EmptyString
  /\ sources ctx = []
  /\ error ctx = None
  /\ totalResults ctx = Some (S (List.length others)).
Proof.
  intros E Hlong. cbv zeta. unfold getRelevantContext. rewrite E.
  cbn [List.length Nat.eqb packResults].
  assert (O : Qltb (natQ maxTokens) (0 + textTokens best) = true).
  { apply (overflow_chars maxTokens 0 0%Q best); [reflexivity | lia]. }
  rewrite O. cbn [context sources error totalResults]. auto.
Qed.

End ContextProperties.

(** [context_empty_when_best_result_too_long] in the scenario: the chunk
    found for [DevOps] has 43 characters, more than four times 10. *)
Lemma context_empty_when_best_result_too_long_witness :
  @semanticSearch Sample.packages Scenario.store "DevOps" (Some "s1") 20 None
  = [Scenario.devopsResult]
  /\ (4 * 10 < String.length (text (chunk Scenario.devopsResult)))%nat
  /\ context (@getRelevantContext Sample.packages Scenario.store "DevOps" (Some "s1") 10)
     = EmptyString
  /\ sources (@getRelevantContext Sample.packages Scenario.store "DevOps" (Some "s1") 10)
     = [].
Proof.
  assert (E : @semanticSearch Sample.packages Scenario.store "DevOps" (Some "s1") 20 None
              = [Scenario.devopsResult])
    by apply (search_from Scenario.store (Some "s1") 19 candidates_store).
  assert (L : (4 * 10 < String.length (text (chunk Scenario.devopsResult)))%nat)
    by (vm_compute; lia).
  split; [exact E|]. split; [exact L|].
  destruct (@context_empty_when_best_result_too_long Sample.packages Scenario.store
              "DevOps" (Some "s1") 10 Scenario.devopsResult [] E L) as [H1 [H2 _]].
  split; [exact H1 | exact H2].
Defined.

(** ** The fallback on a query without a long word *)

Section FallbackProperties.

Context {P : Packages}.

Lemma fallbackChunks_no_words (ql : string) (doc : DocData) (texts : list string)
  (index : nat) (acc : list Result) :
  fallbackChunks ql [] doc index texts acc = acc.
Proof.
  revert index acc. induction texts as [|c t IH]; intros index acc; simpl; [reflexivity|].
  apply IH.
Qed.

(** X21. A query none of whose words has more than two characters finds nothing
    in the fallback: the share of matching words is the quotient of zero by
    zero, the score of every chunk is not a number, and no chunk passes the
    threshold, whether it contains the query or not. *)
Theorem fallback_needs_a_long_word (st : Store) (query : string)
  (sessionId : option string) (limit : nat) (documentIds : option (list string)) :
  queryWordsOf query = [] ->
  fallbackTextSearch st query sessionId limit documentIds = [].
Proof.
  intros H. unfold fallbackTextSearch. cbv zeta.
  fold (queryWordsOf query). rewrite H.
  assert (E : forall docs acc,
             fold_left
               (fun results doc =>
                  fallbackChunks (Js.toLowerCase query) [] doc 0 (chunks doc) results)
               docs acc = acc).
  { induction docs as [|d t IH]; intros acc; simpl; [reflexivity|].
    now rewrite fallbackChunks_no_words. }
  rewrite E. unfold Js.slice0. simpl. apply firstn_nil.
Qed.

End FallbackProperties.

(** [fallback_needs_a_long_word] at the query [AI]. *)
Lemma fallback_needs_a_long_word_witness :
  queryWordsOf "AI" = []
  /\ @fallbackTextSearch Sample.packages Scenario.store "AI" (Some "s1") 10 None = [].
Proof.
  split; [reflexivity|].
  apply (@fallback_needs_a_long_word Sample.packages Scenario.store "AI" (Some "s1") 10 None).
  reflexivity.
Defined.

(** ** The quality of a document *)

Section QualityProperties.

Context {P : Packages}.

Lemma calculateDocumentQuality_range (now : Z) (docData : DocData) :
  ((1 # 2) <= calculateDocumentQuality now docData <= 1)%Q.
Proof.
  unfold calculateDocumentQuality. cbv zeta.
  set (q1 := match avgWordsPerChunk (statistics docData) with
             | Some words =>
                 if ((50 <? words) && (words <? 200))%Z
                 then ((1 # 2) + (2 # 10))%Q else (1 # 2)%Q
             | None => (1 # 2)%Q
             end).
  assert (H1 : ((1 # 2) <= q1)%Q).
  { unfold q1. destruct (avgWordsPerChunk _) as [w|]; [|lra].
    destruct ((50 <? w) && (w <? 200))%Z; lra. }
  clearbody q1.
  set (q2 := if Qltb 40 (readabilityScore (complexity (statistics docData)))
             then (q1 + (2 # 10))%Q else q1).
  assert (H2 : ((1 # 2) <= q2)%Q).
  { unfold q2. destruct (Qltb _ _); lra. }
  clearbody q2.
  set (q3 := if Qltb (inject_Z (now - addedAt docData) / 86400000) 7
             then (q2 + (1 # 10))%Q else q2).
  assert (H3 : ((1 # 2) <= q3)%Q).
  { unfold q3. destruct (Qltb _ _); lra. }
  clearbody q3.
  split.
  - apply Q.min_glb; [exact H3 | lra].
  - apply Q.le_min_r.
Qed.

Lemma fold_quality (now : Z) (docs : list DocData) (a : Q) :
  (a + (1 # 2) * natQ (List.length docs)
   <= fold_left (fun sum doc => sum + calculateDocumentQuality now doc) docs a
   <= a + natQ (List.length docs))%Q.
Proof.
  revert a. induction docs as [|d t IH]; intros a.
  - simpl. unfold natQ. simpl. change (inject_Z 0) with 0%Q. lra.
  - cbn [fold_left List.length].
    specialize (IH (a + calculateDocumentQuality now d)%Q).
    pose proof (calculateDocumentQuality_range now d) as Hq.
    assert (E : (natQ (S (List.length t)) == 1 + natQ (List.length t))%Q).
    { unfold natQ. rewrite Nat2Z.inj_succ, <- Z.add_1_l, inject_Z_plus. reflexivity. }
    rewrite E. lra.
Qed.

(** X22. The quality of a document is between one half and 1, whatever its
    statistics and age, and so is the average quality [getSessionStats]
    reports for a session with a document; for a session without one it
    reports 0. *)
Theorem document_quality_range (now : Z) (st : Store) (s : string) (docData : DocData) :
  ((1 # 2) <= calculateDocumentQuality now docData <= 1)%Q
  /\ match documentCount (getSessionStats now st s) with
     | O => (avgDocumentQuality (getSessionStats now st s) == 0)%Q
     | S _ => ((1 # 2) <= avgDocumentQuality (getSessionStats now st s) <= 1)%Q
     end.
Proof.
  split; [apply calculateDocumentQuality_range|].
  unfold getSessionStats. cbn [documentCount avgDocumentQuality].
  destruct (documentsOf st s) as [|d t] eqn:E.
  - simpl. reflexivity.
  - set (docs := d :: t).
    change (List.length docs =? 0)%nat with false. cbv iota.
    pose proof (fold_quality now docs 0) as F.
    assert (Pn : (0 < natQ (List.length docs))%Q).
    { unfold natQ. change 0%Q with (inject_Z 0). rewrite <- Zlt_Qlt.
      unfold docs. simpl. lia. }
    destruct F as [F1 F2]. split.
    + apply Qle_shift_div_l; [exact Pn | lra].
    + apply Qle_shift_div_r; [exact Pn | lra].
Qed.

End QualityProperties.

(** ** The snippet of [documentService.js] *)

Section SnippetProperties.

Import DocumentService.

(** X23. The snippet is a window of the text of at most [maxLength] characters,
    with an ellipsis before it when it does not start the text and one after
    it when it does not end the text: at most [maxLength + 6] characters in
    all. *)
Theorem createSnippet_window (text query : string) (maxLength : nat) :
  exists pre start count post,
    createSnippet text query maxLength
    = (pre ++ String.substring start count text ++ post)%string
    /\ count <= maxLength
    /\ (pre = EmptyString \/ pre = "...")
    /\ (post = EmptyString \/ post = "...")
    /\ (start = 0 -> pre = EmptyString)
    /\ (String.length text <= start + count -> post = EmptyString)
    /\ String.length (createSnippet text query maxLength) <= maxLength + 6.
Proof.
  assert (B : forall pre start count post,
             count <= maxLength ->
             (pre = EmptyString \/ pre = "...") ->
             (post = EmptyString \/ post = "...") ->
             String.length (pre ++ String.substring start count text ++ post)
             <= maxLength + 6).
  { intros pre start count post Hc Hpre Hpost. rewrite !length_append.
    pose proof (length_substring start count text).
    destruct Hpre as [-> | ->], Hpost as [-> | ->]; simpl; lia. }
  unfold createSnippet. cbv zeta.
  destruct (match indexOf (Js.toLowerCase text) (Js.toLowerCase query) with
            | Some matchPos => Some matchPos
            | None => firstWordMatch (Js.toLowerCase text)
                        (Js.split Js.isSpace (Js.toLowerCase query))
            end) as [matchPos|].
  - set (start := Nat.max 0 (matchPos - 50)).
    set (finish := Nat.min (String.length text) (start + maxLength)).
    unfold substring.
    exists (if 0 <? start then "..." else EmptyString), start, (finish - start),
           (if finish <? String.length text then "..." else EmptyString).
    assert (Hc : finish - start <= maxLength) by (unfold finish; lia).
    assert (Hpre : (if 0 <? start then "..." else EmptyString) = EmptyString
                   \/ (if 0 <? start then "..." else EmptyString) = "...")
      by (destruct (0 <? start); auto).
    assert (Hpost : (if finish <? String.length text then "..." else EmptyString)
                    = EmptyString
                    \/ (if finish <? String.length text then "..." else EmptyString)
                       = "...")
      by (destruct (finish <? String.length text); auto).
    split; [reflexivity|]. split; [exact Hc|]. split; [exact Hpre|].
    split; [exact Hpost|]. split; [|split].
    + intros ->. reflexivity.
    + intros H. destruct (finish <? String.length text) eqn:E; [|reflexivity].
      apply Nat.ltb_lt in E. unfold finish in *. lia.
    + apply B; assumption.
  - unfold substring. rewrite Nat.sub_0_r.
    exists EmptyString, 0, maxLength,
           (if maxLength <? String.length text then "..." else EmptyString).
    assert (Hpost : (if maxLength <? String.length text then "..." else EmptyString)
                    = EmptyString
                    \/ (if maxLength <? String.length text then "..." else EmptyString)
                       = "...")
      by (destruct (maxLength <? String.length text); auto).
    split; [reflexivity|]. split; [lia|]. split; [now left|].
    split; [exact Hpost|]. split; [|split].
    + reflexivity.
    + intros H. destruct (maxLength <? String.length text) eqn:E; [|reflexivity].
      apply Nat.ltb_lt in E. simpl in H. lia.
    + apply (B EmptyString 0 maxLength); auto.
Qed.

Lemma indexOf_bound (s sub : string) (n : nat) :
  indexOf s sub = Some n -> n <= String.length s.
Proof.
  revert n. induction s as [|c s IH]; intros n; cbn [indexOf].
  - destruct (String.prefix sub EmptyString); [|discriminate].
    intros [= <-]. simpl. lia.
  - destruct (String.prefix sub (String c s)); [intros [= <-]; simpl; lia|].
    destruct (indexOf s sub) as [m|]; [|discriminate].
    cbn [option_map]. intros [= <-]. specialize (IH m eq_refl). simpl. lia.
Qed.

Lemma firstWordMatch_bound (s : string) (words : list string) (n : nat) :
  firstWordMatch s words = Some n -> n <= String.length s.
Proof.
  induction words as [|w t IH]; simpl; [discriminate|].
  destruct (indexOf s w) as [m|] eqn:E; [|exact IH].
  intros [= <-]. apply (indexOf_bound _ _ _ E).
Qed.

Lemma length_mapChars (f : ascii -> ascii) (s : string) :
  String.length (Js.mapChars f s) = String.length s.
Proof. induction s as [|c s IH]; simpl; [reflexivity | now rewrite IH]. Qed.

(** X24. A text of at most fifty characters that fits in [maxLength] is its own
    snippet, whatever the query, without an ellipsis. *)
Theorem createSnippet_short_text (text query : string) (maxLength : nat) :
  String.length text <= 50 ->
  String.length text <= maxLength ->
  createSnippet text query maxLength = text.
Proof.
  intros H50 Hmax. unfold createSnippet. cbv zeta.
  destruct (match indexOf (Js.toLowerCase text) (Js.toLowerCase query) with
            | Some matchPos => Some matchPos
            | None => firstWordMatch (Js.toLowerCase text)
                        (Js.split Js.isSpace (Js.toLowerCase query))
            end) as [matchPos|] eqn:E.
  - assert (Hm : matchPos <= String.length text).
    { destruct (indexOf (Js.toLowerCase text) (Js.toLowerCase query)) as [m|] eqn:E1.
      - injection E as <-. apply indexOf_bound in E1.
        unfold Js.toLowerCase in E1. now rewrite length_mapChars in E1.
      - apply firstWordMatch_bound in E.
        unfold Js.toLowerCase in E at 1. now rewrite length_mapChars in E. }
    replace (Nat.max 0 (matchPos - 50)) with 0 by lia.
    replace (Nat.min (String.length text) (0 + maxLength)) with (String.length text) by lia.
    rewrite !Nat.ltb_irrefl. unfold substring.
    rewrite Nat.sub_0_r, substring_all by lia.
    cbn [append]. apply append_empty_r.
  - unfold substring. rewrite Nat.sub_0_r, substring_all by lia.
    destruct (maxLength <? String.length text) eqn:L.
    + apply Nat.ltb_lt in L. lia.
    + apply append_empty_r.
Qed.

End SnippetProperties.

(** [createSnippet_short_text] at a text of 43 characters. *)
Lemma createSnippet_short_text_witness :
  String.length Scenario.devops <= 50
  /\ String.length Scenario.devops <= 200
  /\ DocumentService.createSnippet Scenario.devops "operations" 200 = Scenario.devops.
Proof.
  assert (H1 : String.length Scenario.devops <= 50) by (vm_compute; lia).
  assert (H2 : String.length Scenario.devops <= 200) by (vm_compute; lia).
  split; [exact H1|]. split; [exact H2|].
  apply (createSnippet_short_text Scenario.devops "operations" 200 H1 H2).
Defined.

(** ** Adding a document and searching for it *)

Section AddThenSearch.

Context {P : Packages}.

Local Open Scope R_scope.

Lemma selectFor_session {A : Type} (key : A -> string) (st : Store) (s : string)
  (sessionDocs : list string) (all : list A) (e : A) :
  sessionDocsFor st (Some s) = Some sessionDocs ->
  In (key e) sessionDocs ->
  In e all ->
  In e (selectFor key st (Some s) None all).
Proof.
  intros H Hk Hin. unfold selectFor. rewrite H.
  apply filter_In. split; [exact Hin | apply mem_In, Hk].
Qed.

Lemma sessionDocsFor_registered (st : Store) (s : string) (l : list string) :
  s <> EmptyString ->
  JsMap.get (sessionDocuments st) s = Some l ->
  sessionDocsFor st (Some s) = Some l.
Proof.
  intros Hs Hget. unfold sessionDocsFor, JsMap.has. rewrite Hget.
  apply String.eqb_neq in Hs. now rewrite Hs.
Qed.

Lemma addDocument_session (now : Z) (st : Store) (d : string) (texts : list string)
  (meta : Metadata) (s : string) :
  JsMap.get (sessionDocuments (addDocument now st d texts meta s)) s
  = Some (registeredUnder st s ++ [d])%list.
Proof.
  unfold registeredUnder. cbn [addDocument sessionDocuments].
  unfold JsMap.get, JsMap.set, JsMap.has, JsMap.get.
  rewrite get_set, String.eqb_refl.
  destruct (Obj.get (sessionDocuments st) s) as [l|] eqn:E; cbn [negb].
  - now rewrite E.
  - now rewrite get_set, String.eqb_refl.
Qed.

Lemma get_values {V : Type} (m : JsMap.t V) (k : string) (v : V) :
  JsMap.get m k = Some v -> In v (JsMap.values m).
Proof.
  intros H. apply get_In in H. unfold JsMap.values.
  apply in_map_iff. exists (k, v). auto.
Qed.

(** X25. A chunk that has just been added is searched.  In a store the
    service has built, after [addDocument] under a session with a name, every
    chunk of the new document is a candidate of a search of that session; and
    when the limit covers the candidates of the session, whatever the scoring
    loop pushes for the chunk (its entry with the similarity the loop
    computed, when that passes the test of the loop) is among the results.
    The query and the chunk are texts whose words name no inherited
    property. *)
Theorem added_chunk_is_scored (now : Z) (st : Store) (d : string)
  (texts : list string) (meta : Metadata) (s : string) (query : string)
  (limit i : nat) (chunkText : string) :
  reachable st ->
  s <> EmptyString ->
  nth_error texts i = Some chunkText ->
  plainText query ->
  plainText chunkText ->
  (List.length (embeddingsToSearch (addDocument now st d texts meta s) (Some s) None)
   <= limit)%nat ->
  exists c,
    JsMap.get (embeddings (addDocument now st d texts meta s)) (chunkId d i) = Some c
    /\ documentId c = d
    /\ chunkIndex c = i
    /\ text c = chunkText
    /\ In c (embeddingsToSearch (addDocument now st d texts meta s) (Some s) None)
    /\ incl (scored (createTextEmbedding query) c)
         (semanticSearch (addDocument now st d texts meta s) query (Some s) limit None).
Proof.
  intros Hreach Hs Hi _ _ Hlen.
  set (st' := addDocument now st d texts meta s) in *.
  assert (Hreach' : reachable st') by (apply reachable_add, Hreach).
  destruct (reachable_entries st' Hreach') as [Hc _]. rewrite Forall_forall in Hc.
  set (c := {| documentId := d;
               chunkIndex := i;
               text := chunkText;
               embedding := Some (createTextEmbedding chunkText);
               metadata := meta;
               chunkKeywords := Some (extractChunkKeywords chunkText);
               vectors := Some (createWordVectors chunkText) |}).
  assert (G : JsMap.get (embeddings st') (chunkId d i) = Some c).
  { unfold st'. cbn [addDocument embeddings].
    rewrite (setChunks_get d meta _ texts 0 (embeddings st) i chunkText Hi).
    unfold createEnhancedEmbeddings. cbn [Nat.add].
    now rewrite (map_nth_error _ _ _ Hi). }
  assert (Hin : In c (embeddingsToSearch st' (Some s) None)).
  { unfold embeddingsToSearch.
    apply (selectFor_session documentId st' s (registeredUnder st s ++ [d])%list).
    - apply sessionDocsFor_registered; [exact Hs | apply addDocument_session].
    - cbn [c documentId]. apply in_or_app. right. now left.
    - apply (get_values _ _ _ G). }
  assert (Hall : Forall (fun e => embedding e <> None)
                   (embeddingsToSearch st' (Some s) None)).
  { apply Forall_forall. intros e He. unfold embeddingsToSearch in He.
    apply selectFor_In in He. destruct He as [He _].
    apply values_In in He. destruct He as [k He].
    destruct (Hc _ He) as [_ [E _]]. cbn [snd] in E. congruence. }
  exists c. repeat split; try reflexivity; [exact G | exact Hin |].
  intros r Hr. unfold semanticSearch.
  rewrite (scoreEmbeddings_scored _ _ _ Hall). cbn [app].
  rewrite slice0_all.
  - apply sortBy_In, in_flat_map. exists c. auto.
  - rewrite sortBy_length.
    eapply Nat.le_trans; [apply scored_length | exact Hlen].
Qed.

(** X26. The keywords of a text are at most ten on both paths of
    [extractChunkKeywords], so the cut of [extractDocumentKeywords] at twenty
    never removes one: the keywords of a document are those of a chunk with
    the same text, at most ten. *)
Theorem document_keywords_at_most_ten (text : string) :
  extractDocumentKeywords text = extractChunkKeywords text
  /\ (List.length (extractDocumentKeywords text) <= 10)%nat
  /\ (List.length (keywords (createTextEmbedding text)) <= 10)%nat.
Proof.
  assert (L : (List.length (extractChunkKeywords text) <= 10)%nat).
  { unfold extractChunkKeywords. destruct (keywordExtract text).
    - apply slice0_length.
    - apply fallbackKeywordExtraction_length. }
  assert (E : extractDocumentKeywords text = extractChunkKeywords text).
  { unfold extractDocumentKeywords. apply slice0_all. lia. }
  split; [exact E|]. split; [rewrite E; exact L | exact L].
Qed.

End AddThenSearch.

(** ** The similarity is symmetric *)

Section Symmetry.

Local Open Scope R_scope.

Lemma common_length (a b : list string) :
  NoDup a -> NoDup b ->
  List.length (filter (fun k => Js.mem k b) a)
  = List.length (filter (fun k => Js.mem k a) b).
Proof.
  intros Ha Hb. apply Permutation_length, NoDup_Permutation.
  - apply NoDup_filter, Ha.
  - apply NoDup_filter, Hb.
  - intros x. rewrite !filter_In, !mem_In. tauto.
Qed.

Lemma dedupe_app_perm (a b : list string) :
  Permutation (Js.dedupe (a ++ b)) (Js.dedupe (b ++ a)).
Proof.
  apply NoDup_Permutation; [apply dedupe_NoDup | apply dedupe_NoDup |].
  intros x. rewrite !dedupe_In, !in_app_iff. tauto.
Qed.

Lemma list_sum_perm (l l' : list nat) :
  Permutation l l' -> list_sum l = list_sum l'.
Proof. induction 1; simpl; lia. Qed.

(** The loop of [calculateTfidfSimilarity] adds up three sums. *)
Lemma triple_fold (vec1 vec2 : Obj.t nat) (allKeys : list string) (d n1 n2 : nat) :
  fold_left
    (fun '(dotProduct, norm1, norm2) key =>
       let val1 := Obj.count vec1 key in
       let val2 := Obj.count vec2 key in
       (dotProduct + val1 * val2, norm1 + val1 * val1, norm2 + val2 * val2)%nat)
    allKeys (d, n1, n2)
  = ((d + list_sum (map (fun key => Obj.count vec1 key * Obj.count vec2 key) allKeys))%nat,
     (n1 + list_sum (map (fun key => Obj.count vec1 key * Obj.count vec1 key) allKeys))%nat,
     (n2 + list_sum (map (fun key => Obj.count vec2 key * Obj.count vec2 key) allKeys))%nat).
Proof.
  revert d n1 n2. induction allKeys as [|k t IH]; intros d n1 n2; simpl.
  - now rewrite !Nat.add_0_r.
  - rewrite IH. f_equal; [f_equal|]; lia.
Qed.

Lemma calculateTfidfSimilarity_sym (vec1 vec2 : Obj.t nat) :
  calculateTfidfSimilarity vec1 vec2 = calculateTfidfSimilarity vec2 vec1.
Proof.
  unfold calculateTfidfSimilarity. cbv zeta.
  rewrite (common_length (Obj.keys vec1) (Obj.keys vec2))
    by apply keys_NoDup.
  destruct (List.length (filter (fun k => Js.mem k (Obj.keys vec1)) (Obj.keys vec2)) =? 0)%nat;
    [reflexivity|].
  rewrite !triple_fold.
  pose proof (dedupe_app_perm (Obj.keys vec1) (Obj.keys vec2)) as Hp.
  rewrite (list_sum_perm _ _
             (Permutation_map (fun key => Obj.count vec1 key * Obj.count vec2 key)%nat Hp)).
  rewrite (list_sum_perm _ _
             (Permutation_map (fun key => Obj.count vec1 key * Obj.count vec1 key)%nat Hp)).
  rewrite (list_sum_perm _ _
             (Permutation_map (fun key => Obj.count vec2 key * Obj.count vec2 key)%nat Hp)).
  rewrite (map_ext (fun key => Obj.count vec1 key * Obj.count vec2 key)%nat
             (fun key => Obj.count vec2 key * Obj.count vec1 key)%nat)
    by (intros; apply Nat.mul_comm).
  rewrite orb_comm, (Rmult_comm (sqrt _) (sqrt _)). reflexivity.
Qed.

Lemma calculateKeywordSimilarity_sym (keywords1 keywords2 : list string) :
  calculateKeywordSimilarity keywords1 keywords2
  = calculateKeywordSimilarity keywords2 keywords1.
Proof.
  unfold calculateKeywordSimilarity. cbv zeta. rewrite orb_comm.
  destruct ((List.length keywords2 =? 0) || (List.length keywords1 =? 0))%nat;
    [reflexivity|].
  rewrite (common_length (Js.dedupe (map Js.toLowerCase keywords1))
             (Js.dedupe (map Js.toLowerCase keywords2)))
    by apply dedupe_NoDup.
  now rewrite (Permutation_length
                 (dedupe_app_perm (Js.dedupe (map Js.toLowerCase keywords1))
                    (Js.dedupe (map Js.toLowerCase keywords2)))).
Qed.

Lemma calculateSemanticSimilarity_sym (sem1 sem2 : Semantic) :
  calculateSemanticSimilarity sem1 sem2 = calculateSemanticSimilarity sem2 sem1.
Proof.
  rewrite !calculateSemanticSimilarity_mean. unfold sentimentSim, agreeing.
  rewrite (filter_ext (fun feature => Bool.eqb (feature sem1) (feature sem2))
             (fun feature => Bool.eqb (feature sem2) (feature sem1)))
    by (intros f; destruct (f sem1), (f sem2); reflexivity).
  replace (Z.abs (sentiment sem1 - sentiment sem2))
    with (Z.abs (sentiment sem2 - sentiment sem1)) by lia.
  reflexivity.
Qed.

(** X27. The enhanced similarity does not depend on which of the two feature
    records is the query: each of its four parts is symmetric. *)
Theorem similarity_symmetric (queryEmb docEmb : Embedding) :
  calculateEnhancedSimilarity queryEmb docEmb
  = calculateEnhancedSimilarity docEmb queryEmb.
Proof.
  rewrite !calculateEnhancedSimilarity_sum. unfold calculateVectorSimilarity.
  rewrite (calculateTfidfSimilarity_sym (tfidf queryEmb)),
    (calculateTfidfSimilarity_sym (wordFreq queryEmb)),
    (calculateKeywordSimilarity_sym (keywords queryEmb)),
    (calculateSemanticSimilarity_sym (semantic queryEmb)).
  reflexivity.
Qed.

End Symmetry.

(** ** The further properties in the scenario *)

Section FurtherScenarioFacts.

#[local] Existing Instance Sample.packages.

Import Scenario.

Local Open Scope R_scope.

Lemma reachable_store : reachable store.
Proof. unfold store. apply reachable_add, reachable_empty. Qed.

Lemma reachable_twoSessions : reachable twoSessions.
Proof. unfold twoSessions. apply reachable_add, reachable_store. Qed.

(** [reachable_store_entries] at the store of the scenario. *)
Lemma reachable_store_entries_witness :
  reachable store
  /\ (forall key c,
         JsMap.get (embeddings store) key = Some c ->
         key = chunkId (documentId c) (chunkIndex c)
         /\ embedding c = Some (createTextEmbedding (text c))
         /\ chunkKeywords c = Some (extractChunkKeywords (text c))
         /\ vectors c = Some (createWordVectors (text c)))
  /\ (forall d doc,
         getDocumentStructure store d = Some doc ->
         id doc = d
         /\ docEmbeddings doc = map createTextEmbedding (chunks doc)
         /\ totalChunks (statistics doc) = List.length (chunks doc)).
Proof.
  split; [exact reachable_store|].
  apply (reachable_store_entries store reachable_store).
Defined.

(** [reachable_search_scores_features] at the store of the scenario. *)
Lemma reachable_search_scores_features_witness :
  reachable twoSessions
  /\ Forall
       (fun r =>
          In (chunk r) (JsMap.values (embeddings twoSessions))
          /\ embedding (chunk r) = Some (createTextEmbedding (text (chunk r)))
          /\ similarity r
             = calculateEnhancedSimilarity (createTextEmbedding "Docker")
                 (createTextEmbedding (text (chunk r))))
       (semanticSearch twoSessions "Docker" (Some "s2") 10 None).
Proof.
  split; [exact reachable_twoSessions|].
  apply (reachable_search_scores_features twoSessions "Docker" (Some "s2") 10 None
           reachable_twoSessions).
Defined.

(** [addDocument_chunk_lookup] at the second chunk of the scenario. *)
Lemma addDocument_chunk_lookup_witness :
  nth_error [devops; tools] 1 = Some tools
  /\ JsMap.get (embeddings (addDocument 0 emptyStore "d1" [devops; tools] Sample.meta "s1"))
       (chunkId "d1" 1)
     = Some toolsChunk.
Proof.
  split; [reflexivity|].
  apply (addDocument_chunk_lookup 0 emptyStore "d1" [devops; tools] Sample.meta "s1" 1 tools).
  reflexivity.
Defined.

(** [addDocument_keeps_others] when the second document of the scenario is
    added under another session. *)
Lemma addDocument_keeps_others_witness :
  "d1" <> "d2"
  /\ "s1" <> "s2"
  /\ (forall i, (i < List.length ["Docker images are layered."])%nat ->
                "d1_0" <> chunkId "d2" i)
  /\ getDocumentStructure twoSessions "d1" = getDocumentStructure store "d1"
  /\ JsMap.get (sessionDocuments twoSessions) "s1" = JsMap.get (sessionDocuments store) "s1"
  /\ JsMap.get (embeddings twoSessions) "d1_0" = JsMap.get (embeddings store) "d1_0".
Proof.
  assert (H1 : "d1" <> "d2") by discriminate.
  assert (H2 : "s1" <> "s2") by discriminate.
  assert (H3 : forall i, (i < List.length ["Docker images are layered."])%nat ->
                         "d1_0" <> chunkId "d2" i).
  { intros i Hi. destruct i as [|i]; [discriminate | simpl in Hi; lia]. }
  split; [exact H1|]. split; [exact H2|]. split; [exact H3|].
  apply (addDocument_keeps_others 0 store "d2" ["Docker images are layered."]
           Sample.meta "s2" "d1" "s1" "d1_0" H1 H2 H3).
Defined.

(** [deleteSession_removes_documents] at the session [s2] of the
    scenario. *)
Lemma deleteSession_removes_documents_witness :
  In "d2" (registeredUnder twoSessions "s2")
  /\ getDocumentStructure afterDelete "d2" = None
  /\ (forall i, JsMap.get (embeddings afterDelete) (chunkId "d2" i) = None).
Proof.
  assert (H : In "d2" (registeredUnder twoSessions "s2")) by (vm_compute; auto).
  split; [exact H|].
  apply (deleteSession_removes_documents twoSessions "s2" "d2" H).
Defined.

(** [deleteSession_keeps_others] for the session [s1] of the scenario when
    [s2] is deleted. *)
Lemma deleteSession_keeps_others_witness :
  "s1" <> "s2"
  /\ ~ In "d1" (registeredUnder twoSessions "s2")
  /\ (forall docId, In docId (registeredUnder twoSessions "s2") ->
                    Js.startsWith "d1_0" (docId ++ "_")%string = false)
  /\ JsMap.get (sessionDocuments afterDelete) "s1"
     = JsMap.get (sessionDocuments twoSessions) "s1"
  /\ getDocumentStructure afterDelete "d1" = getDocumentStructure twoSessions "d1"
  /\ JsMap.get (embeddings afterDelete) "d1_0" = JsMap.get (embeddings twoSessions) "d1_0".
Proof.
  assert (E : registeredUnder twoSessions "s2" = ["d2"]) by reflexivity.
  assert (H1 : "s1" <> "s2") by discriminate.
  assert (H2 : ~ In "d1" (registeredUnder twoSessions "s2")).
  { rewrite E. intros [H | []]. discriminate. }
  assert (H3 : forall docId, In docId (registeredUnder twoSessions "s2") ->
                             Js.startsWith "d1_0" (docId ++ "_")%string = false).
  { rewrite E. intros docId [<- | []]. reflexivity. }
  split; [exact H1|]. split; [exact H2|]. split; [exact H3|].
  apply (deleteSession_keeps_others twoSessions "s2" "s1" "d1" "d1_0" H1 H2 H3).
Defined.

(** [addDocument_then_stats] when a second document is added under the
    session of the scenario. *)
Lemma addDocument_then_stats_witness :
  ~ In "d2" (registeredUnder store "s1")
  /\ documentCount
       (getSessionStats 9 (addDocument 5 store "d2" ["Docker images are layered."]
                             Sample.meta "s1") "s1")
     = (documentCount (getSessionStats 9 store "s1") + 1)%nat
  /\ chunkCount'
       (getSessionStats 9 (addDocument 5 store "d2" ["Docker images are layered."]
                             Sample.meta "s1") "s1")
     = (chunkCount' (getSessionStats 9 store "s1") + 1)%nat.
Proof.
  assert (E : registeredUnder store "s1" = ["d1"]) by reflexivity.
  assert (H : ~ In "d2" (registeredUnder store "s1")).
  { rewrite E. intros [H | []]. discriminate. }
  split; [exact H|].
  destruct (addDocument_then_stats 5 9 store "d2" ["Docker images are layered."]
              Sample.meta "s1" H) as [H1 [H2 _]].
  split; [exact H1 | exact H2].
Defined.

(** [added_chunk_is_scored] in the scenario, at the chunk that contains
    [DevOps]. *)
Lemma added_chunk_is_scored_witness :
  reachable emptyStore
  /\ "s1" <> EmptyString
  /\ nth_error [devops; tools] 0 = Some devops
  /\ plainText "DevOps"
  /\ plainText devops
  /\ (List.length (embeddingsToSearch store (Some "s1") None) <= 10)%nat
  /\ exists c,
       JsMap.get (embeddings store) (chunkId "d1" 0) = Some c
       /\ documentId c = "d1"
       /\ chunkIndex c = 0%nat
       /\ text c = devops
       /\ In c (embeddingsToSearch store (Some "s1") None)
       /\ incl (scored (createTextEmbedding "DevOps") c)
            (semanticSearch store "DevOps" (Some "s1") 10 None).
Proof.
  assert (H1 : "s1" <> EmptyString) by discriminate.
  assert (H2 : nth_error [devops; tools] 0 = Some devops) by reflexivity.
  assert (H4 : (List.length (embeddingsToSearch store (Some "s1") None) <= 10)%nat)
    by (rewrite candidates_store; simpl; lia).
  assert (P1 : plainText "DevOps") by (vm_compute; repeat constructor).
  assert (P2 : plainText devops) by (vm_compute; repeat constructor).
  split; [exact reachable_empty|]. split; [exact H1|]. split; [exact H2|].
  split; [exact P1|]. split; [exact P2|]. split; [exact H4|].
  apply (added_chunk_is_scored 0 emptyStore "d1" [devops; tools] Sample.meta "s1"
           "DevOps" 10 0 devops reachable_empty H1 H2 P1 P2 H4).
Defined.



End FurtherScenarioFacts.

(** ** The normal form of [preprocessText] *)

Section Preprocessing.

Ltac each_char c := destruct c as [[] [] [] [] [] [] [] []].

Lemma cleaned_class (c : ascii) :
  Js.isSpace (cleaned c) || plainChar (cleaned c) = true.
Proof. each_char c; reflexivity. Qed.

Lemma plainChar_fixed (c : ascii) :
  plainChar c = true ->
  Js.lowerChar c = c
  /\ (if Js.isWordChar c || Js.isSpace c then c else " "%char) = c
  /\ (Js.isSpace c = true -> c = " "%char).
Proof. each_char c; intros H; try discriminate H; repeat split; intros H'; discriminate H'. Qed.

Lemma allChars_mapChars (text : string) :
  allChars (fun c => Js.isSpace c || plainChar c)
    (Js.mapChars (fun c => if Js.isWordChar c || Js.isSpace c then c else " "%char)
       (Js.toLowerCase text)) = true.
Proof.
  unfold Js.toLowerCase. induction text as [|c r IH]; simpl; [reflexivity|].
  rewrite IH, andb_true_r. apply (cleaned_class c).
Qed.

Lemma allChars_collapseRuns (b : bool) (s : string) :
  allChars (fun c => Js.isSpace c || plainChar c) s = true ->
  allChars plainChar (Js.collapseRuns b s) = true.
Proof.
  revert b. induction s as [|c r IH]; intros b H; simpl in *; [reflexivity|].
  apply andb_true_iff in H. destruct H as [Hc Hr].
  destruct (Js.isSpace c) eqn:E.
  - destruct b; [apply IH, Hr|]. simpl. apply IH, Hr.
  - simpl in Hc. simpl. rewrite Hc. apply IH, Hr.
Qed.

Lemma allChars_trimStart (p : ascii -> bool) (s : string) :
  allChars p s = true -> allChars p (Js.trimStart s) = true.
Proof.
  induction s as [|c r IH]; intros H; simpl in *; [reflexivity|].
  destruct (Js.isSpace c); [|exact H].
  apply andb_true_iff in H. apply IH, H.
Qed.

Lemma allChars_trimEnd (p : ascii -> bool) (s : string) :
  allChars p s = true -> allChars p (Js.trimEnd s) = true.
Proof.
  induction s as [|c r IH]; intros H; simpl in *; [reflexivity|].
  apply andb_true_iff in H. destruct H as [Hc Hr]. specialize (IH Hr).
  destruct (Js.trimEnd r) as [|a r'].
  - destruct (Js.isSpace c); simpl; [reflexivity | now rewrite Hc].
  - cbn [allChars]. now rewrite Hc.
Qed.

Lemma singleSpaced_collapseRuns (b : bool) (s : string) :
  singleSpaced b (Js.collapseRuns b s) = true.
Proof.
  revert b. induction s as [|c r IH]; intros b; simpl; [reflexivity|].
  destruct (Js.isSpace c) eqn:E.
  - destruct b; [apply IH|].
    cbn [singleSpaced]. change (Js.isSpace " ") with true. cbv iota. simpl. apply IH.
  - cbn [singleSpaced]. rewrite E. apply IH.
Qed.

Lemma singleSpaced_weaken (b : bool) (s : string) :
  singleSpaced b s = true -> singleSpaced false s = true.
Proof.
  destruct s as [|c r]; simpl; [auto|].
  destruct (Js.isSpace c); [|auto].
  intros H. apply andb_true_iff in H. simpl. apply H.
Qed.

Lemma singleSpaced_trimStart (b : bool) (s : string) :
  singleSpaced b s = true -> singleSpaced false (Js.trimStart s) = true.
Proof.
  revert b. induction s as [|c r IH]; intros b H; [reflexivity|].
  cbn [Js.trimStart]. destruct (Js.isSpace c) eqn:E.
  - cbn [singleSpaced] in H. rewrite E in H. apply andb_true_iff in H.
    apply (IH true), H.
  - apply (singleSpaced_weaken b), H.
Qed.

Lemma singleSpaced_trimEnd (b : bool) (s : string) :
  singleSpaced b s = true -> singleSpaced b (Js.trimEnd s) = true.
Proof.
  revert b. induction s as [|c r IH]; intros b H; [reflexivity|].
  cbn [Js.trimEnd]. cbn [singleSpaced] in H.
  destruct (Js.isSpace c) eqn:E.
  - apply andb_true_iff in H. destruct H as [Hb Hr]. specialize (IH true Hr).
    destruct (Js.trimEnd r) as [|a r']; [reflexivity|].
    cbn [singleSpaced] in IH |- *. rewrite E, Hb. exact IH.
  - specialize (IH false H).
    destruct (Js.trimEnd r) as [|a r'].
    + cbn [singleSpaced]. now rewrite E.
    + cbn [singleSpaced] in IH |- *. rewrite E. exact IH.
Qed.

Lemma collapseRuns_fixed (b : bool) (s : string) :
  allChars plainChar s = true -> singleSpaced b s = true -> Js.collapseRuns b s = s.
Proof.
  revert b. induction s as [|c r IH]; intros b Hp Hs; [reflexivity|].
  cbn [allChars] in Hp. apply andb_true_iff in Hp. destruct Hp as [Hc Hr].
  cbn [singleSpaced] in Hs. cbn [Js.collapseRuns].
  destruct (Js.isSpace c) eqn:E.
  - apply andb_true_iff in Hs. destruct Hs as [Hb Hs].
    destruct b; [discriminate|].
    destruct (plainChar_fixed c Hc) as [_ [_ Hsp]].
    now rewrite (IH true Hr Hs), (Hsp E).
  - now rewrite (IH false Hr Hs).
Qed.

Lemma mapChars_fixed (f : ascii -> ascii) (s : string) :
  allChars (fun c => Ascii.eqb (f c) c) s = true -> Js.mapChars f s = s.
Proof.
  induction s as [|c r IH]; intros H; simpl in *; [reflexivity|].
  apply andb_true_iff in H. destruct H as [Hc Hr].
  apply Ascii.eqb_eq in Hc. now rewrite Hc, IH.
Qed.

Lemma allChars_impl (p q : ascii -> bool) (s : string) :
  (forall c, p c = true -> q c = true) ->
  allChars p s = true -> allChars q s = true.
Proof.
  intros Hpq. induction s as [|c r IH]; intros H; simpl in *; [reflexivity|].
  apply andb_true_iff in H. destruct H as [Hc Hr].
  now rewrite (Hpq c Hc), IH.
Qed.

Lemma trimEnd_idem (s : string) : Js.trimEnd (Js.trimEnd s) = Js.trimEnd s.
Proof.
  induction s as [|c r IH]; [reflexivity|].
  cbn [Js.trimEnd]. destruct (Js.trimEnd r) as [|a r'] eqn:E.
  - destruct (Js.isSpace c) eqn:Ec; [reflexivity|].
    cbn [Js.trimEnd]. now rewrite Ec.
  - change (Js.trimEnd (String c (String a r')))
      with (match Js.trimEnd (String a r') with
            | EmptyString => if Js.isSpace c then EmptyString else String c EmptyString
            | String a' r'' => String c (String a' r'')
            end).
    now rewrite IH.
Qed.

Lemma trimStart_head (s : string) :
  match Js.trimStart s with
  | EmptyString => True
  | String c _ => Js.isSpace c = false
  end.
Proof.
  induction s as [|c r IH]; simpl; [exact I|].
  destruct (Js.isSpace c) eqn:E; [exact IH | exact E].
Qed.

Lemma trim_idem (s : string) : Js.trim (Js.trim s) = Js.trim s.
Proof.
  unfold Js.trim.
  assert (H : Js.trimStart (Js.trimEnd (Js.trimStart s)) = Js.trimEnd (Js.trimStart s)).
  { pose proof (trimStart_head s) as Hh.
    destruct (Js.trimStart s) as [|c r]; [reflexivity|].
    cbn [Js.trimEnd]. destruct (Js.trimEnd r) as [|a r'].
    - rewrite Hh. cbn [Js.trimStart]. now rewrite Hh.
    - cbn [Js.trimStart]. now rewrite Hh. }
  rewrite H. apply trimEnd_idem.
Qed.

Context {P : Packages}.

(** X28. [preprocessText] puts a text in a normal form: what it returns holds
    only lower-case letters, digits, underscores and single spaces, none at
    either end, and preprocessing it again changes nothing. *)
Theorem preprocessText_normal_form (text : string) :
  allChars plainChar (preprocessText text) = true
  /\ singleSpaced true (preprocessText text) = true
  /\ Js.trim (preprocessText text) = preprocessText text
  /\ preprocessText (preprocessText text) = preprocessText text.
Proof.
  set (mapped := Js.mapChars
                   (fun c => if Js.isWordChar c || Js.isSpace c then c else " "%char)
                   (Js.toLowerCase text)).
  assert (E : preprocessText text = Js.trim (Js.collapseRuns false mapped)) by reflexivity.
  assert (A : allChars plainChar (preprocessText text) = true).
  { rewrite E. unfold Js.trim.
    apply allChars_trimEnd, allChars_trimStart, allChars_collapseRuns, allChars_mapChars. }
  assert (T : Js.trim (preprocessText text) = preprocessText text)
    by (rewrite E; apply trim_idem).
  assert (S0 : singleSpaced false (preprocessText text) = true).
  { rewrite E. unfold Js.trim.
    apply singleSpaced_trimEnd, (singleSpaced_trimStart false), singleSpaced_collapseRuns. }
  assert (S1 : singleSpaced true (preprocessText text) = true).
  { rewrite E in *. unfold Js.trim in *.
    pose proof (trimStart_head (Js.collapseRuns false mapped)) as Hh.
    revert S0. destruct (Js.trimStart (Js.collapseRuns false mapped)) as [|c r];
      [reflexivity|].
    cbn [Js.trimEnd]. destruct (Js.trimEnd r) as [|a r'].
    - rewrite Hh. cbn [singleSpaced]. now rewrite Hh.
    - cbn [singleSpaced]. now rewrite Hh. }
  split; [exact A|]. split; [exact S1|]. split; [exact T|].
  unfold preprocessText at 1. unfold Js.toLowerCase.
  rewrite (mapChars_fixed Js.lowerChar).
  - rewrite (mapChars_fixed _ (preprocessText text)).
    + rewrite (collapseRuns_fixed false _ A S0). exact T.
    + apply (allChars_impl plainChar); [|exact A].
      intros c Hc. apply Ascii.eqb_eq. apply (plainChar_fixed c Hc).
  - apply (allChars_impl plainChar); [|exact A].
    intros c Hc. apply Ascii.eqb_eq. apply (plainChar_fixed c Hc).
Qed.

End Preprocessing.

(** ** The results are the best candidates *)

Section TopResults.

Context {P : Packages}.

Local Open Scope R_scope.

(** X29. In a store the service has built, a search returns the best candidates:
    the chunks in scope that score above the threshold, put in descending
    order of similarity, are the results followed by the chunks left out, and
    chunks are left out only when the limit is reached. *)
Theorem search_returns_the_best (st : Store) (query : string)
  (sessionId : option string) (limit : nat) (documentIds : option (list string)) :
  reachable st ->
  exists leftOut,
    Permutation
      (semanticSearch st query sessionId limit documentIds ++ leftOut)
      (flat_map (scored (createTextEmbedding query))
         (embeddingsToSearch st sessionId documentIds))
    /\ descending similarity
         (semanticSearch st query sessionId limit documentIds ++ leftOut)
    /\ (leftOut = []
        \/ List.length (semanticSearch st query sessionId limit documentIds) = limit).
Proof.
  intros H. destruct (reachable_entries st H) as [Hc _]. rewrite Forall_forall in Hc.
  assert (Hall : Forall (fun e => embedding e <> None)
                   (embeddingsToSearch st sessionId documentIds)).
  { apply Forall_forall. intros e He. unfold embeddingsToSearch in He.
    apply selectFor_In in He. destruct He as [He _].
    apply values_In in He. destruct He as [k He].
    destruct (Hc _ He) as [_ [E _]]. cbn [snd] in E. congruence. }
  unfold semanticSearch. rewrite (scoreEmbeddings_scored _ _ _ Hall). cbn [app].
  set (candidates := flat_map (scored (createTextEmbedding query))
                       (embeddingsToSearch st sessionId documentIds)).
  set (sorted := Js.sortBy (fun b a => Js.Rltb (similarity a) (similarity b)) candidates).
  exists (skipn limit sorted). unfold Js.slice0. rewrite firstn_skipn.
  split; [apply sortBy_perm|]. split; [apply sortBy_descending|].
  destruct (le_lt_dec (List.length sorted) limit) as [L | L].
  - left. apply skipn_all2, L.
  - right. apply firstn_length_le. lia.
Qed.

End TopResults.

(** [search_returns_the_best] at the store of the scenario, with the limit
    at one result. *)
Lemma search_returns_the_best_witness :
  @reachable Sample.packages Scenario.twoSessions
  /\ exists leftOut,
       Permutation
         (@semanticSearch Sample.packages Scenario.twoSessions "Docker" None 1 None
          ++ leftOut)
         (flat_map (@scored (@createTextEmbedding Sample.packages "Docker"))
            (embeddingsToSearch Scenario.twoSessions None None))
       /\ descending similarity
            (@semanticSearch Sample.packages Scenario.twoSessions "Docker" None 1 None
             ++ leftOut)
       /\ (leftOut = []
           \/ List.length
                (@semanticSearch Sample.packages Scenario.twoSessions "Docker" None 1 None)
              = 1%nat).
Proof.
  split; [exact reachable_twoSessions|].
  apply (@search_returns_the_best Sample.packages Scenario.twoSessions "Docker" None 1 None
           reachable_twoSessions).
Defined.

(** ** Feature extraction when the keyword package throws *)

Section Counters.










End Counters.

Section CountOrder.

Context {A : Type} (key : A -> nat).






End CountOrder.

Section FallbackKeywords.

Context {P : Packages}.






End FallbackKeywords.


(** ** The score in double precision *)

Section DoubleSigns.

Import SpecFloat.










End DoubleSigns.

Section DoubleScore.

Import PrimFloat.

Local Open Scope float_scope.






(** The score is the weighted sum over the sum of the weights, which is
    0.9999999999999999 as the source adds them. *)
Lemma calculateEnhancedSimilarity_quotient (queryEmb docEmb : Embedding) :
  Double.calculateEnhancedSimilarity queryEmb docEmb
  = (0
     + Double.calculateTfidfSimilarity (tfidf queryEmb) (tfidf docEmb) * 0.4
     + Double.calculateVectorSimilarity (wordFreq queryEmb) (wordFreq docEmb) * 0.3
     + Double.calculateKeywordSimilarity (keywords queryEmb) (keywords docEmb) * 0.2
     + Double.calculateSemanticSimilarity (semantic queryEmb) (semantic docEmb) * 0.1)
    / 0.9999999999999999.
Proof. reflexivity. Qed.

Lemma weights_value : Double.weights = 0.9999999999999999.
Proof. reflexivity. Qed.


Lemma calculateTfidfSimilarity_no_shared_key (vec1 vec2 : Obj.t nat) :
  disjoint (Obj.keys vec1) (Obj.keys vec2) = true ->
  Double.calculateTfidfSimilarity vec1 vec2 = 0.
Proof.
  intros H. unfold Double.calculateTfidfSimilarity. cbv zeta.
  now rewrite (disjoint_filter _ _ H).
Qed.

End DoubleScore.

Section DoubleOverlap.

Import PrimFloat.

Local Open Scope float_scope.

Lemma dedupe_length (l : list string) : (List.length (Js.dedupe l) <= List.length l)%nat.
Proof.
  induction l as [|x t IH]; simpl; [lia|].
  pose proof (filter_length_le (fun y => negb (String.eqb y x)) (Js.dedupe t)). lia.
Qed.

(** Nothing out of a count between 1 and 20 is nothing. *)
Lemma zero_over_count (u : nat) :
  (1 <= u <= 20)%nat -> Double.ofNat 0 / Double.ofNat u = 0.
Proof.
  intros [H1 H2]. destruct u as [|u]; [lia|].
  do 20 (destruct u as [|u]; [reflexivity|]). lia.
Qed.

Lemma calculateKeywordSimilarity_no_shared_keyword (keywords1 keywords2 : list string) :
  (List.length keywords1 <= 10)%nat ->
  (List.length keywords2 <= 10)%nat ->
  disjoint (map Js.toLowerCase keywords1) (map Js.toLowerCase keywords2) = true ->
  Double.calculateKeywordSimilarity keywords1 keywords2 = 0.
Proof.
  intros L1 L2 H. unfold Double.calculateKeywordSimilarity. cbv zeta.
  destruct ((List.length keywords1 =? 0) || (List.length keywords2 =? 0))%nat eqn:E;
    [reflexivity|].
  apply orb_false_iff in E. destruct E as [E1 E2].
  apply Nat.eqb_neq in E1.
  assert (D : disjoint (Js.dedupe (map Js.toLowerCase keywords1))
                (Js.dedupe (map Js.toLowerCase keywords2)) = true).
  { apply disjoint_spec. intros k H1 H2.
    apply (proj1 (dedupe_In _ _)) in H1. apply (proj1 (dedupe_In _ _)) in H2.
    exact (proj1 (disjoint_spec _ _) H k H1 H2). }
  rewrite (disjoint_filter _ _ D). apply zero_over_count. split.
  - destruct keywords1 as [|k t]; [simpl in E1; lia|]. simpl. lia.
  - eapply Nat.le_trans; [apply dedupe_length|]. rewrite length_app.
    pose proof (dedupe_length (map Js.toLowerCase keywords1)).
    pose proof (dedupe_length (map Js.toLowerCase keywords2)).
    rewrite !length_map in *. lia.
Qed.

Lemma flags_agree_fold (sem1 sem2 : Semantic) (features : list (Semantic -> bool))
  (matches total : nat) :
  Forall (fun feature => feature sem1 = feature sem2) features ->
  fold_left
    (fun '(matches, total) feature =>
       (if Bool.eqb (feature sem1) (feature sem2) then matches + 1 else matches,
        total + 1)%nat)
    features (matches, total)
  = (matches + List.length features, total + List.length features)%nat.
Proof.
  intros H. revert matches total.
  induction H as [|feature t Hf Ht IH]; intros matches total; simpl.
  - now rewrite !Nat.add_0_r.
  - rewrite Hf, Bool.eqb_reflx, IH. f_equal; lia.
Qed.

(** Records with the same flags and the same sentiment are as similar as
    records can be. *)
Lemma calculateSemanticSimilarity_agree (sem1 sem2 : Semantic) :
  Forall (fun feature => feature sem1 = feature sem2) booleanFeatures ->
  sentiment sem1 = sentiment sem2 ->
  Double.calculateSemanticSimilarity sem1 sem2 = 1.
Proof.
  intros H S. unfold Double.calculateSemanticSimilarity.
  rewrite (flags_agree_fold sem1 sem2 booleanFeatures 0 0 H), S, Z.sub_diag.
  reflexivity.
Qed.

(** Without a shared term or keyword only the semantic term is left, over
    the sum of the weights. *)
Lemma similarity_no_shared_term (queryEmb docEmb : Embedding) :
  (List.length (keywords queryEmb) <= 10)%nat ->
  (List.length (keywords docEmb) <= 10)%nat ->
  disjoint (Obj.keys (tfidf queryEmb)) (Obj.keys (tfidf docEmb)) = true ->
  disjoint (Obj.keys (wordFreq queryEmb)) (Obj.keys (wordFreq docEmb)) = true ->
  disjoint (map Js.toLowerCase (keywords queryEmb))
    (map Js.toLowerCase (keywords docEmb)) = true ->
  Double.calculateEnhancedSimilarity queryEmb docEmb
  = (0 + Double.calculateSemanticSimilarity (semantic queryEmb) (semantic docEmb) * 0.1)
    / Double.weights.
Proof.
  intros L1 L2 H1 H2 H3. rewrite calculateEnhancedSimilarity_quotient.
  unfold Double.calculateVectorSimilarity.
  rewrite (calculateTfidfSimilarity_no_shared_key _ _ H1),
    (calculateTfidfSimilarity_no_shared_key _ _ H2),
    (calculateKeywordSimilarity_no_shared_keyword _ _ L1 L2 H3).
  reflexivity.
Qed.


(** C6, as the code has it. When two feature records, of at most ten
    keywords each as [extractChunkKeywords] builds them, share no stemmed
    term and no keyword, the three lexical sub-scores vanish and the score is
    the semantic-feature similarity times 0.1 over the sum of the weights,
    0.9999999999999999.  When moreover the seven flags and the sentiment of
    the two records agree, the score is 0.10000000000000002 and passes the
    test [similarity > 0.1] of the search. *)
Theorem similarity_without_shared_terms (queryEmb docEmb : Embedding) :
  (List.length (keywords queryEmb) <= 10)%nat ->
  (List.length (keywords docEmb) <= 10)%nat ->
  disjoint (Obj.keys (tfidf queryEmb)) (Obj.keys (tfidf docEmb)) = true ->
  disjoint (Obj.keys (wordFreq queryEmb)) (Obj.keys (wordFreq docEmb)) = true ->
  disjoint (map Js.toLowerCase (keywords queryEmb))
    (map Js.toLowerCase (keywords docEmb)) = true ->
  Double.calculateEnhancedSimilarity queryEmb docEmb
  = (0 + Double.calculateSemanticSimilarity (semantic queryEmb) (semantic docEmb) * 0.1)
    / 0.9999999999999999
  /\ (Forall (fun feature => feature (semantic queryEmb) = feature (semantic docEmb))
        booleanFeatures ->
      sentiment (semantic queryEmb) = sentiment (semantic docEmb) ->
      Double.calculateEnhancedSimilarity queryEmb docEmb = 0.10000000000000002
      /\ (0.1 <? Double.calculateEnhancedSimilarity queryEmb docEmb) = true).
Proof.
  intros L1 L2 H1 H2 H3.
  pose proof (similarity_no_shared_term queryEmb docEmb L1 L2 H1 H2 H3) as E.
  split; [exact E|]. intros F S.
  rewrite E, (calculateSemanticSimilarity_agree _ _ F S).
  split; reflexivity.
Qed.

End DoubleOverlap.

Section DoubleScenario.

#[local] Existing Instance Sample.packages.

Import Scenario.

Import PrimFloat.

Local Open Scope float_scope.



(** The theorem of C6 at the texts [alpha beta gamma] and [delta epsilon]. *)
Lemma similarity_without_shared_terms_witness :
  let queryEmb := createTextEmbedding "alpha beta gamma" in
  let docEmb := createTextEmbedding "delta epsilon" in
  (List.length (keywords queryEmb) <= 10)%nat
  /\ (List.length (keywords docEmb) <= 10)%nat
  /\ disjoint (Obj.keys (tfidf queryEmb)) (Obj.keys (tfidf docEmb)) = true
  /\ disjoint (Obj.keys (wordFreq queryEmb)) (Obj.keys (wordFreq docEmb)) = true
  /\ disjoint (map Js.toLowerCase (keywords queryEmb))
       (map Js.toLowerCase (keywords docEmb)) = true
  /\ Forall (fun feature => feature (semantic queryEmb) = feature (semantic docEmb))
       booleanFeatures
  /\ sentiment (semantic queryEmb) = sentiment (semantic docEmb)
  /\ Double.calculateEnhancedSimilarity queryEmb docEmb
     = (0 + Double.calculateSemanticSimilarity (semantic queryEmb) (semantic docEmb) * 0.1)
       / 0.9999999999999999
  /\ Double.calculateEnhancedSimilarity queryEmb docEmb = 0.10000000000000002
  /\ (0.1 <? Double.calculateEnhancedSimilarity queryEmb docEmb) = true.
Proof.
  intros queryEmb docEmb.
  assert (L1 : (List.length (keywords queryEmb) <= 10)%nat)
    by (vm_compute; repeat constructor).
  assert (L2 : (List.length (keywords docEmb) <= 10)%nat)
    by (vm_compute; repeat constructor).
  assert (H1 : disjoint (Obj.keys (tfidf queryEmb)) (Obj.keys (tfidf docEmb)) = true)
    by evaluate.
  assert (H2 : disjoint (Obj.keys (wordFreq queryEmb)) (Obj.keys (wordFreq docEmb)) = true)
    by evaluate.
  assert (H3 : disjoint (map Js.toLowerCase (keywords queryEmb))
                 (map Js.toLowerCase (keywords docEmb)) = true)
    by evaluate.
  assert (F : Forall (fun feature => feature (semantic queryEmb) = feature (semantic docEmb))
                booleanFeatures)
    by (repeat constructor).
  assert (S : sentiment (semantic queryEmb) = sentiment (semantic docEmb))
    by evaluate.
  pose proof (similarity_without_shared_terms queryEmb docEmb L1 L2 H1 H2 H3) as [E T].
  split; [exact L1|]. split; [exact L2|]. split; [exact H1|]. split; [exact H2|].
  split; [exact H3|]. split; [exact F|]. split; [exact S|]. split; [exact E|].
  exact (T F S).
Defined.

(** C6, counterexample. The query [DevOps] and the chunk about tools share
    no term and no keyword, the chunk does not contain the query, and the
    score is 0.09285714285714287, not 0. *)
Lemma no_shared_term_scores_above_zero :
  disjoint (Obj.keys (tfidf (createTextEmbedding "DevOps")))
    (Obj.keys (tfidf (createTextEmbedding tools))) = true
  /\ disjoint (Obj.keys (wordFreq (createTextEmbedding "DevOps")))
       (Obj.keys (wordFreq (createTextEmbedding tools))) = true
  /\ disjoint (map Js.toLowerCase (keywords (createTextEmbedding "DevOps")))
       (map Js.toLowerCase (keywords (createTextEmbedding tools))) = true
  /\ Js.includes (Js.toLowerCase tools) (Js.toLowerCase "DevOps") = false
  /\ Double.calculateEnhancedSimilarity (createTextEmbedding "DevOps")
       (createTextEmbedding tools) = 0.09285714285714287
  /\ (0 <? Double.calculateEnhancedSimilarity (createTextEmbedding "DevOps")
             (createTextEmbedding tools)) = true.
Proof. repeat split; evaluate. Qed.

End DoubleScenario.
